(** * StreamFinder: the recommendation service of [backend/app/services.py]

    A shallow embedding of [RecommendationService] and of the result cache it
    sits behind, followed by the properties the specification states about
    them.

    Conventions of the embedding.
    - Python [str] is the [string] of the bytes of its UTF-8 encoding;
      what counts or classifies characters ([len], [strip], a slice,
      [int]) goes through [Py.chars], which cuts the bytes into characters.
    - [int] is [Z].
    - A [float] that the service reads and compares - a rating - is a
      binary64 number, [PrimFloat.float], with the operations of the
      processor.  The quotient of two [int]s is rounded to binary64
      ([Py.truediv]).  The similarity score is held by its value, a
      rational: it only ever adds multiples of one half below 2^52, which
      binary floating point adds without error.
    - [None]/exception results of the catalog clients are [option] values or
      constructors of a response type.
    - The outside world (the two catalogs, the clock, the random generator)
      is an explicit argument: a record of responses, indexed by request.
      Within one call a request has one answer.
    - Where a method answers any exception in one way, the answer of its
      request is given as far as the method reads it, and [None] stands for
      every exception.  Where an exception part-way leaves a visible
      trace - the discovery loop - the items carry what may be missing. *)

From Stdlib Require Import List String Ascii ZArith QArith Bool.
From Stdlib Require Import Qminmax.
From Stdlib Require Import Lia Lqa Permutation Sorted.
From Stdlib Require Import DecimalString DecimalZ DecimalPos.
From Stdlib Require Import PrimFloat FloatOps SpecFloat.
Import ListNotations.

Set Implicit Arguments.

Open Scope string_scope.
Open Scope Z_scope.

(* ================================================================== *)
(** ** Python builtins used by the service *)

Module Py.

(** [l[:n]], also for a negative [n]. *)
Definition slice_to {A : Type} (l : list A) (n : Z) : list A :=
  if 0 <=? n then firstn (Z.to_nat n) l
  else firstn (List.length l - Z.to_nat (- n)) l.

(** Truth value of a [str]. *)
Definition truthy (s : string) : bool := negb (s =? "")%string.

(** Truth value of an optional [str] ([None] and [""] are false). *)
Definition truthy_opt (o : option string) : bool :=
  match o with Some s => truthy s | None => false end.

Definition opt_str_eqb (a b : option string) : bool :=
  match a, b with
  | Some x, Some y => (x =? y)%string
  | None, None => true
  | _, _ => false
  end.

Definition qlt (a b : Q) : bool := negb (Qle_bool b a).

Definition qmax (a b : Q) : Q := if qlt a b then b else a.
Definition qmin (a b : Q) : Q := if qlt b a then b else a.

(** [str.lower] and [str.upper] on the ASCII range; other characters are
    left as they are.  The service lowers a query only to look for one of
    four ASCII keys in it, or for it in one of them, and no character
    outside ASCII lowers to a letter that could take part in such a match:
    only U+0130 and U+212A lower to ASCII letters at all, to an i followed
    by a combining dot and to a k.  It raises only its own platform
    tags. *)
Definition lower_ascii (c : ascii) : ascii :=
  let n := nat_of_ascii c in
  if ((65 <=? n) && (n <=? 90))%nat then ascii_of_nat (n + 32) else c.

Definition upper_ascii (c : ascii) : ascii :=
  let n := nat_of_ascii c in
  if ((97 <=? n) && (n <=? 122))%nat then ascii_of_nat (n - 32) else c.

Fixpoint map_str (f : ascii -> ascii) (s : string) : string :=
  match s with
  | EmptyString => EmptyString
  | String c t => String (f c) (map_str f t)
  end.

Definition lower : string -> string := map_str lower_ascii.
Definition upper : string -> string := map_str upper_ascii.

(** [needle in hay] on strings. *)
Fixpoint str_in (needle hay : string) : bool :=
  if prefix needle hay then true
  else match hay with
       | EmptyString => false
       | String _ t => str_in needle t
       end.

(** [x in l] on a list of strings. *)
Definition mem (x : string) (l : list string) : bool :=
  existsb (String.eqb x) l.

(** [f"{n}"] for an [int]. *)
Definition str_of_int (n : Z) : string :=
  NilZero.string_of_int (Z.to_int n).

(** *** Characters

    The characters of a [str]: each is a byte that is not of the form
    10xxxxxx, with the bytes of that form that follow it. *)
Fixpoint drop_while {A : Type} (p : A -> bool) (l : list A) : list A :=
  match l with
  | x :: t => if p x then drop_while p t else l
  | [] => []
  end.

Definition byte (c : ascii) : Z := Z.of_nat (nat_of_ascii c).

Definition is_continuation (c : ascii) : bool :=
  (128 <=? byte c) && (byte c <? 192).

Fixpoint chars (s : string) : list string :=
  match s with
  | EmptyString => []
  | String c rest =>
      match chars rest with
      | String d ds :: more =>
          if is_continuation d then String c (String d ds) :: more
          else String c EmptyString :: String d ds :: more
      | other => String c EmptyString :: other
      end
  end.

Definition join (cs : list string) : string := String.concat "" cs.

(** The shape of a character: a byte followed by continuation bytes only,
    the byte itself being none (which can fail only for the first character
    of bytes that are no UTF-8). *)
Definition tail_ok (ch : string) : Prop :=
  match ch with
  | EmptyString => False
  | String _ t =>
      Forall (fun c => is_continuation c = true) (list_ascii_of_string t)
  end.

Definition head_ok (ch : string) : Prop :=
  match ch with
  | EmptyString => False
  | String b _ => is_continuation b = false
  end.

(** [len(s)] *)
Definition len (s : string) : nat := List.length (chars s).

(** [s[:n]] for [0 <= n] *)
Definition str_slice_to (s : string) (n : nat) : string :=
  join (firstn n (chars s)).

(** [ord(ch)]: the code point of a character, [-1] for bytes that encode
    none. *)
Definition ord (ch : string) : Z :=
  match list_ascii_of_string ch with
  | [a] => if byte a <? 128 then byte a else -1
  | [a; b] =>
      if (192 <=? byte a) && (byte a <? 224)
      then (byte a - 192) * 64 + (byte b - 128) else -1
  | [a; b; c] =>
      if (224 <=? byte a) && (byte a <? 240)
      then (byte a - 224) * 4096 + (byte b - 128) * 64 + (byte c - 128)
      else -1
  | [a; b; c; d] =>
      if (240 <=? byte a) && (byte a <? 248)
      then (byte a - 240) * 262144 + (byte b - 128) * 4096
           + (byte c - 128) * 64 + (byte d - 128)
      else -1
  | _ => -1
  end.

(** [ch.isspace()], by code point: U+0009-000D, U+001C-0020, U+0085,
    U+00A0, U+1680, U+2000-200A, U+2028, U+2029, U+202F, U+205F, U+3000. *)
Definition is_whitespace (n : Z) : bool :=
  ((9 <=? n) && (n <=? 13)) || ((28 <=? n) && (n <=? 32))
  || (n =? 133) || (n =? 160) || (n =? 5760)
  || ((8192 <=? n) && (n <=? 8202))
  || (n =? 8232) || (n =? 8233) || (n =? 8239) || (n =? 8287)
  || (n =? 12288).

Definition is_space (ch : string) : bool := is_whitespace (ord ch).

(** [s.strip()] *)
Definition strip (s : string) : string :=
  join (rev (drop_while is_space (rev (drop_while is_space (chars s))))).

(** *** [int(s)] for a [str]; [None] is [ValueError].

    The characters are first brought to ASCII: a character below 127 is
    kept, white space becomes a blank, a decimal digit of any script its
    ASCII digit, anything else a question mark.  Then come blanks, an
    optional sign, decimal digits with single underscores between them, and
    blanks.  The blanks here are U+0009-000D and U+0020 only.  More than
    [max_str_digits] digits are refused (the default of
    [sys.set_int_max_str_digits]). *)

(** The code points of the digits zero (Unicode 14.0); the nine digits of
    each script follow its zero. *)
Definition decimal_zeros : list Z :=
  [ 48; 1632; 1776; 1984; 2406; 2534; 2662; 2790; 2918; 3046; 3174; 3302;
    3430; 3558; 3664; 3792; 3872; 4160; 4240; 6112; 6160; 6470; 6608; 6784;
    6800; 6992; 7088; 7232; 7248; 42528; 43216; 43264; 43472; 43504; 43600;
    44016; 65296; 66720; 68912; 69734; 69872; 69942; 70096; 70384; 70736;
    70864; 71248; 71360; 71472; 71904; 72016; 72784; 73040; 73120; 92768;
    92864; 93008; 120782; 120792; 120802; 120812; 120822; 123200; 123632;
    125264; 130032 ].

Definition decimal (n : Z) : option Z :=
  option_map (fun zero => n - zero)
             (find (fun zero => (zero <=? n) && (n <=? zero + 9))
                   decimal_zeros).

Definition int_char (ch : string) : ascii :=
  let n := ord ch in
  if (0 <=? n) && (n <? 127) then ascii_of_nat (Z.to_nat n)
  else if is_whitespace n then " "%char
  else match decimal n with
       | Some d => ascii_of_nat (Z.to_nat (48 + d))
       | None => "?"%char
       end.

Definition is_int_space (c : ascii) : bool :=
  ((9 <=? byte c) && (byte c <=? 13)) || (byte c =? 32).

Definition is_digit (c : ascii) : bool :=
  (48 <=? byte c) && (byte c <=? 57).

Definition max_str_digits : Z := 4300.

Fixpoint digits (cs : list ascii) (acc : Z) (count : Z) (after_digit : bool)
  : option Z :=
  match cs with
  | [] => if after_digit && (count <=? max_str_digits) then Some acc else None
  | c :: t =>
      if is_digit c then digits t (10 * acc + (byte c - 48)) (count + 1) true
      else if Ascii.eqb c "_" && after_digit then digits t acc count false
      else None
  end.

Definition int_of_str (s : string) : option Z :=
  let cs := map int_char (chars s) in
  match rev (drop_while is_int_space (rev (drop_while is_int_space cs))) with
  | "-"%char :: t => option_map Z.opp (digits t 0 0 false)
  | "+"%char :: t => digits t 0 0 false
  | cs => digits cs 0 0 false
  end.

(** *** Binary floating point *)

(** [floor(log2(n/d))] for positive [n] and [d]. *)
Definition floor_log2 (n d : Z) : Z :=
  let k := Z.log2 n - Z.log2 d in
  if (if 0 <=? k then d * 2 ^ k <=? n else d <=? n * 2 ^ (- k))
  then k else k - 1.

(** [n/d] to the nearest integer, ties to the even one, for [0 <= n] and
    [0 < d]. *)
Definition half_even (n d : Z) : Z :=
  let q := n / d in
  match 2 * (n mod d) ?= d with
  | Lt => q
  | Gt => q + 1
  | Eq => if Z.even q then q else q + 1
  end.

(** The binary64 number nearest to [n/d], ties to even, for positive [n]
    and [d]: its integral significand and its exponent. *)
Definition binary64 (n d : Z) : Z * Z :=
  let e := Z.max (floor_log2 n d - 52) (-1074) in
  (if 0 <=? e then half_even n (d * 2 ^ e) else half_even (n * 2 ^ (- e)) d,
   e).

Definition pow2 (e : Z) : Q :=
  if 0 <=? e then inject_Z (2 ^ e) else (1 / inject_Z (2 ^ (- e)))%Q.

(** [a / b] for an [int] that is not negative and a positive one, [a] not
    above [2^1024 * b]: the float nearest to the quotient, by its value. *)
Definition truediv (a b : Z) : Q :=
  let (m, e) := binary64 a b in (inject_Z m * pow2 e)%Q.

(** The float nearest to a rational that is not negative, by its value:
    the result of an operation on floats whose exact result is [q]. *)
Definition float_of_Q (q : Q) : Q := truediv (Qnum q) (Zpos (Qden q)).

(** [round(x, 2)] for a float that is not negative, given by its value: the
    value rounded to two decimals, ties to even, and the float nearest to
    that decimal. *)
Definition round2 (x : Q) : Q :=
  truediv (half_even (Qnum x * 100) (Zpos (Qden x))) 100.

(** [round(x, 1)] for a float: its value rounded to one decimal, ties to
    even, and the float nearest to that decimal.  Zeros, infinities and
    [nan] are returned as they are. *)
Definition round1 (x : float) : float :=
  match Prim2SF x with
  | S754_finite s m e =>
      if 0 <=? e then x
      else
        let tenths := half_even (Zpos m * 10) (2 ^ (- e)) in
        let r :=
          match tenths with
          | Zpos _ =>
              let (m', e') := binary64 tenths 10 in
              SF2Prim (S754_finite false (Z.to_pos m') e')
          | _ => PrimFloat.zero
          end in
        if s then PrimFloat.opp r else r
  | _ => x
  end.

(** [x or 0] for a float: zero is false, [nan] is not. *)
Definition float_or_zero (x : option float) : float :=
  match x with
  | Some v => if PrimFloat.eqb v PrimFloat.zero then PrimFloat.zero else v
  | None => PrimFloat.zero
  end.

(** [l.sort(key=key, reverse=True)]: a stable sort, largest key first;
    items with equal keys keep their order. *)
Fixpoint insert_desc {A : Type} (key : A -> Q) (x : A) (l : list A) : list A :=
  match l with
  | [] => [x]
  | y :: t => if qlt (key x) (key y) then y :: insert_desc key x t
              else x :: y :: t
  end.

Definition sort_desc {A : Type} (key : A -> Q) (l : list A) : list A :=
  fold_right (insert_desc key) [] l.

(** Enumerate: [[(0, x0); (1, x1); ...]] from a start index. *)
Fixpoint enumerate_from {A : Type} (i : nat) (l : list A) : list (nat * A) :=
  match l with
  | [] => []
  | x :: t => (i, x) :: enumerate_from (S i) t
  end.

(** List comprehension with a filter that may drop items. *)
Fixpoint filter_map {A B : Type} (f : A -> option B) (l : list A) : list B :=
  match l with
  | [] => []
  | x :: t => match f x with
              | Some y => y :: filter_map f t
              | None => filter_map f t
              end
  end.

End Py.

(* ================================================================== *)
(** ** [app/config.py] *)

Module Config.

Record Settings := {
  youtube_api_key : string;
  tmdb_api_key : string;
  database_url : string;
  api_timeout : Z;
  cache_ttl : Z;
  max_results_per_query : Z
  }.

(** The defaults of the class; the two keys have none and come from the
    environment. *)
Definition defaults (yt tmdb : string) : Settings :=
  {| youtube_api_key := yt;
     tmdb_api_key := tmdb;
     database_url := "sqlite+aiosqlite:///./quickflicks.db";
     api_timeout := 10;
     cache_ttl := 180;
     max_results_per_query := 50 |}.

(** The integer-valued settings, by name. *)
Definition int_settings : list (string * (Settings -> Z)) :=
  [ ("api_timeout", api_timeout);
    ("cache_ttl", cache_ttl);
    ("max_results_per_query", max_results_per_query) ].

End Config.

(* ================================================================== *)
(** ** [cachetools.TTLCache], as the service uses it

    The class comes from the [cachetools] package, not from the repository;
    this is its documented behaviour for the three operations the service
    performs on it ([in], indexing, assignment).  The links are kept
    oldest-used first, as the cache's ordered dictionary does; each carries
    its expiry time.  Expiry is passive: an expired link is ignored by reads
    and removed by the next write.  Every value has size one. *)

Module TTLCache.

Section Cache.
Variable V : Type.

Record Link := { key : string; value : V; expires : Q }.

Record t := { maxsize : Z; ttl : Q; links : list Link }.

Definition create (maxsize : Z) (ttl : Q) : t :=
  {| maxsize := maxsize; ttl := ttl; links := [] |}.

Definition has_key (k : string) (e : Link) : bool := (key e =? k)%string.

Definition getlink (c : t) (k : string) : option Link :=
  find (has_key k) (links c).

(** [k in cache] at time [time]. *)
Definition contains (c : t) (time : Q) (k : string) : bool :=
  match getlink c k with
  | Some e => Py.qlt time (expires e)
  | None => false
  end.

Definition without (k : string) (l : list Link) : list Link :=
  filter (fun e => negb (has_key k e)) l.

(** [cache[k]] at time [time]; [None] is [KeyError].  A successful read
    moves the link to the most-recently-used end. *)
Definition getitem (c : t) (time : Q) (k : string) : option (V * t) :=
  match getlink c k with
  | Some e =>
      if Py.qlt time (expires e)
      then Some (value e,
                 {| maxsize := maxsize c; ttl := ttl c;
                    links := (without k (links c) ++ [e])%list |})
      else None
  | None => None
  end.

Definition expire (time : Q) (l : list Link) : list Link :=
  filter (fun e => Py.qlt time (expires e)) l.

(** [while currsize + 1 > maxsize: popitem()]. *)
Fixpoint evict (maxsize : Z) (l : list Link) : list Link :=
  match l with
  | [] => []
  | _ :: rest =>
      if maxsize <? Z.of_nat (List.length l) + 1 then evict maxsize rest else l
  end.

(** [cache[k] = v] at time [time]; [None] is [ValueError] (a value
    larger than the whole cache). *)
Definition setitem (c : t) (time : Q) (k : string) (v : V) : option t :=
  if maxsize c <? 1 then None
  else
    let live := expire time (links c) in
    let room := if existsb (has_key k) live then live
                else evict (maxsize c) live in
    Some {| maxsize := maxsize c; ttl := ttl c;
            links := (without k room
                      ++ [ {| key := k; value := v;
                              expires := (time + ttl c)%Q |} ])%list |}.

End Cache.

End TTLCache.


(* ================================================================== *)
(** ** Data model of the service *)

(** A response item, as the service returns it (a [dict] in the source).
    The three last fields exist only on structured-media cards. *)
Module Card.

Record t := {
  id : string;
  title : string;
  description : string;
  thumbnail : string;
  channel : string;
  published_at : string;
  platform : string;
  url : string;
  all_platforms : option (list string);
  rating : option float;
  year : option string
}.

Definition with_platform (p : string) (c : t) : t :=
  {| id := id c; title := title c; description := description c;
     thumbnail := thumbnail c; channel := channel c;
     published_at := published_at c; platform := p; url := url c;
     all_platforms := all_platforms c; rating := rating c; year := year c |}.

End Card.

(** One item of a video-search response.  [videoId] may be missing. *)
Module YtItem.

Record t := {
  videoId : option string;
  title : string;
  description : string;
  thumbnail_high : string;
  channelTitle : string;
  publishedAt : string
}.

End YtItem.

(** The parameters of a video-search request that the service varies. *)
Module YtParams.

Record t := {
  q : string;
  regionCode : string;
  maxResults : Z;
  order : option string;
  videoDuration : option string;
  relevanceLanguage : option string;
  safeSearch : option string
}.

End YtParams.

(** The outcome of a video-search request: an exception (network, status,
    decoding), a decoded body with an ["error"] member, or the items. *)
Inductive YtResponse :=
| YtException
| YtErrorBody (message : string)
| YtItems (items : list YtItem.t).

Inductive media_type := movie | tv.

Definition media_type_eqb (a b : media_type) : bool :=
  match a, b with movie, movie | tv, tv => true | _, _ => false end.

(** One entry of a metadata-catalog result list.  [title] is the member
    under the title key of the media type, [date] the one under its date
    key; [popularity] is read with default 0. *)
Module TmdbRaw.

Record t := {
  id : Z;
  title : string;
  overview : string;
  poster_path : option string;
  date : string;
  popularity : Q
}.

End TmdbRaw.

(** A candidate ([dict] with id, title, overview, poster_url, release_date,
    popularity when it comes from a list endpoint, and [_score] once it is
    scored). *)
Module Candidate.

Record t := {
  id : Z;
  title : string;
  overview : string;
  poster_url : string;
  release_date : string;
  popularity : option Q;
  _score : option Q
}.

Definition with_score (s : Q) (c : t) : t :=
  {| id := id c; title := title c; overview := overview c;
     poster_url := poster_url c; release_date := release_date c;
     popularity := popularity c; _score := Some s |}.

End Candidate.

(** What [_get_tmdb_details] returns for an item. *)
Module Details.

Record t := {
  id : Z;
  director : option string;
  cast : list string;
  genres : list string;
  keywords : list string;
  companies : list string;
  budget : Z;
  revenue : Z;
  runtime : Z;
  rating : float;
  release_year : string;
  collection : option string
}.

Definition with_collection (col : option string) (d : t) : t :=
  {| id := id d; director := director d; cast := cast d; genres := genres d;
     keywords := keywords d; companies := companies d; budget := budget d;
     revenue := revenue d; runtime := runtime d; rating := rating d;
     release_year := release_year d; collection := col |}.

End Details.

(** A platform on which an item can be watched. *)
Module Provider.

Record t := { platform : string; url : string }.

End Provider.

(** One entry of the result list of the genre discovery, as the loop over
    it reads it.  [id] and [title] are indexed, and [None] is an entry
    without that member: reading it raises [KeyError].  [popularity] is
    read with default 0 and compared with a number; [None] is a value that
    is no number, for which the comparison raises [TypeError]. *)
Module DiscoverItem.

Record t := {
  id : option Z;
  title : option string;
  overview : string;
  poster_path : option string;
  date : string;
  popularity : option Q
}.

End DiscoverItem.

(** The outcome of the genre-discovery request: an exception of the request
    or of the decoding of its body, or a response with its status code and
    the result list of its body. *)
Inductive DiscoverResponse :=
| DiscoverException
| DiscoverAnswer (status_code : Z) (results : list DiscoverItem.t).

(** The world outside the service during one request: what each catalog
    answers to each request, and the two library functions whose result
    depends on it.
    - [tmdb_search], [tmdb_similar]: [None] is an exception of the request;
    - [tmdb_providers]: the provider ids under ["US"]["flatrate"] and
      ["US"]["buy"], [None] an exception;
    - [tmdb_title]: what [_get_tmdb_title] returns (["Unknown"] on failure);
    - [tmdb_details]: what [_get_tmdb_details] returns ([None] on failure);
    - [quote]: [urllib.parse.quote];
    - [days_old]: for a [published_at] string, the whole days between it and
      the clock, [None] when the string does not parse as an ISO date. *)
Record Upstream := {
  youtube_search : YtParams.t -> YtResponse;
  tmdb_search : string -> media_type -> option (list TmdbRaw.t);
  tmdb_similar : Z -> media_type -> option (list TmdbRaw.t);
  tmdb_discover : list Z -> media_type -> DiscoverResponse;
  tmdb_providers : Z -> media_type -> option (list Z * list Z);
  tmdb_title : Z -> media_type -> string;
  tmdb_details : Z -> media_type -> option Details.t;
  quote : string -> string;
  days_old : string -> option Z
}.


(* ================================================================== *)
(** ** The fallback catalog (the tables of the three [_get_mock_*]) *)

Definition mock_youtube_videos : list (string * string * string * string) :=
  [
    ("MrBeast - $1 vs $500,000 Experiences", "jk7GA4EZZrw", "https://i.ytimg.com/vi/jk7GA4EZZrw/hqdefault.jpg", "MrBeast");
    ("Mark Rober - Glitter Bomb 5.0", "h4T_LlK1VE4", "https://i.ytimg.com/vi/h4T_LlK1VE4/hqdefault.jpg", "Mark Rober");
    ("Veritasium - The Most Powerful Computers", "IxkSlnrRFqc", "https://i.ytimg.com/vi/IxkSlnrRFqc/hqdefault.jpg", "Veritasium");
    ("Marques Brownlee - iPhone 15 Review", "TUXpoM9OY3M", "https://i.ytimg.com/vi/TUXpoM9OY3M/hqdefault.jpg", "MKBHD");
    ("Kurzgesagt - What if You Detonated a Nuclear Bomb", "5iPH-br_eJQ", "https://i.ytimg.com/vi/5iPH-br_eJQ/hqdefault.jpg", "Kurzgesagt");
    ("Vsauce - What If Everyone Jumped at Once", "jHbyQ_AQP8c", "https://i.ytimg.com/vi/jHbyQ_AQP8c/hqdefault.jpg", "Vsauce");
    ("Dude Perfect - Extreme Hide and Seek", "rf0Lsjewg8c", "https://i.ytimg.com/vi/rf0Lsjewg8c/hqdefault.jpg", "Dude Perfect");
    ("Casey Neistat - DO WHAT YOU CAN'T", "jG7dSXcfVqE", "https://i.ytimg.com/vi/jG7dSXcfVqE/hqdefault.jpg", "Casey Neistat") ].

Definition mock_shorts : list (string * string * string * string) :=
  [
    ("Labubu Unboxing #1", "nXA_f0xBSjw", "https://i.ytimg.com/vi/nXA_f0xBSjw/hqdefault.jpg", "Toy Reviews");
    ("Labubu Collection Tour", "8VGF-rQqF7Q", "https://i.ytimg.com/vi/8VGF-rQqF7Q/hqdefault.jpg", "Collectibles Hub");
    ("Viral Dance Trend", "2g6J6vT5mBU", "https://i.ytimg.com/vi/2g6J6vT5mBU/hqdefault.jpg", "TikTok Dancer");
    ("Funny Cat Moment", "J---aiyznGQ", "https://i.ytimg.com/vi/J---aiyznGQ/hqdefault.jpg", "Cat Lover");
    ("Quick Recipe Hack", "0FTw0UHb3vw", "https://i.ytimg.com/vi/0FTw0UHb3vw/hqdefault.jpg", "Food Shorts");
    ("Life Hack You Need", "dQw4w9WgXcQ", "https://i.ytimg.com/vi/dQw4w9WgXcQ/hqdefault.jpg", "Daily Tips");
    ("Satisfying Video", "9bZkp7q19f0", "https://i.ytimg.com/vi/9bZkp7q19f0/hqdefault.jpg", "Oddly Satisfying");
    ("Epic Fail Compilation", "K5le9sYdYkM", "https://i.ytimg.com/vi/K5le9sYdYkM/hqdefault.jpg", "Fail Army");
    ("Magic Trick Revealed", "YbJOTdZBX1g", "https://i.ytimg.com/vi/YbJOTdZBX1g/hqdefault.jpg", "Magic Show");
    ("Cute Puppy Reaction", "2Vv-BfVoq4g", "https://i.ytimg.com/vi/2Vv-BfVoq4g/hqdefault.jpg", "Pet Channel") ].

Definition mock_movie_table : list (string * list (string * string * string)) :=
  [
    ("avengers",
     [
       ("Iron Man Official Trailer", "8ugaeA-nMTc", "https://i.ytimg.com/vi/8ugaeA-nMTc/hqdefault.jpg");
       ("Captain America: Winter Soldier Trailer", "7SlILk2WMTI", "https://i.ytimg.com/vi/7SlILk2WMTI/hqdefault.jpg");
       ("Thor Official Trailer", "JOddp-nlNvQ", "https://i.ytimg.com/vi/JOddp-nlNvQ/hqdefault.jpg");
       ("Guardians of the Galaxy Trailer", "d96cjJhvlMA", "https://i.ytimg.com/vi/d96cjJhvlMA/hqdefault.jpg");
       ("Black Panther Official Trailer", "xjDjIWPwcPU", "https://i.ytimg.com/vi/xjDjIWPwcPU/hqdefault.jpg");
       ("Doctor Strange Trailer", "HSzx-zryEgM", "https://i.ytimg.com/vi/HSzx-zryEgM/hqdefault.jpg") ]);
    ("inception",
     [
       ("Interstellar Trailer", "zSWdZVtXT7E", "https://i.ytimg.com/vi/zSWdZVtXT7E/hqdefault.jpg");
       ("Shutter Island Trailer", "5iaYLCiq5RM", "https://i.ytimg.com/vi/5iaYLCiq5RM/hqdefault.jpg");
       ("The Prestige Trailer", "o4gHCmTQDVI", "https://i.ytimg.com/vi/o4gHCmTQDVI/hqdefault.jpg");
       ("Memento Trailer", "HDWylEQSwFo", "https://i.ytimg.com/vi/HDWylEQSwFo/hqdefault.jpg");
       ("Tenet Trailer", "AZGcmvrTX9M", "https://i.ytimg.com/vi/AZGcmvrTX9M/hqdefault.jpg");
       ("The Matrix Trailer", "m8e-FF8MsqU", "https://i.ytimg.com/vi/m8e-FF8MsqU/hqdefault.jpg") ]);
    ("spider-man",
     [
       ("Spider-Man: No Way Home", "JfVOs4VSpmA", "https://i.ytimg.com/vi/JfVOs4VSpmA/hqdefault.jpg");
       ("Spider-Man: Into the Spider-Verse", "g4Hbz2jLxvQ", "https://i.ytimg.com/vi/g4Hbz2jLxvQ/hqdefault.jpg");
       ("The Amazing Spider-Man", "DyLUwOcR5pk", "https://i.ytimg.com/vi/DyLUwOcR5pk/hqdefault.jpg");
       ("Spider-Man: Homecoming", "rk-dF1lIbIg", "https://i.ytimg.com/vi/rk-dF1lIbIg/hqdefault.jpg");
       ("Spider-Man: Far From Home", "Nt9L1jCKGnE", "https://i.ytimg.com/vi/Nt9L1jCKGnE/hqdefault.jpg");
       ("Venom", "u9Mv98Gr5pY", "https://i.ytimg.com/vi/u9Mv98Gr5pY/hqdefault.jpg") ]);
    ("batman",
     [
       ("The Batman Trailer", "mqqft2x_Aa4", "https://i.ytimg.com/vi/mqqft2x_Aa4/hqdefault.jpg");
       ("The Dark Knight Trailer", "EXeTwQWrcwY", "https://i.ytimg.com/vi/EXeTwQWrcwY/hqdefault.jpg");
       ("Batman Begins Trailer", "neY2xVmOfUM", "https://i.ytimg.com/vi/neY2xVmOfUM/hqdefault.jpg");
       ("Joker Trailer", "zAGVQLHvwOY", "https://i.ytimg.com/vi/zAGVQLHvwOY/hqdefault.jpg");
       ("Justice League Trailer", "3cxixDgHUYw", "https://i.ytimg.com/vi/3cxixDgHUYw/hqdefault.jpg");
       ("Superman Man of Steel", "T6DJcgm3wNY", "https://i.ytimg.com/vi/T6DJcgm3wNY/hqdefault.jpg") ]) ].

Definition mock_movie_default : list (string * string * string) :=
  [
    ("Dune: Part Two Trailer", "Way9Dexny3w", "https://i.ytimg.com/vi/Way9Dexny3w/hqdefault.jpg");
    ("Oppenheimer Trailer", "uYPbbksJxIg", "https://i.ytimg.com/vi/uYPbbksJxIg/hqdefault.jpg");
    ("Barbie Trailer", "pBk4NYhWNMM", "https://i.ytimg.com/vi/pBk4NYhWNMM/hqdefault.jpg");
    ("Deadpool & Wolverine", "73_1biulkYk", "https://i.ytimg.com/vi/73_1biulkYk/hqdefault.jpg");
    ("The Marvels Trailer", "wS_qbDztgVY", "https://i.ytimg.com/vi/wS_qbDztgVY/hqdefault.jpg");
    ("Top Gun: Maverick", "giXco2jaZ_4", "https://i.ytimg.com/vi/giXco2jaZ_4/hqdefault.jpg") ].

(* ================================================================== *)
(** ** [class RecommendationService] *)

Module RecommendationService.

Definition no_poster : string :=
  "https://via.placeholder.com/500x750/831010/ffffff?text=No+Poster".

Definition platform_priority : list string :=
  ["netflix"; "disney"; "prime"; "hulu"; "hbo"; "apple"; "peacock"].

Definition provider_mapping : list (Z * string) :=
  [ (8, "netflix"); (9, "prime"); (337, "disney"); (15, "hulu");
    (384, "hbo"); (350, "apple"); (386, "peacock") ].

Definition genre_mapping : list (string * Z) :=
  [ ("Action", 28); ("Adventure", 12); ("Animation", 16); ("Comedy", 35);
    ("Crime", 80); ("Documentary", 99); ("Drama", 18); ("Family", 10751);
    ("Fantasy", 14); ("History", 36); ("Horror", 27); ("Music", 10402);
    ("Mystery", 9648); ("Romance", 10749); ("Science Fiction", 878);
    ("TV Movie", 10770); ("Thriller", 53); ("War", 10752); ("Western", 37) ].

Fixpoint str_lookup {A : Type} (k : string) (d : list (string * A)) : option A :=
  match d with
  | [] => None
  | (k', v) :: rest => if (k =? k')%string then Some v else str_lookup k rest
  end.

Fixpoint int_lookup {A : Type} (k : Z) (d : list (Z * A)) : option A :=
  match d with
  | [] => None
  | (k', v) :: rest => if k =? k' then Some v else int_lookup k rest
  end.

(** A [dict] keyed by item id, in insertion order: assigning to a key that
    is present replaces the value in place. *)
Fixpoint dict_set {A : Type} (k : Z) (v : A) (d : list (Z * A)) : list (Z * A) :=
  match d with
  | [] => [(k, v)]
  | (k', v') :: rest =>
      if k =? k' then (k, v) :: rest else (k', v') :: dict_set k v rest
  end.

Definition dict_has {A : Type} (k : Z) (d : list (Z * A)) : bool :=
  existsb (fun kv => k =? fst kv) d.

Definition dict_values {A : Type} (d : list (Z * A)) : list A := map snd d.

(** *** The similarity score: the body of the loop of
    [_score_recommendations], for one source and one candidate's details. *)

(** [len(set(a) & set(b))] *)
Definition overlap (a b : list string) : Z :=
  Z.of_nat (List.length (nodup string_dec (filter (fun x => Py.mem x b) a))).

Definition similarity_score (source_details candidate_details : Details.t) : Q :=
  let score := 0%Q in
  (* Factor 1: same franchise/collection *)
  let score :=
    if Py.truthy_opt (Details.collection source_details)
       && Py.truthy_opt (Details.collection candidate_details)
    then if Py.opt_str_eqb (Details.collection source_details)
                           (Details.collection candidate_details)
         then (score + 50)%Q else score
    else score in
  (* Factor 2: same director *)
  let score :=
    if Py.truthy_opt (Details.director source_details)
       && Py.truthy_opt (Details.director candidate_details)
    then if Py.opt_str_eqb (Details.director source_details)
                           (Details.director candidate_details)
         then (score + 30)%Q else score
    else score in
  (* Factor 3: cast overlap *)
  let cast_overlap :=
    overlap (Details.cast source_details) (Details.cast candidate_details) in
  let score := (score + Py.qmin (inject_Z (cast_overlap * 5)) 25)%Q in
  (* Factor 4: genre match *)
  let genre_overlap :=
    overlap (Details.genres source_details) (Details.genres candidate_details) in
  let score := (score + Py.qmin (inject_Z (genre_overlap * 10)) 20)%Q in
  (* Factor 5: keyword overlap *)
  let keyword_overlap :=
    overlap (Details.keywords source_details)
            (Details.keywords candidate_details) in
  let score := (score + Py.qmin (inject_Z (keyword_overlap * 2)) 15)%Q in
  (* Factor 6: same production company *)
  let company_overlap :=
    overlap (Details.companies source_details)
            (Details.companies candidate_details) in
  let score := (score + Py.qmin (inject_Z company_overlap * (15 # 2)) 15)%Q in
  (* Factor 7: similar budget tier *)
  let score :=
    if (0 <? Details.budget source_details)
       && (0 <? Details.budget candidate_details)
    then
      let budget_ratio :=
        Py.truediv (Z.min (Details.budget source_details)
                          (Details.budget candidate_details))
                   (Z.max (Details.budget source_details)
                          (Details.budget candidate_details)) in
      if Py.qlt (1 # 2) budget_ratio then (score + 10)%Q else score
    else score in
  (* Factor 8: similar runtime *)
  let score :=
    if (0 <? Details.runtime source_details)
       && (0 <? Details.runtime candidate_details)
    then
      let runtime_diff :=
        Z.abs (Details.runtime source_details
               - Details.runtime candidate_details) in
      if runtime_diff <? 30 then (score + 5)%Q else score
    else score in
  (* Factor 9: similar ratings *)
  let score :=
    if PrimFloat.ltb 0 (Details.rating source_details)
       && PrimFloat.ltb 0 (Details.rating candidate_details)
    then
      let rating_diff :=
        PrimFloat.abs (PrimFloat.sub (Details.rating source_details)
                                     (Details.rating candidate_details)) in
      if PrimFloat.ltb rating_diff 1.5 then (score + 5)%Q else score
    else score in
  (* Factor 10: release year proximity; a [ValueError] is passed over *)
  let score :=
    match Py.int_of_str (Details.release_year source_details),
          Py.int_of_str (Details.release_year candidate_details) with
    | Some ys, Some yc =>
        let year_diff := Z.abs (ys - yc) in
        if year_diff <=? 5 then (score + 5)%Q else score
    | _, _ => score
    end in
  score.

(** *** Primary platform: the two nested loops of [_find_similar_shows]. *)

(** The inner loop: the first entry of [platforms] whose tag is [name]. *)
Definition find_platform (name : string) (platforms : list Provider.t)
  : option Provider.t :=
  find (fun p => (Provider.platform p =? name)%string) platforms.

(** The outer loop over the priority names still to try, with its [break]. *)
Fixpoint priority_loop (todo : list string) (platforms : list Provider.t)
    (primary_platform : Provider.t) : Provider.t :=
  match todo with
  | [] => primary_platform
  | priority_platform :: rest =>
      let primary_platform :=
        match find_platform priority_platform platforms with
        | Some p => p
        | None => primary_platform
        end in
      if Py.mem (Provider.platform primary_platform) platform_priority
      then primary_platform
      else priority_loop rest platforms primary_platform
  end.

(** [None] only for the empty list, which the caller excludes. *)
Definition choose_primary_platform (platforms : list Provider.t)
  : option Provider.t :=
  match platforms with
  | [] => None
  | first :: _ => Some (priority_loop platform_priority platforms first)
  end.

(** *** The methods.  [settings] is the module-level configuration object,
    [world] the outside world during the request. *)

Section Service.

Variable settings : Config.Settings.
Variable world : Upstream.

Definition _transform_youtube_item (item : YtItem.t) : option Card.t :=
  match YtItem.videoId item with
  | Some video_id =>
      if Py.truthy video_id then
        Some {| Card.id := video_id;
                Card.title := YtItem.title item;
                Card.description := YtItem.description item;
                Card.thumbnail := YtItem.thumbnail_high item;
                Card.channel := YtItem.channelTitle item;
                Card.published_at := YtItem.publishedAt item;
                Card.platform := "youtube";
                Card.url := "https://www.youtube.com/watch?v=" ++ video_id;
                Card.all_platforms := None;
                Card.rating := None;
                Card.year := None |}
      else None
  | None => None
  end.

Definition _get_mock_youtube_results (query : string) : list Card.t :=
  map (fun v =>
         match v with
         | (title, video_id, thumbnail, channel) =>
             {| Card.id := video_id;
                Card.title := title;
                Card.description := "Popular video about " ++ query;
                Card.thumbnail := thumbnail;
                Card.channel := channel;
                Card.published_at := "2024-01-15T12:00:00Z";
                Card.platform := "youtube";
                Card.url := "https://www.youtube.com/watch?v=" ++ video_id;
                Card.all_platforms := None;
                Card.rating := None;
                Card.year := None |}
         end)
      mock_youtube_videos.

Definition _get_mock_shorts_results (query : string) : list Card.t :=
  map (fun v =>
         match v with
         | (title, video_id, thumbnail, channel) =>
             {| Card.id := video_id;
                Card.title := title;
                Card.description := "Viral " ++ query ++ " content";
                Card.thumbnail := thumbnail;
                Card.channel := channel;
                Card.published_at := "2024-01-15T12:00:00Z";
                Card.platform := "tiktok";
                Card.url := "https://www.youtube.com/watch?v=" ++ video_id;
                Card.all_platforms := None;
                Card.rating := None;
                Card.year := None |}
         end)
      mock_shorts.

(** The [for key in recommendations: ... break / else] of the fallback. *)
Fixpoint partial_match (query_lower : string)
    (table : list (string * list (string * string * string)))
  : option (list (string * string * string)) :=
  match table with
  | [] => None
  | (key, videos) :: rest =>
      if Py.str_in key query_lower || Py.str_in query_lower key
      then Some videos
      else partial_match query_lower rest
  end.

Definition mock_movie_videos (query : string) : list (string * string * string) :=
  let query_lower := Py.lower query in
  match str_lookup query_lower mock_movie_table with
  | Some videos => videos
  | None =>
      match partial_match query_lower mock_movie_table with
      | Some videos => videos
      | None => mock_movie_default
      end
  end.

Definition _get_mock_movie_results (query category : string) : list Card.t :=
  map (fun v =>
         match v with
         | (title, video_id, thumbnail) =>
             {| Card.id := video_id;
                Card.title := title;
                Card.description := "Watch the official trailer";
                Card.thumbnail := thumbnail;
                Card.channel := "Official Movie Trailers";
                Card.published_at := "2024-01-10T12:00:00Z";
                Card.platform := category;
                Card.url := "https://www.youtube.com/watch?v=" ++ video_id;
                Card.all_platforms := None;
                Card.rating := None;
                Card.year := None |}
         end)
      (mock_movie_videos query).

Definition _get_youtube_recommendations (search_query region : string)
  : list Card.t :=
  let params :=
    {| YtParams.q := search_query;
       YtParams.regionCode := region;
       YtParams.maxResults := Config.max_results_per_query settings;
       YtParams.order := Some "relevance";
       YtParams.videoDuration := None;
       YtParams.relevanceLanguage := Some "en";
       YtParams.safeSearch := Some "moderate" |} in
  match youtube_search world params with
  | YtException => _get_mock_youtube_results search_query
  | YtErrorBody _ => _get_mock_youtube_results search_query
  | YtItems items =>
      match Py.filter_map _transform_youtube_item items with
      | [] => _get_mock_youtube_results search_query
      | results => results
      end
  end.

(** The list comprehension with [seen_ids]: first occurrence of each id. *)
Fixpoint unique_by_id (seen_ids : list string) (results : list Card.t)
  : list Card.t :=
  match results with
  | [] => []
  | r :: rest =>
      if Py.mem (Card.id r) seen_ids then unique_by_id seen_ids rest
      else r :: unique_by_id (Card.id r :: seen_ids) rest
  end.

(** One turn of the loop over the search strategies: an exception leaves
    [results] as it is, a body without items adds nothing. *)
Definition tiktok_strategy (region : string) (results : list Card.t)
    (query_variant : string) : list Card.t :=
  let params :=
    {| YtParams.q := query_variant;
       YtParams.regionCode := region;
       YtParams.maxResults := 10;
       YtParams.order := Some "viewCount";
       YtParams.videoDuration := Some "short";
       YtParams.relevanceLanguage := None;
       YtParams.safeSearch := None |} in
  match youtube_search world params with
  | YtException => results
  | YtErrorBody _ => results
  | YtItems items =>
      (results ++ map (Card.with_platform "tiktok")
                      (Py.filter_map _transform_youtube_item items))%list
  end.

Definition _get_tiktok_style_recommendations (search_query region : string)
  : list Card.t :=
  let search_strategies :=
    [ search_query ++ " tiktok viral"; search_query ++ " #shorts" ] in
  let results := fold_left (tiktok_strategy region) search_strategies [] in
  match unique_by_id [] results with
  | [] => _get_mock_shorts_results search_query
  | unique_results => firstn 15 unique_results
  end.

(** The dictionary it builds per item is the one of
    [_transform_youtube_item]. *)
Definition _search_youtube_content (query region category : string) (limit : Z)
  : list Card.t :=
  let params :=
    {| YtParams.q := query;
       YtParams.regionCode := region;
       YtParams.maxResults := limit;
       YtParams.order := None;
       YtParams.videoDuration := None;
       YtParams.relevanceLanguage := None;
       YtParams.safeSearch := None |} in
  match youtube_search world params with
  | YtException => []
  | YtErrorBody _ => []
  | YtItems items => Py.filter_map _transform_youtube_item items
  end.

Definition _build_poster_url (poster_path : option string) : string :=
  match poster_path with
  | Some path =>
      if Py.truthy path then "https://image.tmdb.org/t/p/w500" ++ path
      else no_poster
  | None => no_poster
  end.

Definition candidate_of (item : TmdbRaw.t) (popularity : option Q)
  : Candidate.t :=
  {| Candidate.id := TmdbRaw.id item;
     Candidate.title := TmdbRaw.title item;
     Candidate.overview := TmdbRaw.overview item;
     Candidate.poster_url := _build_poster_url (TmdbRaw.poster_path item);
     Candidate.release_date := TmdbRaw.date item;
     Candidate.popularity := popularity;
     Candidate._score := None |}.

Definition _search_tmdb (query : string) (media : media_type)
  : option Candidate.t :=
  match tmdb_search world query media with
  | Some (result :: _) => Some (candidate_of result None)
  | Some [] => None
  | None => None
  end.

Definition popularity_key (x : Candidate.t) : Q :=
  match Candidate.popularity x with Some p => p | None => 0%Q end.

Definition _get_tmdb_similar (media_id : Z) (media : media_type)
  : list Candidate.t :=
  match tmdb_similar world media_id media with
  | Some results =>
      let similar_items :=
        map (fun item => candidate_of item (Some (TmdbRaw.popularity item)))
            (filter (fun item => Py.qlt 10 (TmdbRaw.popularity item))
                    (firstn 30 results)) in
      firstn 20 (Py.sort_desc popularity_key similar_items)
  | None => []
  end.

Definition _construct_platform_url (platform : string) (tmdb_id : Z)
    (media : media_type) (title : string) : string :=
  let clean_title := quote world title in
  if (platform =? "netflix")%string then "https://www.netflix.com/browse"
  else if (platform =? "prime")%string then
    "https://www.amazon.com/s?k=" ++ clean_title ++ "&i=instant-video"
  else if (platform =? "disney")%string then "https://www.disneyplus.com/"
  else if (platform =? "hulu")%string then "https://www.hulu.com/hub/home"
  else if (platform =? "hbo")%string then "https://www.max.com/"
  else if (platform =? "apple")%string then "https://tv.apple.com/"
  else if (platform =? "peacock")%string then "https://www.peacocktv.com/"
  else "https://www.amazon.com/s?k=" ++ clean_title ++ "&i=instant-video".

(** The loop over one offer list: providers outside the mapping are
    dropped. *)
Definition mapped_providers (media_id : Z) (media : media_type)
    (title : string) (provider_ids : list Z) : list Provider.t :=
  Py.filter_map
    (fun provider_id =>
       match int_lookup provider_id provider_mapping with
       | Some platform =>
           Some {| Provider.platform := platform;
                   Provider.url :=
                     _construct_platform_url platform media_id media title |}
       | None => None
       end)
    provider_ids.

Definition _get_tmdb_watch_providers (media_id : Z) (media : media_type)
  : list Provider.t :=
  match tmdb_providers world media_id media with
  | Some (flatrate, buy) =>
      let title := tmdb_title world media_id media in
      match mapped_providers media_id media title flatrate with
      | [] => mapped_providers media_id media title (firstn 3 buy)
      | providers => providers
      end
  | None => []
  end.

Definition _get_genre_ids (genre_names : list string) : list Z :=
  Py.filter_map (fun name => str_lookup name genre_mapping) genre_names.

(** One turn of the loop over the discovery results; [None] is an
    exception raised by the turn. *)
Definition discover_step (media_id : Z)
    (all_candidates : list (Z * Candidate.t)) (item : DiscoverItem.t)
  : option (list (Z * Candidate.t)) :=
  match DiscoverItem.id item with
  | None => None
  | Some item_id =>
      if negb (dict_has item_id all_candidates)
         && negb (item_id =? media_id)
      then
        match DiscoverItem.popularity item with
        | None => None
        | Some popularity =>
            if Py.qlt 10 popularity
            then
              match DiscoverItem.title item with
              | None => None
              | Some title =>
                  Some (dict_set item_id
                          {| Candidate.id := item_id;
                             Candidate.title := title;
                             Candidate.overview := DiscoverItem.overview item;
                             Candidate.poster_url :=
                               _build_poster_url
                                 (DiscoverItem.poster_path item);
                             Candidate.release_date := DiscoverItem.date item;
                             Candidate.popularity := Some popularity;
                             Candidate._score := None |}
                          all_candidates)
              end
            else Some all_candidates
        end
      else Some all_candidates
  end.

(** The loop: the dictionary it leaves, and whether a turn raised. *)
Fixpoint discover_loop (media_id : Z) (items : list DiscoverItem.t)
    (all_candidates : list (Z * Candidate.t))
  : list (Z * Candidate.t) * bool :=
  match items with
  | [] => (all_candidates, false)
  | item :: rest =>
      match discover_step media_id all_candidates item with
      | Some all_candidates => discover_loop media_id rest all_candidates
      | None => (all_candidates, true)
      end
  end.

(** An exception anywhere in the [try] block is answered with the
    dictionary as it is then, whole; the cut to thirty is made only when
    the block runs to its end. *)
Definition _get_tmdb_recommendations_multi_strategy (media_id : Z)
    (media : media_type) (source_details : Details.t) : list Candidate.t :=
  let similar_items := _get_tmdb_similar media_id media in
  let all_candidates :=
    fold_left (fun d item => dict_set (Candidate.id item) item d)
              similar_items [] in
  match Details.genres source_details with
  | [] => firstn 30 (dict_values all_candidates)
  | _ :: _ =>
      match tmdb_discover world
                          (_get_genre_ids (Details.genres source_details))
                          media with
      | DiscoverException => dict_values all_candidates
      | DiscoverAnswer status_code results =>
          if status_code =? 200
          then
            match discover_loop media_id (firstn 15 results)
                                all_candidates with
            | (all_candidates, true) => dict_values all_candidates
            | (all_candidates, false) =>
                firstn 30 (dict_values all_candidates)
            end
          else firstn 30 (dict_values all_candidates)
      end
  end.

(** Whether a turn of the discovery loop raises in that call. *)
Definition discovery_loop_raises (media_id : Z) (media : media_type)
    (source_details : Details.t) : bool :=
  let all_candidates :=
    fold_left (fun d item => dict_set (Candidate.id item) item d)
              (_get_tmdb_similar media_id media) [] in
  match Details.genres source_details with
  | [] => false
  | _ :: _ =>
      match tmdb_discover world
                          (_get_genre_ids (Details.genres source_details))
                          media with
      | DiscoverException => false
      | DiscoverAnswer status_code results =>
          (status_code =? 200)
          && snd (discover_loop media_id (firstn 15 results) all_candidates)
      end
  end.

Definition score_key (x : Candidate.t) : Q :=
  match Candidate._score x with Some s => s | None => 0%Q end.

(** The loop of [_score_recommendations]: the source itself and candidates
    without details are passed over ([continue]). *)
Definition score_candidate (source_details : Details.t) (media : media_type)
    (candidate : Candidate.t) : option Candidate.t :=
  if Candidate.id candidate =? Details.id source_details then None
  else
    match tmdb_details world (Candidate.id candidate) media with
    | None => None
    | Some candidate_details =>
        Some (Candidate.with_score
                (similarity_score source_details candidate_details)
                candidate)
    end.

Definition _score_recommendations (source_details : Details.t)
    (candidates : list Candidate.t) (media : media_type) : list Candidate.t :=
  let scored_candidates :=
    Py.filter_map (score_candidate source_details media) candidates in
  Py.sort_desc score_key scored_candidates.

(** The card of step 5 for an item with its platforms and primary one. *)
Definition card_of (media : media_type) (item : Candidate.t)
    (platforms : list Provider.t) (primary_platform : Provider.t) : Card.t :=
  let details := tmdb_details world (Candidate.id item) media in
  let rating :=
    match details with
    | Some d => Details.rating d
    | None => PrimFloat.zero
    end in
  let release_year :=
    match details with Some d => Details.release_year d | None => "" end in
  {| Card.id := Py.str_of_int (Candidate.id item);
     Card.title := Candidate.title item;
     Card.description := Py.str_slice_to (Candidate.overview item) 200;
     Card.thumbnail := Candidate.poster_url item;
     Card.channel := Py.upper (Provider.platform primary_platform);
     Card.published_at := Candidate.release_date item;
     Card.platform := Provider.platform primary_platform;
     Card.url := Provider.url primary_platform;
     Card.all_platforms := Some (map Provider.platform platforms);
     Card.rating := Some (Py.round1 rating);
     Card.year := Some release_year |}.

(** The loop of step 5 over the remaining items, [similar_shows] being the
    cards appended so far; it stops at fifteen cards. *)
Fixpoint availability_loop (media : media_type) (items : list Candidate.t)
    (similar_shows : list Card.t) : list Card.t :=
  match items with
  | [] => similar_shows
  | item :: rest =>
      let platforms := _get_tmdb_watch_providers (Candidate.id item) media in
      let similar_shows :=
        match choose_primary_platform platforms with
        | Some primary_platform =>
            (similar_shows ++ [card_of media item platforms primary_platform])%list
        | None => similar_shows
        end in
      if 15 <=? Z.of_nat (List.length similar_shows) then similar_shows
      else availability_loop media rest similar_shows
  end.

Definition _find_similar_shows (search_query category : string)
  : list Card.t :=
  let media := if (category =? "movies")%string then movie else tv in
  let fallback :=
    _search_youtube_content (category ++ " similar to " ++ search_query)
                            "US" "youtube" 5 in
  match _search_tmdb search_query media with
  | None => fallback
  | Some search_result =>
      match tmdb_details world (Candidate.id search_result) media with
      | None => fallback
      | Some source_details =>
          let candidate_items :=
            _get_tmdb_recommendations_multi_strategy
              (Candidate.id search_result) media source_details in
          let scored_items :=
            _score_recommendations source_details candidate_items media in
          availability_loop media (firstn 30 scored_items) []
      end
  end.

Definition _get_movie_recommendations (search_query region category : string)
  : list Card.t :=
  match _find_similar_shows search_query category with
  | [] => _get_mock_movie_results search_query category
  | similar_shows => firstn 15 similar_shows
  end.

(** *** The ranking pass.  [rand i] is the value the generator returns at
    its [i]-th draw of the call. *)
Definition rank_score (rand : nat -> Q) (ir : nat * Card.t) : Q :=
  let score := 0%Q in
  let score :=
    match days_old world (Card.published_at (snd ir)) with
    | Some days =>
        let recency_score := Py.qmax 0 (1 - inject_Z days / 365)%Q in
        (score + recency_score * (7 # 10))%Q
    | None => score
    end in
  (score + rand (fst ir) * (3 # 10))%Q.

Definition _score_and_rank (rand : nat -> Q) (results : list Card.t)
  : list Card.t :=
  match results with
  | [] => []
  | _ :: _ =>
      map snd (Py.sort_desc (rank_score rand) (Py.enumerate_from 0 results))
  end.

(** *** The entry point *)

(** The module-level cache. *)
Definition recommendation_cache : TTLCache.t (list Card.t) :=
  TTLCache.create (list Card.t) 1000 (inject_Z (Config.cache_ttl settings)).

Definition cache_key (category search_query region : string) : string :=
  category ++ ":" ++ search_query ++ ":" ++ region.

(** The category dispatch: what the pipeline produces before ranking. *)
Definition dispatch (category search_query region : string) : list Card.t :=
  if (category =? "youtube")%string then
    _get_youtube_recommendations search_query region
  else if (category =? "tiktok")%string then
    _get_tiktok_style_recommendations search_query region
  else if Py.mem category ["movies"; "tv"] then
    _get_movie_recommendations search_query region category
  else [].

(** [get_recommendations] on the cache [cache]: [now] is the timer when the
    cache is looked up, [later] when the result is stored.  The result is
    the response and the cache afterwards; [None] is an exception. *)
Definition get_recommendations (rand : nat -> Q)
    (cache : TTLCache.t (list Card.t)) (now later : Q)
    (category search_query region : string) (limit : Z)
  : option (list Card.t * TTLCache.t (list Card.t)) :=
  let key := cache_key category search_query region in
  if TTLCache.contains cache now key then
    match TTLCache.getitem cache now key with
    | Some (stored, cache') => Some (Py.slice_to stored limit, cache')
    | None => None
    end
  else
    let results := dispatch category search_query region in
    let scored_results := _score_and_rank rand results in
    match TTLCache.setitem cache later key scored_results with
    | Some cache' => Some (Py.slice_to scored_results limit, cache')
    | None => None
    end.

End Service.

End RecommendationService.

(** The states of the module-level cache: empty when the module is loaded,
    then whatever a call of [get_recommendations] leaves behind. *)
Inductive reachable (settings : Config.Settings)
  : TTLCache.t (list Card.t) -> Prop :=
| reachable_initial :
    reachable settings (RecommendationService.recommendation_cache settings)
| reachable_call :
    forall world rand cache now later category search_query region limit
           results cache',
      reachable settings cache ->
      RecommendationService.get_recommendations
        settings world rand cache now later category search_query region limit
      = Some (results, cache') ->
      reachable settings cache'.

(** The invariant of the candidate dictionary: no key twice, and every
    value filed under its own id. *)
Definition keyed_by_id (d : list (Z * Candidate.t)) : Prop :=
  NoDup (map fst d)
  /\ Forall (fun kv => Candidate.id (snd kv) = fst kv) d.

(* ================================================================== *)
(** ** The specification's side of the comparisons *)

Module Spec.

Import RecommendationService.

(** [n] is the size of the intersection of two lists read as sets: the
    number of names that occur in both. *)
Definition intersection_size (a b : list string) (n : Z) : Prop :=
  exists names,
    NoDup names
    /\ (forall x, In x names <-> In x a /\ In x b)
    /\ n = Z.of_nat (List.length names).

(** A factor of [per] points for each shared name, capped at [cap]. *)
Definition overlap_points (per cap : Q) (n : Z) : Q :=
  Qmin (per * inject_Z n) cap.

(** The ten factors of the specification's table, each on its own.  The
    budget ratio and the rating difference are those the program computes,
    in binary floating point. *)
Definition franchise_points (s c : Details.t) : Q :=
  if Py.truthy_opt (Details.collection s)
     && Py.truthy_opt (Details.collection c)
     && Py.opt_str_eqb (Details.collection s) (Details.collection c)
  then 50 else 0.

Definition director_points (s c : Details.t) : Q :=
  if Py.truthy_opt (Details.director s)
     && Py.truthy_opt (Details.director c)
     && Py.opt_str_eqb (Details.director s) (Details.director c)
  then 30 else 0.

Definition budget_points (s c : Details.t) : Q :=
  if (0 <? Details.budget s) && (0 <? Details.budget c)
     && Py.qlt (1 # 2)
               (Py.truediv (Z.min (Details.budget s) (Details.budget c))
                           (Z.max (Details.budget s) (Details.budget c)))
  then 10 else 0.

Definition runtime_points (s c : Details.t) : Q :=
  if (0 <? Details.runtime s) && (0 <? Details.runtime c)
     && (Z.abs (Details.runtime s - Details.runtime c) <? 30)
  then 5 else 0.

Definition rating_points (s c : Details.t) : Q :=
  if PrimFloat.ltb 0 (Details.rating s) && PrimFloat.ltb 0 (Details.rating c)
     && PrimFloat.ltb
          (PrimFloat.abs (PrimFloat.sub (Details.rating s) (Details.rating c)))
          1.5
  then 5 else 0.

Definition year_points (s c : Details.t) : Q :=
  match Py.int_of_str (Details.release_year s),
        Py.int_of_str (Details.release_year c) with
  | Some ys, Some yc => if Z.abs (ys - yc) <=? 5 then 5 else 0
  | _, _ => 0
  end.

(** The sum of the table, for the numbers of shared cast members, genres,
    keywords and production companies. *)
Definition table_sum (s c : Details.t)
    (n_cast n_genre n_keyword n_company : Z) : Q :=
  franchise_points s c + director_points s c
  + overlap_points 5 25 n_cast + overlap_points 10 20 n_genre
  + overlap_points 2 15 n_keyword + overlap_points (15 # 2) 15 n_company
  + budget_points s c + runtime_points s c + rating_points s c
  + year_points s c.

(** The primary platform as the specification words it: the first name of
    the priority order that occurs anywhere in the list, else the list's
    first element. *)
Fixpoint first_by_priority (priority : list string)
    (platforms : list Provider.t) : option Provider.t :=
  match priority with
  | [] => None
  | name :: rest =>
      match find_platform name platforms with
      | Some p => Some p
      | None => first_by_priority rest platforms
      end
  end.

Definition primary_platform (platforms : list Provider.t)
  : option Provider.t :=
  match first_by_priority platform_priority platforms with
  | Some p => Some p
  | None => hd_error platforms
  end.

(** A cache parameter is taken from the configuration when it is the value
    of one of the settings. *)
Definition taken_from_configuration (f : Config.Settings -> Z) : Prop :=
  exists name proj,
    In (name, proj) Config.int_settings /\ forall s, f s = proj s.

(** Structured-media results skip the ranking pass: on a cache miss the
    response is the sliced output of the category pipeline, as it is. *)
Definition structured_results_skip_ranking : Prop :=
  forall settings world rand cache now later category search_query region limit,
    Py.mem category ["movies"; "tv"] = true ->
    TTLCache.contains cache now (cache_key category search_query region)
      = false ->
    1 <= TTLCache.maxsize cache ->
    exists cache',
      get_recommendations settings world rand cache now later
                          category search_query region limit
      = Some (Py.slice_to (dispatch settings world category search_query region)
                          limit,
              cache').

Definition valid_category (category : string) : Prop :=
  In category ["movies"; "tv"; "youtube"; "tiktok"].

(** Every call to either catalog fails. *)
Definition all_catalogs_fail (w : Upstream) : Prop :=
  (forall p, youtube_search w p = YtException)
  /\ (forall q m, tmdb_search w q m = None)
  /\ (forall i m, tmdb_similar w i m = None)
  /\ (forall g m, tmdb_discover w g m = DiscoverException)
  /\ (forall i m, tmdb_providers w i m = None)
  /\ (forall i m, tmdb_title w i m = "Unknown")
  /\ (forall i m, tmdb_details w i m = None).

(** The fallback catalog of a category for a query. *)
Definition fallback_catalog (category query : string) : list Card.t :=
  if (category =? "youtube")%string then _get_mock_youtube_results query
  else if (category =? "tiktok")%string then _get_mock_shorts_results query
  else _get_mock_movie_results query category.

(** The identifiers of the curated trailers for the key [batman]. *)
Definition batman_ids : list string :=
  [ "mqqft2x_Aa4"; "EXeTwQWrcwY"; "neY2xVmOfUM";
    "zAGVQLHvwOY"; "3cxixDgHUYw"; "T6DJcgm3wNY" ].

End Spec.

(* ================================================================== *)
(** ** Concrete worlds and inputs used by the examples below *)

Module Scenario.

Import RecommendationService.

Definition settings : Config.Settings := Config.defaults "yt-key" "tmdb-key".

Definition other_settings : Config.Settings :=
  {| Config.youtube_api_key := "k1";
     Config.tmdb_api_key := "k2";
     Config.database_url := "sqlite://";
     Config.api_timeout := 3;
     Config.cache_ttl := 60;
     Config.max_results_per_query := 25 |}.

Definition no_rand : nat -> Q := fun _ => 0%Q.

(** The age of the two publication dates of the fallback catalog, for a
    clock at noon of 2025-12-15. *)
Definition mock_days_old (published_at : string) : option Z :=
  if (published_at =? "2024-01-15T12:00:00Z")%string then Some 700
  else if (published_at =? "2024-01-10T12:00:00Z")%string then Some 705
  else None.

(** Both catalogs are down. *)
Definition failing_world : Upstream :=
  {| youtube_search := fun _ => YtException;
     tmdb_search := fun _ _ => None;
     tmdb_similar := fun _ _ => None;
     tmdb_discover := fun _ _ => DiscoverException;
     tmdb_providers := fun _ _ => None;
     tmdb_title := fun _ _ => "Unknown";
     tmdb_details := fun _ _ => None;
     quote := fun s => s;
     days_old := mock_days_old |}.

(** The video search answers every request with the same video twice. *)
Definition dup_item : YtItem.t :=
  {| YtItem.videoId := Some "dQw4w9WgXcQ";
     YtItem.title := "A video";
     YtItem.description := "Listed twice by the catalog";
     YtItem.thumbnail_high := "https://i.ytimg.com/vi/dQw4w9WgXcQ/hqdefault.jpg";
     YtItem.channelTitle := "A channel";
     YtItem.publishedAt := "2024-01-15T12:00:00Z" |}.

Definition dup_world : Upstream :=
  {| youtube_search := fun _ => YtItems [dup_item; dup_item];
     tmdb_search := fun _ _ => None;
     tmdb_similar := fun _ _ => None;
     tmdb_discover := fun _ _ => DiscoverException;
     tmdb_providers := fun _ _ => None;
     tmdb_title := fun _ _ => "Unknown";
     tmdb_details := fun _ _ => None;
     quote := fun s => s;
     days_old := mock_days_old |}.

(** A metadata catalog with a source film (id 1) and two similar films:
    id 2 shares the source's director and collection and is from 2012,
    id 3 shares nothing and came out a hundred days ago (the clock is at
    2024-09-09).  Both are on the provider with id 8. *)
Definition source_film : Details.t :=
  {| Details.id := 1;
     Details.director := Some "Christopher Nolan";
     Details.cast := ["Christian Bale"; "Michael Caine"];
     Details.genres := ["Action"; "Drama"];
     Details.keywords := ["vigilante"];
     Details.companies := ["Warner Bros."];
     Details.budget := 185000000;
     Details.revenue := 1004558444;
     Details.runtime := 152;
     Details.rating := 8.5;
     Details.release_year := "2008";
     Details.collection := Some "The Dark Knight Collection" |}.

Definition sequel_film : Details.t :=
  {| Details.id := 2;
     Details.director := Some "Christopher Nolan";
     Details.cast := ["Christian Bale"; "Tom Hardy"];
     Details.genres := ["Action"; "Thriller"];
     Details.keywords := ["vigilante"; "terrorism"];
     Details.companies := ["Warner Bros."];
     Details.budget := 250000000;
     Details.revenue := 1081041287;
     Details.runtime := 165;
     Details.rating := 7.75;
     Details.release_year := "2012";
     Details.collection := Some "The Dark Knight Collection" |}.

Definition unrelated_film : Details.t :=
  {| Details.id := 3;
     Details.director := Some "Greta Gerwig";
     Details.cast := ["Margot Robbie"];
     Details.genres := ["Comedy"];
     Details.keywords := ["doll"];
     Details.companies := ["Mattel"];
     Details.budget := 0;
     Details.revenue := 0;
     Details.runtime := 0;
     Details.rating := 0;
     Details.release_year := "";
     Details.collection := None |}.

(** The sequel before it was filed under the source's collection. *)
Definition sequel_unfiled : Details.t :=
  Details.with_collection None sequel_film.

Definition raw (i : Z) (title date : string) (pop : Q) : TmdbRaw.t :=
  {| TmdbRaw.id := i;
     TmdbRaw.title := title;
     TmdbRaw.overview := "";
     TmdbRaw.poster_path := None;
     TmdbRaw.date := date;
     TmdbRaw.popularity := pop |}.

Definition film_details (sequel : Details.t) (i : Z) : option Details.t :=
  if i =? 1 then Some source_film
  else if i =? 2 then Some sequel
  else if i =? 3 then Some unrelated_film
  else None.

Definition film_world (sequel : Details.t) : Upstream :=
  {| youtube_search := fun _ => YtException;
     tmdb_search := fun _ _ => Some [raw 1 "The Dark Knight" "2008-07-16" 90];
     tmdb_similar := fun _ _ =>
       Some [ raw 2 "The Dark Knight Rises" "2012-07-17" 80;
              raw 3 "Barbie" "2024-06-01" 70 ];
     tmdb_discover := fun _ _ => DiscoverAnswer 200 [];
     tmdb_providers := fun _ _ => Some ([8], []);
     tmdb_title := fun _ _ => "Unknown";
     tmdb_details := fun i _ => film_details sequel i;
     quote := fun s => s;
     days_old := fun s =>
       if (s =? "2024-06-01")%string then Some 100
       else if (s =? "2012-07-17")%string then Some 4437
       else None |}.

(** A catalog whose only offers for item 7 are providers 15 and 337. *)
Definition two_provider_world : Upstream :=
  {| youtube_search := fun _ => YtException;
     tmdb_search := fun _ _ => None;
     tmdb_similar := fun _ _ => None;
     tmdb_discover := fun _ _ => DiscoverException;
     tmdb_providers := fun _ _ => Some ([15; 337], []);
     tmdb_title := fun _ _ => "Unknown";
     tmdb_details := fun _ _ => None;
     quote := fun s => s;
     days_old := fun _ => None |}.

Definition hulu : Provider.t :=
  {| Provider.platform := "hulu";
     Provider.url := "https://www.hulu.com/hub/home" |}.

Definition disney : Provider.t :=
  {| Provider.platform := "disney";
     Provider.url := "https://www.disneyplus.com/" |}.

(** Twenty stored cards, numbered by their id. *)
Definition stored_card (n : nat) : Card.t :=
  {| Card.id := Py.str_of_int (Z.of_nat n);
     Card.title := "Stored";
     Card.description := "";
     Card.thumbnail := "";
     Card.channel := "NETFLIX";
     Card.published_at := "2010-07-16";
     Card.platform := "netflix";
     Card.url := "https://www.netflix.com/browse";
     Card.all_platforms := Some ["netflix"];
     Card.rating := Some 8%float;
     Card.year := Some "2010" |}.

Definition stored_twenty : list Card.t := map stored_card (seq 0 20).

Definition inception_cache : TTLCache.t (list Card.t) :=
  {| TTLCache.maxsize := 1000;
     TTLCache.ttl := 180;
     TTLCache.links :=
       [ {| TTLCache.key := "movies:inception:US";
            TTLCache.value := stored_twenty;
            TTLCache.expires := 200 |} ] |}.

End Scenario.

(* ================================================================== *)
(** ** [_get_tmdb_details]: from the catalog's answer to the details *)

(** The decoded body of a details request, with the members the method
    reads.  A member that may be missing or [null] is an [option].  The
    entries of [cast], [genres], [keywords] and [production_companies] are
    read with [entry["name"]], so each is its name: a body with an entry
    that has none raises, which is the [None] of [_get_tmdb_details]. *)
Module TmdbDetailsRaw.

Record CrewMember := { job : option string; name : option string }.

(** [credits]: the crew, and the [name] of each cast member. *)
Record Credits := { crew : list CrewMember; cast : list string }.

(** [keywords]: the names under [keywords] (films) and under [results]
    (shows). *)
Record Keywords := { keywords : list string; results : list string }.

(** [belongs_to_collection] is [None] for [null], a missing member or an
    empty object, and else holds the object's [name] member. *)
Record t := {
  credits : option Credits;
  genres : list string;
  keywords_member : option Keywords;
  production_companies : list string;
  belongs_to_collection : option (option string);
  runtime : option Z;
  episode_run_time : option (list Z);
  release_date : option string;
  first_air_date : option string;
  budget : option Z;
  revenue : option Z;
  vote_average : option float
}.

End TmdbDetailsRaw.

Module TmdbDetails.

(** [x or 0] for an optional integer. *)
Definition or_zero (x : option Z) : Z :=
  match x with Some v => v | None => 0 end.

(** The loop over the crew: the name of the first member whose job is
    Director. *)
Definition find_director (crew : list TmdbDetailsRaw.CrewMember)
  : option string :=
  match find (fun m => Py.opt_str_eqb (TmdbDetailsRaw.job m) (Some "Director"))
             crew with
  | Some crew_member => TmdbDetailsRaw.name crew_member
  | None => None
  end.

(** [d[:4]] when [d] is a string of at least four characters. *)
Definition year_prefix (d : option string) : option string :=
  match d with
  | Some s =>
      if Py.truthy s && (4 <=? Py.len s)%nat
      then Some (Py.str_slice_to s 4) else None
  | None => None
  end.

(** The body of the [try] block on a decoded answer [data]. *)
Definition details_of (media_id : Z) (media : media_type)
    (data : TmdbDetailsRaw.t) : Details.t :=
  let director :=
    match media, TmdbDetailsRaw.credits data with
    | movie, Some credits => find_director (TmdbDetailsRaw.crew credits)
    | _, _ => None
    end in
  let cast :=
    match TmdbDetailsRaw.credits data with
    | Some credits => firstn 10 (TmdbDetailsRaw.cast credits)
    | None => []
    end in
  let genres := TmdbDetailsRaw.genres data in
  let keywords :=
    match TmdbDetailsRaw.keywords_member data with
    | Some k =>
        match media with
        | movie => firstn 15 (TmdbDetailsRaw.keywords k)
        | tv => firstn 15 (TmdbDetailsRaw.results k)
        end
    | None => []
    end in
  let companies := firstn 5 (TmdbDetailsRaw.production_companies data) in
  let collection :=
    match media, TmdbDetailsRaw.belongs_to_collection data with
    | movie, Some belongs_to_col => belongs_to_col
    | _, _ => None
    end in
  let runtime :=
    match media with
    | movie => or_zero (TmdbDetailsRaw.runtime data)
    | tv =>
        match TmdbDetailsRaw.episode_run_time data with
        | Some (first :: _) => first
        | _ => 0
        end
    end in
  let release_year :=
    match year_prefix (TmdbDetailsRaw.release_date data) with
    | Some y => y
    | None =>
        match year_prefix (TmdbDetailsRaw.first_air_date data) with
        | Some y => y
        | None => ""
        end
    end in
  {| Details.id := media_id;
     Details.director := director;
     Details.cast := cast;
     Details.genres := genres;
     Details.keywords := keywords;
     Details.companies := companies;
     Details.budget :=
       match media with
       | movie => or_zero (TmdbDetailsRaw.budget data)
       | tv => 0
       end;
     Details.revenue :=
       match media with
       | movie => or_zero (TmdbDetailsRaw.revenue data)
       | tv => 0
       end;
     Details.runtime := runtime;
     Details.rating := Py.float_or_zero (TmdbDetailsRaw.vote_average data);
     Details.release_year := release_year;
     Details.collection := collection |}.

(** [_get_tmdb_details] on the outcome of its request: [None] is an
    exception, answered with [None]. *)
Definition _get_tmdb_details (response : option TmdbDetailsRaw.t)
    (media_id : Z) (media : media_type) : option Details.t :=
  option_map (details_of media_id media) response.

End TmdbDetails.

(* ================================================================== *)
(** ** [app/routes.py] *)

Module Routes.

(** *** The request schema *)

(** The body of a recommendation request as it arrives: [region] and
    [limit] may be left out. *)
Record RequestBody := {
  body_category : string;
  body_searchQuery : string;
  body_region : option string;
  body_limit : option Z
}.

Record RecommendationRequest := {
  category : string;
  searchQuery : string;
  region : string;
  limit : Z
}.

(** [validate_search_query]; [None] is its [ValueError]. *)
Definition validate_search_query (v : string) : option string :=
  let v := Py.strip v in
  if negb (Py.truthy v) then None
  else if (200 <? Py.len v)%nat then None
  else Some v.

(** Validation of a body against the schema: the length bounds of the
    field, then its validator; the bounds of [limit]; the defaults.
    [None] is the validation error (status 422). *)
Definition parse_request (body : RequestBody) : option RecommendationRequest :=
  let n := Py.len (body_searchQuery body) in
  let limit := match body_limit body with Some l => l | None => 20 end in
  let region := match body_region body with Some r => r | None => "US" end in
  if ((1 <=? n) && (n <=? 200))%nat && (1 <=? limit) && (limit <=? 50) then
    match validate_search_query (body_searchQuery body) with
    | Some v =>
        Some {| category := body_category body;
                searchQuery := v;
                region := region;
                limit := limit |}
    | None => None
    end
  else None.

(** *** The recommendation endpoint *)

(** What the endpoint answers: the JSON object of a success, or an HTTP
    error. *)
Inductive Response :=
| Success (success : bool) (count : Z) (results : list Card.t)
          (search_query : string)
| HttpError (status_code : Z) (detail : string).

(** What can be raised inside the [try] block of the endpoint. *)
Inductive Raised :=
| RaisedHTTPException (status_code : Z) (detail : string)
| RaisedByService.

Definition valid_categories : list string :=
  ["movies"; "tv"; "youtube"; "tiktok"].

Definition invalid_category_detail : string :=
  "Invalid category. Must be one of: ['movies', 'tv', 'youtube', 'tiktok']".

(** The [try] block: either something is raised, or the answer and the
    cache the service leaves.  The service returns a list, so the two
    guards on [results] change nothing. *)
Definition attempt (settings : Config.Settings) (world : Upstream)
    (rand : nat -> Q) (cache : TTLCache.t (list Card.t)) (now later : Q)
    (request : RecommendationRequest)
  : Raised + (Response * TTLCache.t (list Card.t)) :=
  if negb (Py.mem (category request) valid_categories) then
    inl (RaisedHTTPException 400 invalid_category_detail)
  else
    match RecommendationService.get_recommendations
            settings world rand cache now later
            (category request) (searchQuery request) (region request)
            (limit request) with
    | None => inl RaisedByService
    | Some (results, cache') =>
        inr (Success true (Z.of_nat (List.length results)) results
                     (searchQuery request),
             cache')
    end.

(** The endpoint: whatever the [try] block raises is caught by
    [except Exception] and answered with status 500; [str_of] is [str] on
    the exception caught. *)
Definition get_recommendations (str_of : Raised -> string)
    (settings : Config.Settings) (world : Upstream)
    (rand : nat -> Q) (cache : TTLCache.t (list Card.t)) (now later : Q)
    (request : RecommendationRequest)
  : Response * TTLCache.t (list Card.t) :=
  match attempt settings world rand cache now later request with
  | inr answer => answer
  | inl e =>
      (HttpError 500 ("Failed to fetch recommendations: " ++ str_of e), cache)
  end.

(** *** Interactions and statistics *)

(** A row of the table [user_interactions]. *)
Record UserInteraction := {
  id : Z;
  timestamp : Z;
  interaction_category : option string;
  search_query : option string;
  interaction_region : option string;
  recommendations : list string;
  clicked_video_id : option string;
  clicked_position : option Z;
  session_id : option string
}.

Record InteractionLog := {
  log_category : string;
  log_searchQuery : string;
  log_region : string;
  log_recommendations : list string;
  log_clicked_video_id : option string;
  log_clicked_position : option Z;
  log_session_id : string
}.

(** [log_interaction]: the row the endpoint builds; the database gives it
    its [id] and its [timestamp].  [commit_ok] tells whether add and commit
    went through; the endpoint never raises. *)
Definition row_of (row_id now : Z) (interaction : InteractionLog)
  : UserInteraction :=
  {| id := row_id;
     timestamp := now;
     interaction_category := Some (log_category interaction);
     search_query := Some (log_searchQuery interaction);
     interaction_region := Some (log_region interaction);
     recommendations := log_recommendations interaction;
     clicked_video_id := log_clicked_video_id interaction;
     clicked_position := log_clicked_position interaction;
     session_id := Some (log_session_id interaction) |}.

Definition log_interaction (commit_ok : bool) (row_id now : Z)
    (table : list UserInteraction) (interaction : InteractionLog)
  : (bool * string) * list UserInteraction :=
  if commit_ok
  then ((true, "Interaction logged"),
        (table ++ [row_of row_id now interaction])%list)
  else ((false, "Logging failed"), table).

Record Stats := {
  total_interactions : Z;
  total_clicks : Z;
  click_through_rate : Q;
  category_breakdown : list (option string * Z)
}.

Definition opt_key_eqb (a b : option string) : bool := Py.opt_str_eqb a b.

(** [count(id) ... group by category]: one pair per category. *)
Fixpoint bump (c : option string) (groups : list (option string * Z))
  : list (option string * Z) :=
  match groups with
  | [] => [(c, 1)]
  | (c', n) :: rest =>
      if opt_key_eqb c c' then (c', n + 1) :: rest
      else (c', n) :: bump c rest
  end.

Definition count_by_category (table : list UserInteraction)
  : list (option string * Z) :=
  fold_left (fun groups row => bump (interaction_category row) groups)
            table [].

Definition is_click (row : UserInteraction) : bool :=
  match clicked_video_id row with Some _ => true | None => false end.

(** [get_stats] on the rows of the table.  The rate is a float, given by
    its value: the quotient of the two counts, its product with 100 and the
    rounding to two decimals are each rounded to binary64. *)
Definition get_stats (table : list UserInteraction) : Stats :=
  let total_interactions := Z.of_nat (List.length table) in
  let total_clicks := Z.of_nat (List.length (filter is_click table)) in
  {| total_interactions := total_interactions;
     total_clicks := total_clicks;
     click_through_rate :=
       if 0 <? total_interactions
       then Py.round2
              (Py.float_of_Q
                 (Py.truediv total_clicks total_interactions * 100))
       else 0%Q;
     category_breakdown := count_by_category table |}.

End Routes.

(** What the statistics are compared with. *)
Module RoutesSpec.

(** The sum of the counts of a breakdown. *)
Definition group_total (groups : list (option string * Z)) : Z :=
  fold_right (fun g acc => snd g + acc) 0 groups.

(** [category_counts.get(c)] on the breakdown as a dictionary. *)
Definition breakdown_get (c : option string)
    (groups : list (option string * Z)) : option Z :=
  option_map snd (find (fun g => Routes.opt_key_eqb c (fst g)) groups).

(** The number of rows of a category. *)
Definition rows_of (c : option string) (table : list Routes.UserInteraction)
  : Z :=
  Z.of_nat
    (List.length
       (filter (fun row =>
                  Routes.opt_key_eqb c (Routes.interaction_category row))
               table)).

End RoutesSpec.

(** [l1] is [l2] with some items left out, the others in their order. *)
Inductive subsequence {A : Type} : list A -> list A -> Prop :=
| subsequence_nil : subsequence [] []
| subsequence_skip : forall x l1 l2, subsequence l1 l2 -> subsequence l1 (x :: l2)
| subsequence_keep :
    forall x l1 l2, subsequence l1 l2 -> subsequence (x :: l1) (x :: l2).

(* ================================================================== *)
(** ** Further inputs used by the examples below *)

Module Examples.

(** A card published on 2024-06-01. *)
Definition june_card (video_id : string) : Card.t :=
  {| Card.id := video_id;
     Card.title := "A video";
     Card.description := "";
     Card.thumbnail := "";
     Card.channel := "A channel";
     Card.published_at := "2024-06-01";
     Card.platform := "youtube";
     Card.url := "https://www.youtube.com/watch?v=" ++ video_id;
     Card.all_platforms := None;
     Card.rating := None;
     Card.year := None |}.

(** U+00A0, and a string of [n] letters U+00E9, by their bytes. *)
Definition no_break_space : string :=
  String "194"%char (String "160"%char EmptyString).

Definition e_acute : string :=
  String "195"%char (String "169"%char EmptyString).

Definition accented (n : nat) : string := Py.join (repeat e_acute n).

(** A catalog that answers with twenty similar items, and to the genre
    discovery with fourteen further items followed by an entry without an
    id. *)
Definition crowded_world : Upstream :=
  {| youtube_search := fun _ => YtException;
     tmdb_search := fun _ _ => None;
     tmdb_similar := fun _ _ =>
       Some (map (fun i => Scenario.raw (Z.of_nat i) "Similar" "2020-01-01" 50)
                 (seq 100 20));
     tmdb_discover := fun _ _ =>
       DiscoverAnswer 200
         (map (fun i =>
                 {| DiscoverItem.id := Some (Z.of_nat i);
                    DiscoverItem.title := Some "Discovered";
                    DiscoverItem.overview := "";
                    DiscoverItem.poster_path := None;
                    DiscoverItem.date := "2021-01-01";
                    DiscoverItem.popularity := Some 40%Q |})
              (seq 200 14)
          ++ [ {| DiscoverItem.id := None;
                  DiscoverItem.title := Some "No id";
                  DiscoverItem.overview := "";
                  DiscoverItem.poster_path := None;
                  DiscoverItem.date := "";
                  DiscoverItem.popularity := Some 40%Q |} ])%list;
     tmdb_providers := fun _ _ => None;
     tmdb_title := fun _ _ => "Unknown";
     tmdb_details := fun _ _ => None;
     quote := fun s => s;
     days_old := fun _ => None |}.

End Examples.

(* ================================================================== *)
(** * Properties *)

Import RecommendationService.

Unset Implicit Arguments.

(** ** Slices, the stable sort and the ranking pass *)

Section PyFacts.

Variable A : Type.

Lemma slice_to_firstn (l : list A) (n : Z) :
  0 <= n -> Py.slice_to l n = firstn (Z.to_nat n) l.
Proof.
  intros Hn. unfold Py.slice_to.
  destruct (0 <=? n) eqn:E; [reflexivity | apply Z.leb_gt in E; lia].
Qed.

Lemma slice_to_length (l : list A) (n : Z) :
  0 <= n -> Z.of_nat (List.length (Py.slice_to l n)) <= n.
Proof.
  intros Hn. rewrite slice_to_firstn by assumption.
  pose proof (firstn_le_length (Z.to_nat n) l) as H1.
  rewrite length_firstn. lia.
Qed.

Lemma slice_to_nil (n : Z) : Py.slice_to (@nil A) n = [].
Proof.
  unfold Py.slice_to. destruct (0 <=? n); now rewrite firstn_nil.
Qed.

Lemma in_firstn (m : nat) (l : list A) (x : A) :
  In x (firstn m l) -> In x l.
Proof.
  intros H. rewrite <- (firstn_skipn m l). apply in_or_app. now left.
Qed.

Lemma slice_to_incl (l : list A) (n : Z) (x : A) :
  In x (Py.slice_to l n) -> In x l.
Proof.
  unfold Py.slice_to. destruct (0 <=? n); apply in_firstn.
Qed.

Lemma slice_to_whole (l : list A) (n : Z) :
  Z.of_nat (List.length l) <= n -> Py.slice_to l n = l.
Proof.
  intros H. rewrite slice_to_firstn by lia. apply firstn_all2. lia.
Qed.

Lemma slice_to_nonempty (l : list A) (n : Z) :
  1 <= n -> l <> [] -> Py.slice_to l n <> [].
Proof.
  intros Hn Hl. rewrite slice_to_firstn by lia.
  destruct l as [|x t]; [congruence|].
  destruct (Z.to_nat n) eqn:E; [lia | simpl; discriminate].
Qed.

Lemma insert_desc_perm (key : A -> Q) (x : A) (l : list A) :
  Permutation (Py.insert_desc key x l) (x :: l).
Proof.
  induction l as [|y t IH]; simpl.
  - apply Permutation_refl.
  - destruct (Py.qlt (key x) (key y)).
    + apply perm_trans with (y :: x :: t).
      * apply perm_skip, IH.
      * apply perm_swap.
    + apply Permutation_refl.
Qed.

Lemma sort_desc_perm (key : A -> Q) (l : list A) :
  Permutation (Py.sort_desc key l) l.
Proof.
  induction l as [|x t IH]; simpl.
  - apply perm_nil.
  - apply perm_trans with (x :: Py.sort_desc key t).
    + apply insert_desc_perm.
    + apply perm_skip, IH.
Qed.

Lemma enumerate_from_snd (i : nat) (l : list A) :
  map snd (Py.enumerate_from i l) = l.
Proof.
  revert i. induction l as [|x t IH]; intros i; simpl; [|rewrite IH]; reflexivity.
Qed.

End PyFacts.

(** The ranking pass reorders its input and does nothing else. *)
Lemma score_and_rank_perm (world : Upstream) (rand : nat -> Q)
    (results : list Card.t) :
  Permutation (_score_and_rank world rand results) results.
Proof.
  unfold _score_and_rank. destruct results as [|r t]; [apply perm_nil|].
  set (l := r :: t).
  rewrite <- (enumerate_from_snd _ 0%nat l) at 2.
  apply Permutation_map, sort_desc_perm.
Qed.

Lemma score_and_rank_nil (world : Upstream) (rand : nat -> Q) :
  _score_and_rank world rand [] = [].
Proof. reflexivity. Qed.

(** ** The cache *)

Section CacheFacts.

Variable V : Type.
Implicit Types (c : TTLCache.t V) (k : string) (e : TTLCache.Link V).

Lemma find_app_split (f : TTLCache.Link V -> bool) (l1 l2 : list (TTLCache.Link V)) :
  find f (l1 ++ l2)
  = match find f l1 with Some x => Some x | None => find f l2 end.
Proof.
  induction l1 as [|x t IH]; simpl; [reflexivity|].
  destruct (f x); [reflexivity | exact IH].
Qed.

Lemma find_without k (l : list (TTLCache.Link V)) :
  find (TTLCache.has_key k) (TTLCache.without k l) = None.
Proof.
  unfold TTLCache.without.
  induction l as [|x t IH]; simpl; [reflexivity|].
  destruct (TTLCache.has_key k x) eqn:E; simpl; [exact IH|].
  rewrite E. exact IH.
Qed.

Lemma getlink_has_key c k e :
  TTLCache.getlink c k = Some e -> TTLCache.has_key k e = true.
Proof.
  unfold TTLCache.getlink. intros H. apply find_some in H. tauto.
Qed.

(** A write succeeds as soon as the cache can hold one entry, and the new
    link is what the next lookup of the key finds. *)
Lemma setitem_stores c time k (v : V) :
  1 <= TTLCache.maxsize c ->
  exists c',
    TTLCache.setitem c time k v = Some c'
    /\ TTLCache.maxsize c' = TTLCache.maxsize c
    /\ TTLCache.ttl c' = TTLCache.ttl c
    /\ TTLCache.getlink c' k
       = Some {| TTLCache.key := k; TTLCache.value := v;
                 TTLCache.expires := (time + TTLCache.ttl c)%Q |}.
Proof.
  intros Hm. unfold TTLCache.setitem.
  destruct (TTLCache.maxsize c <? 1) eqn:E; [apply Z.ltb_lt in E; lia|].
  eexists. split; [reflexivity|]. repeat split.
  unfold TTLCache.getlink. cbn [TTLCache.links].
  rewrite find_app_split, find_without. simpl.
  unfold TTLCache.has_key. cbn [TTLCache.key]. now rewrite String.eqb_refl.
Qed.

(** A read of a live link returns its value and keeps the link. *)
Lemma getitem_live c time k e :
  TTLCache.getlink c k = Some e ->
  Py.qlt time (TTLCache.expires e) = true ->
  exists c',
    TTLCache.getitem c time k = Some (TTLCache.value e, c')
    /\ TTLCache.maxsize c' = TTLCache.maxsize c
    /\ TTLCache.ttl c' = TTLCache.ttl c
    /\ TTLCache.getlink c' k = Some e.
Proof.
  intros Hg Hl. unfold TTLCache.getitem. rewrite Hg, Hl.
  eexists. split; [reflexivity|]. repeat split.
  unfold TTLCache.getlink. cbn [TTLCache.links].
  rewrite find_app_split, find_without. simpl.
  now rewrite (getlink_has_key _ _ _ Hg).
Qed.

Lemma filter_length_bound (f : TTLCache.Link V -> bool)
    (l : list (TTLCache.Link V)) :
  (List.length (filter f l) <= List.length l)%nat.
Proof.
  induction l as [|x t IH]; simpl; [lia|].
  destruct (f x); simpl; lia.
Qed.

(** Removing the links of a key that is present frees at least one place. *)
Lemma without_present k (l : list (TTLCache.Link V)) :
  existsb (TTLCache.has_key k) l = true ->
  (S (List.length (TTLCache.without k l)) <= List.length l)%nat.
Proof.
  unfold TTLCache.without.
  induction l as [|x t IH]; simpl; [discriminate|].
  destruct (TTLCache.has_key k x); simpl.
  - intros _. pose proof (filter_length_bound
                            (fun e => negb (TTLCache.has_key k e)) t). lia.
  - intros H. apply IH in H. lia.
Qed.

(** After the eviction loop there is room for one more link. *)
Lemma evict_leaves_room (m : Z) (l : list (TTLCache.Link V)) :
  1 <= m -> Z.of_nat (List.length (TTLCache.evict m l)) + 1 <= m.
Proof.
  intros Hm. induction l as [|x t IH]; [simpl; lia|].
  cbn [TTLCache.evict].
  destruct (m <? Z.of_nat (List.length (x :: t)) + 1) eqn:E.
  - exact IH.
  - apply Z.ltb_ge in E. exact E.
Qed.

(** Neither operation lets the cache grow beyond its capacity. *)
Lemma setitem_within_capacity c time k (v : V) c' :
  TTLCache.setitem c time k v = Some c' ->
  Z.of_nat (List.length (TTLCache.links c)) <= TTLCache.maxsize c ->
  Z.of_nat (List.length (TTLCache.links c')) <= TTLCache.maxsize c.
Proof.
  unfold TTLCache.setitem.
  destruct (TTLCache.maxsize c <? 1) eqn:Em; [discriminate|].
  apply Z.ltb_ge in Em. intros [= <-] Hlen. cbn [TTLCache.links].
  rewrite length_app. simpl.
  pose proof (filter_length_bound
                (fun e => Py.qlt time (TTLCache.expires e))
                (TTLCache.links c)) as Hlive.
  fold (TTLCache.expire time (TTLCache.links c)) in Hlive.
  destruct (existsb (TTLCache.has_key k)
              (TTLCache.expire time (TTLCache.links c))) eqn:Ek.
  - apply without_present in Ek. lia.
  - pose proof (evict_leaves_room (TTLCache.maxsize c)
                  (TTLCache.expire time (TTLCache.links c)) Em) as Hroom.
    pose proof (filter_length_bound
                  (fun e => negb (TTLCache.has_key k e))
                  (TTLCache.evict (TTLCache.maxsize c)
                     (TTLCache.expire time (TTLCache.links c)))) as Hw.
    fold (TTLCache.without k
            (TTLCache.evict (TTLCache.maxsize c)
               (TTLCache.expire time (TTLCache.links c)))) in Hw.
    lia.
Qed.

Lemma getitem_within_capacity c time k (v : V) c' :
  TTLCache.getitem c time k = Some (v, c') ->
  (List.length (TTLCache.links c') <= List.length (TTLCache.links c))%nat.
Proof.
  unfold TTLCache.getitem, TTLCache.getlink.
  destruct (find (TTLCache.has_key k) (TTLCache.links c)) as [e|] eqn:Ef;
    [|discriminate].
  destruct (Py.qlt time (TTLCache.expires e)); [|discriminate].
  intros [= _ <-]. cbn [TTLCache.links]. rewrite length_app. simpl.
  assert (Hex : existsb (TTLCache.has_key k) (TTLCache.links c) = true).
  { apply existsb_exists. exists e. now apply find_some in Ef. }
  apply without_present in Hex. lia.
Qed.

Lemma contains_live c time k :
  TTLCache.contains c time k = true ->
  exists e, TTLCache.getlink c k = Some e
            /\ Py.qlt time (TTLCache.expires e) = true.
Proof.
  unfold TTLCache.contains. destruct (TTLCache.getlink c k) as [e|].
  - intros H. now exists e.
  - discriminate.
Qed.

Lemma live_contains c time k e :
  TTLCache.getlink c k = Some e ->
  TTLCache.contains c time k = Py.qlt time (TTLCache.expires e).
Proof. unfold TTLCache.contains. now intros ->. Qed.

End CacheFacts.

(** ** The two paths of [get_recommendations] *)

Section Paths.

Variable settings : Config.Settings.
Variable world : Upstream.
Variable rand : nat -> Q.
Variable cache : TTLCache.t (list Card.t).
Variables now later : Q.
Variables category search_query region : string.
Variable limit : Z.

Let key := cache_key category search_query region.

(** Cache hit: the stored list, sliced; the link stays. *)
Lemma get_recommendations_hit (e : TTLCache.Link (list Card.t)) :
  TTLCache.getlink cache key = Some e ->
  Py.qlt now (TTLCache.expires e) = true ->
  exists cache',
    get_recommendations settings world rand cache now later
                        category search_query region limit
    = Some (Py.slice_to (TTLCache.value e) limit, cache')
    /\ TTLCache.maxsize cache' = TTLCache.maxsize cache
    /\ TTLCache.getlink cache' key = Some e.
Proof.
  intros Hg Hl. unfold get_recommendations. fold key.
  rewrite (live_contains _ _ now _ _ Hg), Hl.
  destruct (getitem_live _ _ now _ _ Hg Hl) as (c' & -> & Hm & _ & Hk).
  exists c'. auto.
Qed.

(** Cache miss: the pipeline runs, its ranked output is stored whole, and
    the slice of it is returned. *)
Lemma get_recommendations_miss :
  TTLCache.contains cache now key = false ->
  1 <= TTLCache.maxsize cache ->
  exists cache',
    get_recommendations settings world rand cache now later
                        category search_query region limit
    = Some (Py.slice_to
              (_score_and_rank world rand
                 (dispatch settings world category search_query region))
              limit,
            cache')
    /\ TTLCache.maxsize cache' = TTLCache.maxsize cache
    /\ TTLCache.getlink cache' key
       = Some {| TTLCache.key := key;
                 TTLCache.value :=
                   _score_and_rank world rand
                     (dispatch settings world category search_query region);
                 TTLCache.expires := (later + TTLCache.ttl cache)%Q |}.
Proof.
  intros Hc Hm. unfold get_recommendations. fold key. rewrite Hc.
  destruct (setitem_stores _ cache later key
              (_score_and_rank world rand
                 (dispatch settings world category search_query region)) Hm)
    as (c' & -> & Hm' & _ & Hk).
  exists c'. auto.
Qed.

End Paths.

(** A call changes neither the capacity nor the time to live, and keeps
    the number of links within the capacity. *)
Lemma get_recommendations_keeps_parameters :
  forall settings world rand cache now later
         category search_query region limit results cache',
    get_recommendations settings world rand cache now later
                        category search_query region limit
    = Some (results, cache') ->
    TTLCache.maxsize cache' = TTLCache.maxsize cache
    /\ TTLCache.ttl cache' = TTLCache.ttl cache
    /\ (Z.of_nat (List.length (TTLCache.links cache)) <= TTLCache.maxsize cache ->
        Z.of_nat (List.length (TTLCache.links cache'))
        <= TTLCache.maxsize cache).
Proof.
  intros settings world rand cache now later
         category search_query region limit results cache'.
  unfold get_recommendations.
  destruct (TTLCache.contains cache now _).
  - destruct (TTLCache.getitem cache now _) as [[stored c]|] eqn:E;
      [|discriminate].
    intros [= _ <-].
    pose proof (getitem_within_capacity _ _ _ _ _ _ E) as Hlen.
    revert E. unfold TTLCache.getitem.
    destruct (TTLCache.getlink cache _) as [e|]; [|discriminate].
    destruct (Py.qlt now (TTLCache.expires e)); [|discriminate].
    intros [= _ <-]. cbn [TTLCache.maxsize TTLCache.ttl] in *.
    repeat split. lia.
  - destruct (TTLCache.setitem cache later _ _) as [c|] eqn:E; [|discriminate].
    intros [= _ <-].
    pose proof (setitem_within_capacity _ _ _ _ _ _ E) as Hlen.
    revert E. unfold TTLCache.setitem.
    destruct (TTLCache.maxsize cache <? 1); [discriminate|].
    intros [= <-]. cbn [TTLCache.maxsize TTLCache.ttl] in *.
    repeat split. exact Hlen.
Qed.

(** Every state of the module-level cache has the parameters it was created
    with and holds no more links than its capacity. *)
Lemma reachable_invariant (settings : Config.Settings)
    (cache : TTLCache.t (list Card.t)) :
  reachable settings cache ->
  TTLCache.maxsize cache = 1000
  /\ TTLCache.ttl cache = inject_Z (Config.cache_ttl settings)
  /\ Z.of_nat (List.length (TTLCache.links cache)) <= 1000.
Proof.
  induction 1 as [|world rand cache now later category search_query region
                   limit results cache' _ IH Hcall].
  - repeat split. simpl. lia.
  - destruct IH as (Hm & Ht & Hl).
    destruct (get_recommendations_keeps_parameters
                _ _ _ _ _ _ _ _ _ _ _ _ Hcall) as (Hm' & Ht' & Hl').
    rewrite Hm', Ht', Hm. repeat split; try assumption.
    rewrite <- Hm. apply Hl'. now rewrite Hm.
Qed.

Lemma dispatch_unknown (settings : Config.Settings) (world : Upstream)
    (category search_query region : string) :
  ~ In category ["youtube"; "tiktok"; "movies"; "tv"] ->
  dispatch settings world category search_query region = [].
Proof.
  intros H. unfold dispatch, Py.mem. simpl.
  destruct (String.eqb_spec category "youtube") as [->|_];
    [exfalso; apply H; simpl; tauto|].
  destruct (String.eqb_spec category "tiktok") as [->|_];
    [exfalso; apply H; simpl; tauto|].
  destruct (String.eqb_spec category "movies") as [->|_];
    [exfalso; apply H; simpl; tauto|].
  destruct (String.eqb_spec category "tv") as [->|_];
    [exfalso; apply H; simpl; tauto|].
  reflexivity.
Qed.

(** ** The cache in front of the pipeline *)

(** C6.  A first call always returns, and a second call with the same
    arguments, made while the key's entry is still live, returns the very
    same ordered list, whatever the catalogs and the random generator would
    answer by then: it is served from the cache.  When the first call was a
    miss, the entry is live exactly until [ttl] after the moment it was
    stored. *)
Theorem repeated_call_within_ttl_returns_same_list :
  forall settings world1 rand1 world2 rand2 cache now1 later1 now2 later2
         category search_query region limit,
    1 <= TTLCache.maxsize cache ->
    exists results cache1,
      get_recommendations settings world1 rand1 cache now1 later1
                          category search_query region limit
      = Some (results, cache1)
      /\ (TTLCache.contains cache1 now2
            (cache_key category search_query region) = true ->
          exists cache2,
            get_recommendations settings world2 rand2 cache1 now2 later2
                                category search_query region limit
            = Some (results, cache2))
      /\ (TTLCache.contains cache now1
            (cache_key category search_query region) = false ->
          TTLCache.contains cache1 now2
            (cache_key category search_query region)
          = Py.qlt now2 (later1 + TTLCache.ttl cache)%Q).
Proof.
  intros settings world1 rand1 world2 rand2 cache now1 later1 now2 later2
         category search_query region limit Hmax.
  set (key := cache_key category search_query region).
  destruct (TTLCache.contains cache now1 key) eqn:Hc.
  - (* the first call is itself a hit *)
    destruct (contains_live _ _ _ _ Hc) as (e & Hg & Hl).
    destruct (get_recommendations_hit settings world1 rand1 cache now1 later1
                category search_query region limit e Hg Hl)
      as (cache1 & H1 & _ & Hk).
    exists (Py.slice_to (TTLCache.value e) limit), cache1.
    split; [exact H1|]. split; [|discriminate].
    intros Hc2. fold key in Hk.
    rewrite (live_contains _ _ now2 _ _ Hk) in Hc2.
    destruct (get_recommendations_hit settings world2 rand2 cache1 now2 later2
                category search_query region limit e Hk Hc2)
      as (cache2 & H2 & _).
    now exists cache2.
  - (* the first call runs the pipeline and stores its output *)
    destruct (get_recommendations_miss settings world1 rand1 cache now1 later1
                category search_query region limit Hc Hmax)
      as (cache1 & H1 & _ & Hk).
    eexists _, cache1. split; [exact H1|]. fold key in Hk. split.
    + intros Hc2. rewrite (live_contains _ _ now2 _ _ Hk) in Hc2.
      destruct (get_recommendations_hit settings world2 rand2 cache1 now2
                  later2 category search_query region limit _ Hk Hc2)
        as (cache2 & H2 & _).
      now exists cache2.
    + intros _. now rewrite (live_contains _ _ now2 _ _ Hk).
Qed.

(** A first call on the empty cache while both catalogs are down, and a
    second one a hundred seconds later against a catalog that would answer. *)
Lemma repeated_call_within_ttl_witness :
  1 <= TTLCache.maxsize (recommendation_cache Scenario.settings)
  /\ exists results cache1,
       get_recommendations Scenario.settings Scenario.failing_world
         Scenario.no_rand (recommendation_cache Scenario.settings) 0 1
         "youtube" "cats" "US" 3
       = Some (results, cache1)
       /\ (TTLCache.contains cache1 100 (cache_key "youtube" "cats" "US") = true ->
           exists cache2,
             get_recommendations Scenario.settings Scenario.dup_world
               Scenario.no_rand cache1 100 101 "youtube" "cats" "US" 3
             = Some (results, cache2))
       /\ (TTLCache.contains (recommendation_cache Scenario.settings) 0
             (cache_key "youtube" "cats" "US") = false ->
           TTLCache.contains cache1 100 (cache_key "youtube" "cats" "US")
           = Py.qlt 100
               (1 + TTLCache.ttl (recommendation_cache Scenario.settings))%Q).
Proof.
  split; [vm_compute; discriminate|].
  apply (repeated_call_within_ttl_returns_same_list
           Scenario.settings Scenario.failing_world Scenario.no_rand
           Scenario.dup_world Scenario.no_rand
           (recommendation_cache Scenario.settings) 0 1 100 101
           "youtube" "cats" "US" 3).
  vm_compute; discriminate.
Defined.

(** C7.  On a hit the response is the stored list sliced to the limit and
    the entry is left as it was; on a miss the ranked output of the pipeline
    is stored whole and its slice is returned.  With twenty items stored for
    movies, inception, US and a limit of five, the response is the first five
    stored items, for every state of the catalogs. *)
Theorem cache_hit_slices_stored_list_miss_stores_whole :
  forall settings world rand cache now later
         category search_query region limit,
    (forall e,
        TTLCache.getlink cache (cache_key category search_query region)
        = Some e ->
        Py.qlt now (TTLCache.expires e) = true ->
        exists cache',
          get_recommendations settings world rand cache now later
                              category search_query region limit
          = Some (Py.slice_to (TTLCache.value e) limit, cache')
          /\ TTLCache.getlink cache' (cache_key category search_query region)
             = Some e)
    /\ (TTLCache.contains cache now (cache_key category search_query region)
        = false ->
        1 <= TTLCache.maxsize cache ->
        exists cache',
          get_recommendations settings world rand cache now later
                              category search_query region limit
          = Some (Py.slice_to
                    (_score_and_rank world rand
                       (dispatch settings world category search_query region))
                    limit,
                  cache')
          /\ TTLCache.getlink cache' (cache_key category search_query region)
             = Some {| TTLCache.key := cache_key category search_query region;
                       TTLCache.value :=
                         _score_and_rank world rand
                           (dispatch settings world category search_query
                                     region);
                       TTLCache.expires := (later + TTLCache.ttl cache)%Q |})
    /\ (forall e,
        TTLCache.getlink cache (cache_key "movies" "inception" "US") = Some e ->
        Py.qlt now (TTLCache.expires e) = true ->
        List.length (TTLCache.value e) = 20%nat ->
        exists cache',
          get_recommendations settings world rand cache now later
                              "movies" "inception" "US" 5
          = Some (firstn 5 (TTLCache.value e), cache')).
Proof.
  intros settings world rand cache now later
         category search_query region limit.
  split; [|split].
  - intros e Hg Hl.
    destruct (get_recommendations_hit settings world rand cache now later
                category search_query region limit e Hg Hl)
      as (c' & H & _ & Hk).
    now exists c'.
  - intros Hc Hm.
    destruct (get_recommendations_miss settings world rand cache now later
                category search_query region limit Hc Hm)
      as (c' & H & _ & Hk).
    now exists c'.
  - intros e Hg Hl _.
    destruct (get_recommendations_hit settings world rand cache now later
                "movies" "inception" "US" 5 e Hg Hl)
      as (c' & H & _).
    exists c'. rewrite H. now rewrite slice_to_firstn by lia.
Qed.

(** The cache holds twenty cards for movies, inception, US: a request for
    five of them at time 10 gets the cards numbered 0 to 4, although both
    catalogs are down. *)
Lemma cache_hit_slices_stored_list_witness :
  exists cache',
    get_recommendations Scenario.settings Scenario.failing_world
      Scenario.no_rand Scenario.inception_cache 10 11
      "movies" "inception" "US" 5
    = Some (map Scenario.stored_card (seq 0 5), cache').
Proof.
  destruct (cache_hit_slices_stored_list_miss_stores_whole
              Scenario.settings Scenario.failing_world Scenario.no_rand
              Scenario.inception_cache 10 11 "movies" "inception" "US" 5)
    as (_ & _ & H).
  apply (H {| TTLCache.key := "movies:inception:US";
              TTLCache.value := Scenario.stored_twenty;
              TTLCache.expires := 200 |});
    reflexivity.
Defined.

(** C10.  A category outside the four known ones reaches none of the
    pipelines: on a cache miss the call returns the empty list (and stores
    it), without an exception and without any fallback catalog. *)
Theorem unknown_category_returns_empty_list :
  forall settings world rand cache now later
         category search_query region limit,
    ~ In category ["youtube"; "tiktok"; "movies"; "tv"] ->
    TTLCache.contains cache now (cache_key category search_query region)
    = false ->
    1 <= TTLCache.maxsize cache ->
    exists cache',
      get_recommendations settings world rand cache now later
                          category search_query region limit
      = Some ([], cache')
      /\ TTLCache.getlink cache' (cache_key category search_query region)
         = Some {| TTLCache.key := cache_key category search_query region;
                   TTLCache.value := [];
                   TTLCache.expires := (later + TTLCache.ttl cache)%Q |}.
Proof.
  intros settings world rand cache now later
         category search_query region limit Hcat Hc Hm.
  destruct (get_recommendations_miss settings world rand cache now later
              category search_query region limit Hc Hm)
    as (c' & H & _ & Hk).
  rewrite (dispatch_unknown settings world category search_query region Hcat) in H, Hk.
  rewrite score_and_rank_nil in H, Hk. rewrite slice_to_nil in H.
  now exists c'.
Qed.

Lemma unknown_category_witness :
  exists cache',
    get_recommendations Scenario.settings Scenario.dup_world Scenario.no_rand
      (recommendation_cache Scenario.settings) 0 1 "podcasts" "cats" "US" 20
    = Some ([], cache')
    /\ TTLCache.getlink cache' (cache_key "podcasts" "cats" "US")
       = Some {| TTLCache.key := cache_key "podcasts" "cats" "US";
                 TTLCache.value := [];
                 TTLCache.expires :=
                   (1 + TTLCache.ttl
                          (recommendation_cache Scenario.settings))%Q |}.
Proof.
  apply (unknown_category_returns_empty_list
           Scenario.settings Scenario.dup_world Scenario.no_rand
           (recommendation_cache Scenario.settings) 0 1
           "podcasts" "cats" "US" 20).
  - simpl. intros [H|[H|[H|[H|[]]]]]; discriminate H.
  - reflexivity.
  - vm_compute; discriminate.
Defined.

(** ** The similarity score *)

Lemma mem_in (x : string) (l : list string) :
  Py.mem x l = true <-> In x l.
Proof.
  unfold Py.mem. rewrite existsb_exists. split.
  - intros (y & Hy & E). apply String.eqb_eq in E. now subst.
  - intros H. exists x. split; [assumption | apply String.eqb_refl].
Qed.

Section ScoreFacts.

Variables source candidate : Details.t.

Lemma qmin_bounds (a b : Q) :
  (0 <= a)%Q -> (0 <= b)%Q -> (0 <= Py.qmin a b <= b)%Q.
Proof.
  intros Ha Hb. unfold Py.qmin, Py.qlt.
  destruct (Qle_bool a b) eqn:E; simpl.
  - apply Qle_bool_iff in E. split; assumption.
  - split; [assumption | apply Qle_refl].
Qed.

Lemma qmin_is_Qmin (a b : Q) : (Py.qmin a b == Qmin a b)%Q.
Proof.
  unfold Py.qmin, Py.qlt.
  destruct (Qle_bool a b) eqn:E; simpl.
  - apply Qle_bool_iff in E. symmetry. now apply Q.min_l.
  - assert (H : (b <= a)%Q).
    { apply Qnot_lt_le. intros Hlt. apply Qlt_le_weak in Hlt.
      apply Qle_bool_iff in Hlt. congruence. }
    symmetry. now apply Q.min_r.
Qed.

Lemma overlap_nonneg (a b : list string) : 0 <= overlap a b.
Proof. unfold overlap. lia. Qed.


Lemma inject_Z_nonneg (z : Z) : 0 <= z -> (0 <= inject_Z z)%Q.
Proof. intros H. unfold Qle. simpl. lia. Qed.

Lemma overlap_points_bounds (per cap : Q) (n : Z) :
  (0 <= per)%Q -> (0 <= cap)%Q -> 0 <= n ->
  (0 <= Spec.overlap_points per cap n <= cap)%Q.
Proof.
  intros Hper Hcap Hn. unfold Spec.overlap_points. split.
  - apply Q.min_glb; [|exact Hcap].
    apply Qmult_le_0_compat; [exact Hper | now apply inject_Z_nonneg].
  - apply Q.le_min_r.
Qed.

(** [min(n * k, cap)] as the body writes it, for an [int] and for a float
    number of points. *)
Lemma capped_int_points (k : Z) (cap : Q) (n : Z) :
  (Py.qmin (inject_Z (n * k)) cap
   == Spec.overlap_points (inject_Z k) cap n)%Q.
Proof.
  unfold Spec.overlap_points. rewrite qmin_is_Qmin.
  now rewrite inject_Z_mult, Qmult_comm.
Qed.

Lemma capped_half_points (per cap : Q) (n : Z) :
  (Py.qmin (inject_Z n * per) cap == Spec.overlap_points per cap n)%Q.
Proof.
  unfold Spec.overlap_points. rewrite qmin_is_Qmin.
  now rewrite Qmult_comm.
Qed.

Lemma flag_bounds (b : bool) (k : Q) :
  (0 <= k)%Q -> (0 <= (if b then k else 0) <= k)%Q.
Proof. intros Hk. destruct b; split; try assumption; apply Qle_refl. Qed.




Lemma runtime_bounds : (0 <= Spec.runtime_points source candidate <= 5)%Q.
Proof. apply flag_bounds. discriminate. Qed.

Lemma rating_bounds : (0 <= Spec.rating_points source candidate <= 5)%Q.
Proof. apply flag_bounds. discriminate. Qed.

Lemma year_bounds : (0 <= Spec.year_points source candidate <= 5)%Q.
Proof.
  unfold Spec.year_points.
  destruct (Py.int_of_str (Details.release_year source));
    [destruct (Py.int_of_str (Details.release_year candidate))|];
    try (split; discriminate).
  apply flag_bounds. discriminate.
Qed.


(** The running total of the loop body is the sum of the table for the
    four overlaps the body computes. *)
Lemma similarity_score_factor_sum :
  (similarity_score source candidate
   == Spec.table_sum source candidate
        (overlap (Details.cast source) (Details.cast candidate))
        (overlap (Details.genres source) (Details.genres candidate))
        (overlap (Details.keywords source) (Details.keywords candidate))
        (overlap (Details.companies source) (Details.companies candidate)))%Q.
Proof.
  unfold similarity_score, Spec.table_sum.
  rewrite <- (capped_int_points 5 25), <- (capped_int_points 10 20),
    <- (capped_int_points 2 15), <- (capped_half_points (15 # 2) 15).
  generalize (Py.qmin
                (inject_Z (overlap (Details.cast source)
                                   (Details.cast candidate) * 5)) 25)
             (Py.qmin
                (inject_Z (overlap (Details.genres source)
                                   (Details.genres candidate) * 10)) 20)
             (Py.qmin
                (inject_Z (overlap (Details.keywords source)
                                   (Details.keywords candidate) * 2)) 15)
             (Py.qmin
                (inject_Z (overlap (Details.companies source)
                                   (Details.companies candidate)) * (15 # 2))
                15).
  intros pc pg pk pp.
  unfold Spec.franchise_points, Spec.director_points, Spec.budget_points,
    Spec.runtime_points, Spec.rating_points, Spec.year_points.
  generalize (Py.truthy_opt (Details.collection source)
              && Py.truthy_opt (Details.collection candidate))
             (Py.truthy_opt (Details.director source)
              && Py.truthy_opt (Details.director candidate))
             ((0 <? Details.budget source) && (0 <? Details.budget candidate))
             ((0 <? Details.runtime source) && (0 <? Details.runtime candidate))
             (PrimFloat.ltb 0 (Details.rating source)
              && PrimFloat.ltb 0 (Details.rating candidate)).
  intros a1 a2 a7 a8 a9. cbv zeta.
  destruct (Py.int_of_str (Details.release_year source)) as [ys|];
    [destruct (Py.int_of_str (Details.release_year candidate)) as [yc|]|];
    destruct a1, a2, a7, a8, a9; cbn [andb];
    repeat match goal with
           | |- context [if ?b then _ else _] => destruct b
           end;
    ring.
Qed.

End ScoreFacts.

Lemma in_filter_map {A B : Type} (f : A -> option B) (l : list A) (y : B) :
  In y (Py.filter_map f l) <-> exists x, In x l /\ f x = Some y.
Proof.
  induction l as [|a t IH]; simpl.
  - split; [tauto | intros (x & [] & _)].
  - destruct (f a) as [b|] eqn:E; simpl; rewrite IH; split.
    + intros [<-|(x & Hx & Hf)]; [exists a; auto | exists x; auto].
    + intros (x & [<-|Hx] & Hf); [left; congruence | right; exists x; auto].
    + intros (x & Hx & Hf). exists x; auto.
    + intros (x & [<-|Hx] & Hf); [congruence | exists x; auto].
Qed.


Lemma score_candidate_some (world : Upstream) (source : Details.t)
    (media : media_type) (candidate x : Candidate.t) :
  score_candidate world source media candidate = Some x
  <-> Candidate.id candidate <> Details.id source
      /\ exists d,
           tmdb_details world (Candidate.id candidate) media = Some d
           /\ x = Candidate.with_score (similarity_score source d) candidate.
Proof.
  unfold score_candidate.
  destruct (Z.eqb_spec (Candidate.id candidate) (Details.id source)) as [E|E].
  - split; [discriminate | tauto].
  - destruct (tmdb_details world (Candidate.id candidate) media) as [d|].
    + split.
      * intros [= <-]. split; [assumption | now exists d].
      * intros (_ & d' & [= <-] & ->). reflexivity.
    + split; [discriminate | intros (_ & d & [=] & _)].
Qed.

Lemma intersection_size_unique (a b : list string) (n m : Z) :
  Spec.intersection_size a b n -> Spec.intersection_size a b m -> n = m.
Proof.
  intros (l1 & Hn1 & Hin1 & ->) (l2 & Hn2 & Hin2 & ->). f_equal.
  apply Permutation_length, NoDup_Permutation; try assumption.
  intros x. now rewrite Hin1, Hin2.
Qed.

(** The rating factor follows the difference as the program computes it:
    the floats nearest to 5.1 and 3.6 are less than 1.5 apart. *)
Example rating_points_of_floats :
  forall s c : Details.t,
    Details.rating s = 0x1.4666666666666p+2%float ->
    Details.rating c = 0x1.ccccccccccccdp+1%float ->
    Spec.rating_points s c = 5%Q.
Proof.
  intros s c Hs Hc. unfold Spec.rating_points. rewrite Hs, Hc. reflexivity.
Qed.


(** C8.  When the source has a collection and a candidate's collection does
    not match it, filing that candidate under the source's collection adds
    exactly 50 to its score; in the scoring loop the score of every candidate
    with another id is what it was. *)
Theorem franchise_match_adds_fifty :
  forall (world world' : Upstream) (media : media_type)
         (source d : Details.t) (k : Z),
    Py.truthy_opt (Details.collection source) = true ->
    Details.collection d <> Details.collection source ->
    tmdb_details world k media = Some d ->
    tmdb_details world' k media
    = Some (Details.with_collection (Details.collection source) d) ->
    (forall i, i <> k ->
               tmdb_details world' i media = tmdb_details world i media) ->
    (similarity_score source
       (Details.with_collection (Details.collection source) d)
     == similarity_score source d + 50)%Q
    /\ forall candidate,
         Candidate.id candidate <> Details.id source ->
         (Candidate.id candidate = k ->
          score_candidate world source media candidate
          = Some (Candidate.with_score (similarity_score source d) candidate)
          /\ score_candidate world' source media candidate
             = Some (Candidate.with_score
                       (similarity_score source
                          (Details.with_collection
                             (Details.collection source) d))
                       candidate))
         /\ (Candidate.id candidate <> k ->
             score_candidate world' source media candidate
             = score_candidate world source media candidate).
Proof.
  intros world world' media source d k Hsrc Hneq Hd Hd' Hsame. split.
  - rewrite !similarity_score_factor_sum. unfold Spec.table_sum.
    cbn [Details.with_collection Details.cast Details.genres
           Details.keywords Details.companies].
    assert (H50 : Spec.franchise_points source
                    (Details.with_collection (Details.collection source) d)
                  = 50%Q).
    { unfold Spec.franchise_points. cbn [Details.with_collection
                                           Details.collection].
      rewrite Hsrc. cbn [andb].
      destruct (Details.collection source) as [s|]; [|discriminate].
      cbn [Py.opt_str_eqb]. now rewrite String.eqb_refl. }
    assert (H0 : Spec.franchise_points source d = 0%Q).
    { unfold Spec.franchise_points.
      destruct (Details.collection source) as [s|]; [|discriminate].
      destruct (Details.collection d) as [c|];
        [|now rewrite andb_false_r].
      cbn [Py.opt_str_eqb].
      destruct (String.eqb_spec s c) as [->|_]; [congruence|].
      now rewrite andb_false_r. }
    rewrite H50, H0.
    change (Spec.director_points source
              (Details.with_collection (Details.collection source) d))
      with (Spec.director_points source d).
    change (Spec.budget_points source
              (Details.with_collection (Details.collection source) d))
      with (Spec.budget_points source d).
    change (Spec.runtime_points source
              (Details.with_collection (Details.collection source) d))
      with (Spec.runtime_points source d).
    change (Spec.rating_points source
              (Details.with_collection (Details.collection source) d))
      with (Spec.rating_points source d).
    change (Spec.year_points source
              (Details.with_collection (Details.collection source) d))
      with (Spec.year_points source d).
    ring.
  - intros candidate Hid. unfold score_candidate.
    destruct (Z.eqb_spec (Candidate.id candidate) (Details.id source))
      as [E|_]; [contradiction|].
    split.
    + intros ->. now rewrite Hd, Hd'.
    + intros Hk. now rewrite (Hsame _ Hk).
Qed.

(** The sequel of the example catalog, first without a collection and then
    filed under the source's: its score goes from 79.5 to 129.5. *)
Lemma franchise_match_adds_fifty_witness :
  (similarity_score Scenario.source_film Scenario.sequel_film
   == similarity_score Scenario.source_film Scenario.sequel_unfiled + 50)%Q
  /\ similarity_score Scenario.source_film Scenario.sequel_unfiled = (159 # 2)%Q.
Proof.
  split; [|reflexivity].
  apply (franchise_match_adds_fifty
           (Scenario.film_world Scenario.sequel_unfiled)
           (Scenario.film_world Scenario.sequel_film)
           movie Scenario.source_film Scenario.sequel_unfiled 2).
  - reflexivity.
  - discriminate.
  - reflexivity.
  - reflexivity.
  - intros i Hi. simpl. unfold Scenario.film_details.
    destruct (i =? 1); [reflexivity|].
    destruct (Z.eqb_spec i 2) as [->|_]; [contradiction|]. reflexivity.
Defined.

(** ** The fallback catalog *)

Lemma str_lookup_in {A : Type} (k : string) (d : list (string * A)) (v : A) :
  str_lookup k d = Some v -> In v (map snd d).
Proof.
  induction d as [|[k' v'] t IH]; simpl; [discriminate|].
  destruct (k =? k')%string; [intros [= ->]; now left | auto].
Qed.

Lemma partial_match_in (q : string)
    (d : list (string * list (string * string * string)))
    (v : list (string * string * string)) :
  partial_match q d = Some v -> In v (map snd d).
Proof.
  induction d as [|[k' v'] t IH]; simpl; [discriminate|].
  destruct (Py.str_in k' q || Py.str_in q k');
    [intros [= ->]; now left | auto].
Qed.

Lemma mock_movie_videos_nonempty (query : string) :
  mock_movie_videos query <> [].
Proof.
  assert (H : forall v, In v (map snd mock_movie_table) -> v <> []).
  { simpl. intros v [<-|[<-|[<-|[<-|[]]]]]; discriminate. }
  unfold mock_movie_videos.
  destruct (str_lookup (Py.lower query) mock_movie_table) eqn:E1.
  - apply H, (str_lookup_in _ _ _ E1).
  - destruct (partial_match (Py.lower query) mock_movie_table) eqn:E2.
    + apply H, (partial_match_in _ _ _ E2).
    + discriminate.
Qed.

Lemma fallback_catalog_nonempty (category query : string) :
  Spec.fallback_catalog category query <> [].
Proof.
  unfold Spec.fallback_catalog.
  destruct (category =? "youtube")%string; [discriminate|].
  destruct (category =? "tiktok")%string; [discriminate|].
  unfold _get_mock_movie_results.
  pose proof (mock_movie_videos_nonempty query) as H.
  destruct (mock_movie_videos query); [congruence | discriminate].
Qed.

(** With both catalogs down every pipeline ends in its fallback catalog. *)
Lemma dispatch_all_fail (settings : Config.Settings) (world : Upstream)
    (category search_query region : string) :
  Spec.all_catalogs_fail world ->
  Spec.valid_category category ->
  dispatch settings world category search_query region
  = Spec.fallback_catalog category search_query.
Proof.
  intros (Hyt & Hsearch & _) Hcat.
  assert (Hmovie : forall c,
             _get_movie_recommendations world search_query region c
             = _get_mock_movie_results search_query c).
  { intros c. unfold _get_movie_recommendations, _find_similar_shows,
      _search_tmdb, _search_youtube_content.
    now rewrite Hsearch, Hyt. }
  unfold Spec.valid_category in Hcat. simpl in Hcat.
  unfold dispatch, Spec.fallback_catalog.
  destruct Hcat as [<-|[<-|[<-|[<-|[]]]]]; simpl.
  - apply Hmovie.
  - apply Hmovie.
  - unfold _get_youtube_recommendations. now rewrite Hyt.
  - unfold _get_tiktok_style_recommendations, tiktok_strategy. simpl.
    now rewrite !Hyt.
Qed.

(** C2.  With every catalog call failing, a valid request that misses the
    cache returns a non-empty list of at most [limit] items, all of them
    from the fallback catalog of the category.  For batman, movies, limit 6
    the response consists of exactly the six curated batman trailers (in the
    order the ranking pass leaves them), each tagged movies, with the six
    literal video identifiers. *)
Theorem all_catalogs_failing_yields_fallback_items :
  forall settings world rand cache now later
         category search_query region limit,
    Spec.all_catalogs_fail world ->
    Spec.valid_category category ->
    1 <= limit ->
    TTLCache.contains cache now (cache_key category search_query region)
    = false ->
    1 <= TTLCache.maxsize cache ->
    exists results cache',
      get_recommendations settings world rand cache now later
                          category search_query region limit
      = Some (results, cache')
      /\ results <> []
      /\ Z.of_nat (List.length results) <= limit
      /\ (forall x, In x results ->
                    In x (Spec.fallback_catalog category search_query))
      /\ (category = "movies" -> search_query = "batman" -> limit = 6 ->
          Permutation results (_get_mock_movie_results "batman" "movies")
          /\ Permutation (map Card.id results) Spec.batman_ids
          /\ List.length results = 6%nat
          /\ forall x, In x results -> Card.platform x = "movies").
Proof.
  intros settings world rand cache now later
         category search_query region limit Hfail Hcat Hlim Hc Hm.
  destruct (get_recommendations_miss settings world rand cache now later
              category search_query region limit Hc Hm)
    as (c' & H & _).
  rewrite (dispatch_all_fail settings world category search_query region
             Hfail Hcat) in H.
  pose proof (score_and_rank_perm world rand
                (Spec.fallback_catalog category search_query)) as Hperm.
  set (ranked := _score_and_rank world rand
                   (Spec.fallback_catalog category search_query)) in *.
  exists (Py.slice_to ranked limit), c'.
  split; [exact H|]. split; [|split; [|split]].
  - apply slice_to_nonempty; [assumption|].
    intros E. rewrite E in Hperm. apply Permutation_nil in Hperm.
    now apply (fallback_catalog_nonempty category search_query).
  - apply slice_to_length. lia.
  - intros x Hx. apply (Permutation_in x Hperm).
    now apply slice_to_incl in Hx.
  - intros -> -> ->.
    assert (Hlen : List.length ranked = 6%nat)
      by (rewrite (Permutation_length Hperm); reflexivity).
    rewrite slice_to_whole by (rewrite Hlen; discriminate).
    split; [exact Hperm|]. split; [|split; [exact Hlen|]].
    + change Spec.batman_ids
        with (map Card.id (Spec.fallback_catalog "movies" "batman")).
      apply Permutation_map, Hperm.
    + intros x Hx. apply (Permutation_in x Hperm) in Hx.
      simpl in Hx.
      destruct Hx as [<-|[<-|[<-|[<-|[<-|[<-|[]]]]]]]; reflexivity.
Qed.

(** The request of the scenario, on the empty cache, both catalogs down. *)
Lemma all_catalogs_failing_witness :
  exists results cache',
    get_recommendations Scenario.settings Scenario.failing_world
      Scenario.no_rand (recommendation_cache Scenario.settings) 0 1
      "movies" "batman" "US" 6
    = Some (results, cache')
    /\ results <> []
    /\ Z.of_nat (List.length results) <= 6
    /\ (forall x, In x results ->
                  In x (Spec.fallback_catalog "movies" "batman"))
    /\ ("movies" = "movies" -> "batman" = "batman" -> 6 = 6 ->
        Permutation results (_get_mock_movie_results "batman" "movies")
        /\ Permutation (map Card.id results) Spec.batman_ids
        /\ List.length results = 6%nat
        /\ forall x, In x results -> Card.platform x = "movies").
Proof.
  apply (all_catalogs_failing_yields_fallback_items
           Scenario.settings Scenario.failing_world Scenario.no_rand
           (recommendation_cache Scenario.settings) 0 1
           "movies" "batman" "US" 6).
  - repeat split.
  - unfold Spec.valid_category. simpl. tauto.
  - lia.
  - reflexivity.
  - vm_compute; discriminate.
Defined.

(** ** The ranking pass and the categories *)

(** C3, as the code has it.  On a cache miss the ranking pass is applied to
    the output of the pipeline of every category, movies and tv included:
    the ranked list is what is stored and what the response is sliced from.
    It holds the same items as the pipeline's output, in the order of the
    recency-and-randomness score. *)
Theorem ranking_pass_applies_to_every_category :
  forall settings world rand cache now later
         category search_query region limit,
    TTLCache.contains cache now (cache_key category search_query region)
    = false ->
    1 <= TTLCache.maxsize cache ->
    exists cache',
      get_recommendations settings world rand cache now later
                          category search_query region limit
      = Some (Py.slice_to
                (_score_and_rank world rand
                   (dispatch settings world category search_query region))
                limit,
              cache')
      /\ option_map (@TTLCache.value _)
           (TTLCache.getlink cache' (cache_key category search_query region))
         = Some (_score_and_rank world rand
                   (dispatch settings world category search_query region))
      /\ Permutation
           (_score_and_rank world rand
              (dispatch settings world category search_query region))
           (dispatch settings world category search_query region).
Proof.
  intros settings world rand cache now later
         category search_query region limit Hc Hm.
  destruct (get_recommendations_miss settings world rand cache now later
              category search_query region limit Hc Hm)
    as (c' & H & _ & Hk).
  exists c'. split; [exact H|]. split.
  - now rewrite Hk.
  - apply score_and_rank_perm.
Qed.

(** A movies request against the example catalog: the pipeline puts the
    sequel (id 2) before the unrelated film (id 3), the response has them
    the other way round. *)
Lemma ranking_pass_applies_witness :
  exists cache',
    get_recommendations Scenario.settings
      (Scenario.film_world Scenario.sequel_film) Scenario.no_rand
      (recommendation_cache Scenario.settings) 0 1
      "movies" "the dark knight" "US" 20
    = Some (Py.slice_to
              (_score_and_rank (Scenario.film_world Scenario.sequel_film)
                 Scenario.no_rand
                 (dispatch Scenario.settings
                    (Scenario.film_world Scenario.sequel_film)
                    "movies" "the dark knight" "US"))
              20,
            cache')
    /\ option_map (@TTLCache.value _)
         (TTLCache.getlink cache' (cache_key "movies" "the dark knight" "US"))
       = Some (_score_and_rank (Scenario.film_world Scenario.sequel_film)
                 Scenario.no_rand
                 (dispatch Scenario.settings
                    (Scenario.film_world Scenario.sequel_film)
                    "movies" "the dark knight" "US"))
    /\ Permutation
         (_score_and_rank (Scenario.film_world Scenario.sequel_film)
            Scenario.no_rand
            (dispatch Scenario.settings
               (Scenario.film_world Scenario.sequel_film)
               "movies" "the dark knight" "US"))
         (dispatch Scenario.settings
            (Scenario.film_world Scenario.sequel_film)
            "movies" "the dark knight" "US").
Proof.
  apply (ranking_pass_applies_to_every_category
           Scenario.settings (Scenario.film_world Scenario.sequel_film)
           Scenario.no_rand (recommendation_cache Scenario.settings) 0 1
           "movies" "the dark knight" "US" 20).
  - reflexivity.
  - vm_compute; discriminate.
Defined.

(** C3, as it is stated, fails: in the example catalog the sequel scores
    129.5 against the source and the unrelated film 0, so the movies
    pipeline yields the ids 2, 3 in this order; the response of
    [get_recommendations] is 3, 2, the unrelated film being the more
    recent one. *)
Lemma movie_results_are_reranked :
  exists results cache',
    get_recommendations Scenario.settings
      (Scenario.film_world Scenario.sequel_film) Scenario.no_rand
      (recommendation_cache Scenario.settings) 0 1
      "movies" "the dark knight" "US" 20
    = Some (results, cache')
    /\ map Card.id
         (dispatch Scenario.settings
            (Scenario.film_world Scenario.sequel_film)
            "movies" "the dark knight" "US")
       = ["2"; "3"]
    /\ map Card.id results = ["3"; "2"]
    /\ (similarity_score Scenario.source_film Scenario.sequel_film
         == 259 # 2)%Q
    /\ (similarity_score Scenario.source_film Scenario.unrelated_film
         == 0)%Q
    /\ ~ Spec.structured_results_skip_ranking.
Proof.
  eexists _, _. split; [vm_compute; reflexivity|].
  repeat split; try reflexivity.
  intros H.
  destruct (H Scenario.settings (Scenario.film_world Scenario.sequel_film)
              Scenario.no_rand (recommendation_cache Scenario.settings)
              0%Q 1%Q "movies" "the dark knight" "US" 20
              eq_refl eq_refl)
    as (c' & E).
  - vm_compute; discriminate.
  - vm_compute in E. discriminate E.
Qed.

(** ** The primary platform *)

(** What the two loops compute when no listed platform is netflix and the
    first one has a tag of the priority list: the first one. *)
Lemma choose_primary_platform_without_netflix (first : Provider.t)
    (others : list Provider.t) :
  find_platform "netflix" (first :: others) = None ->
  Py.mem (Provider.platform first) platform_priority = true ->
  choose_primary_platform (first :: others) = Some first.
Proof.
  intros Hn Hp. unfold choose_primary_platform, platform_priority.
  cbn [priority_loop]. rewrite Hn. fold platform_priority. now rewrite Hp.
Qed.

(** X4.  Every platform the availability lookup returns carries one of the
    seven known tags; providers outside the mapping are dropped. *)
Lemma watch_providers_have_priority_tags (world : Upstream) (media_id : Z)
    (media : media_type) (p : Provider.t) :
  In p (_get_tmdb_watch_providers world media_id media) ->
  Py.mem (Provider.platform p) platform_priority = true.
Proof.
  assert (Hmap : forall title ids,
             In p (mapped_providers world media_id media title ids) ->
             Py.mem (Provider.platform p) platform_priority = true).
  { intros title ids Hin. unfold mapped_providers in Hin.
    apply in_filter_map in Hin. destruct Hin as (pid & _ & Hp).
    destruct (int_lookup pid provider_mapping) as [name|] eqn:E;
      [|discriminate].
    injection Hp as <-. cbn [Provider.platform].
    revert E. unfold provider_mapping. cbn [int_lookup].
    repeat match goal with
           | |- context [if ?b then _ else _] => destruct b
           end;
      try discriminate; intros [= <-]; reflexivity. }
  unfold _get_tmdb_watch_providers.
  destruct (tmdb_providers world media_id media) as [[flatrate buy]|];
    [|intros []].
  destruct (mapped_providers world media_id media
              (tmdb_title world media_id media) flatrate) eqn:E.
  - apply Hmap.
  - rewrite <- E. apply Hmap.
Qed.

(** C4, at the failing input.  For an item offered by hulu and disney, in
    this order, the availability lookup returns the two platforms, the
    loops choose hulu, and the priority order asks for disney. *)
Theorem primary_platform_hulu_before_disney :
  _get_tmdb_watch_providers Scenario.two_provider_world 7 movie
  = [Scenario.hulu; Scenario.disney]
  /\ choose_primary_platform [Scenario.hulu; Scenario.disney]
     = Some Scenario.hulu
  /\ Spec.primary_platform [Scenario.hulu; Scenario.disney]
     = Some Scenario.disney.
Proof. repeat split. Qed.

(** ** Configuration of the cache *)

(** C9, as the code has it.  In every state of the result cache the time
    to live is the configured [cache_ttl]: an entry stored by a call is live
    until that many seconds after it was stored.  The capacity is 1000
    whatever the configuration, and the cache never holds more entries. *)
Theorem cache_ttl_configured_maxsize_fixed :
  forall (settings : Config.Settings) (cache : TTLCache.t (list Card.t)),
    reachable settings cache ->
    TTLCache.ttl cache = inject_Z (Config.cache_ttl settings)
    /\ TTLCache.maxsize cache = 1000
    /\ Z.of_nat (List.length (TTLCache.links cache)) <= 1000
    /\ forall world rand now later category search_query region limit,
         TTLCache.contains cache now (cache_key category search_query region)
         = false ->
         exists results cache',
           get_recommendations settings world rand cache now later
                               category search_query region limit
           = Some (results, cache')
           /\ forall time,
                TTLCache.contains cache' time
                  (cache_key category search_query region)
                = Py.qlt time (later + inject_Z (Config.cache_ttl settings))%Q.
Proof.
  intros settings cache Hr.
  destruct (reachable_invariant settings cache Hr) as (Hm & Ht & Hl).
  split; [exact Ht|]. split; [exact Hm|]. split; [exact Hl|].
  intros world rand now later category search_query region limit Hc.
  assert (Hmax : 1 <= TTLCache.maxsize cache) by (rewrite Hm; lia).
  destruct (get_recommendations_miss settings world rand cache now later
              category search_query region limit Hc Hmax)
    as (c' & H & _ & Hk).
  eexists _, c'. split; [exact H|].
  intros time. rewrite (live_contains _ _ time _ _ Hk).
  cbn [TTLCache.expires]. now rewrite Ht.
Qed.

(** The cache after a first request, under the default configuration. *)
Lemma cache_ttl_configured_witness :
  exists cache,
    reachable Scenario.settings cache
    /\ TTLCache.links cache <> []
    /\ TTLCache.ttl cache = inject_Z (Config.cache_ttl Scenario.settings)
    /\ TTLCache.maxsize cache = 1000
    /\ Z.of_nat (List.length (TTLCache.links cache)) <= 1000.
Proof.
  destruct (get_recommendations Scenario.settings Scenario.failing_world
              Scenario.no_rand (recommendation_cache Scenario.settings) 0 1
              "movies" "batman" "US" 6) as [[results cache]|] eqn:E;
    [|vm_compute in E; discriminate E].
  exists cache.
  assert (Hr : reachable Scenario.settings cache)
    by (eapply reachable_call; [apply reachable_initial | exact E]).
  split; [exact Hr|]. split.
  - vm_compute in E. injection E as _ <-. discriminate.
  - destruct (cache_ttl_configured_maxsize_fixed Scenario.settings cache Hr)
      as (Ht & Hm & Hl & _).
    auto.
Defined.

(** C9, as it is stated, fails for the capacity: two configurations that
    differ in every integer setting give the same capacity, which is the
    value of none of their settings. *)
Lemma cache_maxsize_not_configured :
  TTLCache.maxsize (recommendation_cache Scenario.settings) = 1000
  /\ TTLCache.maxsize (recommendation_cache Scenario.other_settings) = 1000
  /\ Forall (fun p => snd p Scenario.settings <> snd p Scenario.other_settings
                      /\ snd p Scenario.settings <> 1000)
            Config.int_settings
  /\ ~ Spec.taken_from_configuration
         (fun s => TTLCache.maxsize (recommendation_cache s)).
Proof.
  split; [reflexivity|]. split; [reflexivity|]. split.
  - repeat constructor; discriminate.
  - intros (name & proj & Hin & H).
    specialize (H Scenario.settings). simpl in Hin, H.
    destruct Hin as [[= _ <-]|[[= _ <-]|[[= _ <-]|[]]]]; discriminate H.
Qed.

(** ** Identifiers in a response *)

(** C1, at the failing input.  The video catalog lists one video twice in
    its answer to a youtube request: the response is within the limit, and
    holds the same id twice. *)
Theorem youtube_response_repeats_an_id :
  exists results cache',
    get_recommendations Scenario.settings Scenario.dup_world Scenario.no_rand
      (recommendation_cache Scenario.settings) 0 1 "youtube" "cats" "US" 20
    = Some (results, cache')
    /\ Z.of_nat (List.length results) <= 20
    /\ map Card.id results = ["dQw4w9WgXcQ"; "dQw4w9WgXcQ"]
    /\ ~ NoDup (map Card.id results).
Proof.
  eexists _, _. split; [vm_compute; reflexivity|].
  split; [vm_compute; discriminate|]. split; [reflexivity|].
  simpl. intros H. inversion H as [|x l Hin _]. apply Hin. now left.
Qed.

(** X1.  What does hold of every response, from the cache or from the
    pipeline: it has at most [limit] items. *)
Lemma response_length_within_limit :
  forall settings world rand cache now later
         category search_query region limit results cache',
    0 <= limit ->
    get_recommendations settings world rand cache now later
                        category search_query region limit
    = Some (results, cache') ->
    Z.of_nat (List.length results) <= limit.
Proof.
  intros settings world rand cache now later
         category search_query region limit results cache' Hl.
  unfold get_recommendations.
  destruct (TTLCache.contains cache now _).
  - destruct (TTLCache.getitem cache now _) as [[stored c]|]; [|discriminate].
    intros [= <- _]. now apply slice_to_length.
  - destruct (TTLCache.setitem cache later _ _) as [c|]; [|discriminate].
    intros [= <- _]. now apply slice_to_length.
Qed.

(** The merge of the short-form pipeline keeps one card per id. *)
Lemma unique_by_id_nodup (results : list Card.t) :
  forall seen_ids,
    NoDup (map Card.id (unique_by_id seen_ids results))
    /\ forall x, In x (unique_by_id seen_ids results) ->
                 ~ In (Card.id x) seen_ids.
Proof.
  induction results as [|r t IH]; intros seen; simpl.
  - split; [constructor | intros x []].
  - destruct (Py.mem (Card.id r) seen) eqn:E; [apply IH|].
    destruct (IH (Card.id r :: seen)) as (Hnd & Hout).
    assert (Hr : ~ In (Card.id r) seen).
    { intros Hin. apply mem_in in Hin. congruence. }
    split.
    + simpl. constructor; [|exact Hnd].
      intros Hin. apply in_map_iff in Hin. destruct Hin as (x & Hx & Hin).
      apply (Hout x Hin). left. now symmetry.
    + intros x [<-|Hin]; [exact Hr|].
      intros Hs. apply (Hout x Hin). now right.
Qed.

Lemma nodup_firstn {A : Type} (n : nat) (l : list A) :
  NoDup l -> NoDup (firstn n l).
Proof.
  revert n. induction l as [|x t IH]; intros n H.
  - rewrite firstn_nil. constructor.
  - destruct n as [|n]; simpl; [constructor|].
    inversion H as [|y l' Hx Ht]; subst. constructor.
    + intros Hin. apply Hx. now apply in_firstn in Hin.
    + now apply IH.
Qed.

(** X2.  The short-form pipeline, catalog answers and fallback alike,
    returns cards with distinct ids, and so does the response built from
    it. *)
Lemma tiktok_response_ids_unique :
  forall settings world rand cache now later search_query region limit,
    TTLCache.contains cache now (cache_key "tiktok" search_query region)
    = false ->
    1 <= TTLCache.maxsize cache ->
    exists results cache',
      get_recommendations settings world rand cache now later
                          "tiktok" search_query region limit
      = Some (results, cache')
      /\ NoDup (map Card.id results).
Proof.
  intros settings world rand cache now later search_query region limit Hc Hm.
  destruct (get_recommendations_miss settings world rand cache now later
              "tiktok" search_query region limit Hc Hm)
    as (c' & H & _).
  eexists _, c'. split; [exact H|].
  assert (Hd : NoDup (map Card.id
                        (dispatch settings world "tiktok" search_query region))).
  { unfold dispatch. simpl. unfold _get_tiktok_style_recommendations.
    set (merged := fold_left _ _ _).
    destruct (unique_by_id_nodup merged []) as (Hnd & _).
    destruct (unique_by_id [] merged) as [|u us] eqn:E.
    - unfold _get_mock_shorts_results. rewrite map_map. simpl.
      repeat (constructor; [simpl; intuition discriminate|]). constructor.
    - rewrite <- firstn_map. now apply nodup_firstn. }
  unfold Py.slice_to.
  destruct (0 <=? limit); rewrite <- firstn_map; apply nodup_firstn;
    (eapply Permutation_NoDup;
     [apply Permutation_map, Permutation_sym, score_and_rank_perm | exact Hd]).
Qed.

Lemma tiktok_response_ids_unique_witness :
  exists results cache',
    get_recommendations Scenario.settings Scenario.dup_world Scenario.no_rand
      (recommendation_cache Scenario.settings) 0 1 "tiktok" "cats" "US" 20
    = Some (results, cache')
    /\ NoDup (map Card.id results).
Proof.
  apply (tiktok_response_ids_unique
           Scenario.settings Scenario.dup_world Scenario.no_rand
           (recommendation_cache Scenario.settings) 0 1 "cats" "US" 20).
  - reflexivity.
  - vm_compute; discriminate.
Defined.

Lemma response_length_within_limit_witness :
  exists results cache',
    get_recommendations Scenario.settings Scenario.dup_world Scenario.no_rand
      (recommendation_cache Scenario.settings) 0 1 "youtube" "cats" "US" 1
    = Some (results, cache')
    /\ Z.of_nat (List.length results) <= 1.
Proof.
  eexists _, _. split; [vm_compute; reflexivity|].
  eapply (response_length_within_limit
            Scenario.settings Scenario.dup_world Scenario.no_rand
            (recommendation_cache Scenario.settings) 0 1
            "youtube" "cats" "US" 1).
  - lia.
  - vm_compute; reflexivity.
Defined.

(** ** Availability *)

(** When netflix is among the platforms, the loops choose its entry. *)
Lemma choose_primary_platform_with_netflix (platforms : list Provider.t)
    (p : Provider.t) :
  find_platform "netflix" platforms = Some p ->
  choose_primary_platform platforms = Some p.
Proof.
  intros Hn. unfold choose_primary_platform.
  destruct platforms as [|first others]; [discriminate|].
  unfold platform_priority at 1. cbn [priority_loop]. rewrite Hn.
  unfold find_platform in Hn. apply find_some in Hn. destruct Hn as (_ & Hp).
  apply String.eqb_eq in Hp. now rewrite Hp.
Qed.

(** The cards the availability walk adds each come from an item for which
    the availability lookup found at least one platform; the card lists
    those platforms and shows one of them. *)
Lemma availability_loop_cards_have_platforms (world : Upstream)
    (media : media_type) (items : list Candidate.t) :
  forall (similar_shows : list Card.t) (card : Card.t),
    In card (availability_loop world media items similar_shows) ->
    In card similar_shows
    \/ exists item primary,
         In item items
         /\ _get_tmdb_watch_providers world (Candidate.id item) media <> []
         /\ choose_primary_platform
              (_get_tmdb_watch_providers world (Candidate.id item) media)
            = Some primary
         /\ card = card_of world media item
                     (_get_tmdb_watch_providers world (Candidate.id item) media)
                     primary.
Proof.
  induction items as [|item rest IH]; intros shows card; simpl.
  - now left.
  - set (platforms := _get_tmdb_watch_providers world (Candidate.id item) media).
    assert (Hstep :
              forall shows',
                In card shows' ->
                shows' = match choose_primary_platform platforms with
                         | Some primary =>
                             (shows ++ [card_of world media item platforms
                                          primary])%list
                         | None => shows
                         end ->
                In card shows
                \/ exists item0 primary,
                     (item = item0 \/ In item0 rest)
                     /\ _get_tmdb_watch_providers world (Candidate.id item0)
                                                  media <> []
                     /\ choose_primary_platform
                          (_get_tmdb_watch_providers world
                             (Candidate.id item0) media)
                        = Some primary
                     /\ card = card_of world media item0
                                 (_get_tmdb_watch_providers world
                                    (Candidate.id item0) media)
                                 primary).
    { intros shows' Hin ->.
      destruct (choose_primary_platform platforms) as [primary|] eqn:E;
        [|now left].
      apply in_app_or in Hin. destruct Hin as [Hin|[<-|[]]]; [now left|].
      right. exists item, primary. fold platforms. repeat split; auto.
      intros Hnil. rewrite Hnil in E. discriminate E. }
    match goal with
    | |- In card (if ?c then ?s else _) -> _ => destruct c; intros Hin
    end.
    + now apply (Hstep _ Hin).
    + apply IH in Hin. destruct Hin as [Hin|(item0 & primary & H0 & H1)].
      * now apply (Hstep _ Hin).
      * right. exists item0, primary. tauto.
Qed.

(** X3.  An item without a platform yields no card: every card of the
    structured walk comes from an item for which the availability lookup
    found at least one platform, and lists those platforms. *)
Lemma availability_hard_filter (world : Upstream) (media : media_type)
    (items : list Candidate.t) (card : Card.t) :
  In card (availability_loop world media items []) ->
  exists item platforms,
    In item items
    /\ platforms = _get_tmdb_watch_providers world (Candidate.id item) media
    /\ platforms <> []
    /\ Card.id card = Py.str_of_int (Candidate.id item)
    /\ Card.all_platforms card = Some (map Provider.platform platforms).
Proof.
  intros Hin.
  apply availability_loop_cards_have_platforms in Hin.
  destruct Hin as [[]|(item & primary & Hi & Hne & _ & ->)].
  exists item, (_get_tmdb_watch_providers world (Candidate.id item) media).
  repeat split; assumption.
Qed.

Lemma availability_hard_filter_witness :
  exists item platforms,
    In item [ candidate_of (Scenario.raw 7 "A film" "2020-01-01" 50) None ]
    /\ platforms
       = _get_tmdb_watch_providers Scenario.two_provider_world
           (Candidate.id item) movie
    /\ platforms <> []
    /\ "7" = Py.str_of_int (Candidate.id item)
    /\ Some ["hulu"; "disney"] = Some (map Provider.platform platforms).
Proof.
  apply (availability_hard_filter Scenario.two_provider_world movie
           [ candidate_of (Scenario.raw 7 "A film" "2020-01-01" 50) None ]
           (card_of Scenario.two_provider_world movie
              (candidate_of (Scenario.raw 7 "A film" "2020-01-01" 50) None)
              [Scenario.hulu; Scenario.disney] Scenario.hulu)).
  simpl. left. reflexivity.
Defined.

Lemma watch_providers_tags_witness :
  Py.mem (Provider.platform Scenario.disney) platform_priority = true.
Proof.
  apply (watch_providers_have_priority_tags
           Scenario.two_provider_world 7 movie Scenario.disney).
  simpl. right. left. reflexivity.
Defined.

(** ** The order of the scored candidates *)

Section SortFacts.

Variable A : Type.
Variable key : A -> Q.

Lemma qlt_true (a b : Q) : Py.qlt a b = true -> (a < b)%Q.
Proof.
  unfold Py.qlt. destruct (Qle_bool b a) eqn:E; [discriminate|].
  intros _. apply Qnot_le_lt. intros H. apply Qle_bool_iff in H. congruence.
Qed.

Lemma qlt_false (a b : Q) : Py.qlt a b = false -> (b <= a)%Q.
Proof.
  unfold Py.qlt. destruct (Qle_bool b a) eqn:E; [|discriminate].
  intros _. now apply Qle_bool_iff.
Qed.

Lemma insert_desc_sorted (x : A) (l : list A) :
  StronglySorted (fun a b => (key b <= key a)%Q) l ->
  StronglySorted (fun a b => (key b <= key a)%Q) (Py.insert_desc key x l).
Proof.
  induction l as [|y t IH]; intros Hs; simpl.
  - repeat constructor.
  - inversion Hs as [|y' t' Ht Hy]; subst.
    destruct (Py.qlt (key x) (key y)) eqn:E.
    + constructor; [now apply IH|].
      apply Forall_forall. intros z Hz.
      apply (Permutation_in z (insert_desc_perm _ key x t)) in Hz.
      destruct Hz as [<-|Hz].
      * apply Qlt_le_weak. now apply qlt_true.
      * rewrite Forall_forall in Hy. now apply Hy.
    + apply qlt_false in E. constructor; [exact Hs|].
      constructor; [exact E|].
      rewrite Forall_forall in Hy |- *. intros z Hz.
      apply Qle_trans with (key y); [now apply Hy | exact E].
Qed.

Lemma sort_desc_sorted (l : list A) :
  StronglySorted (fun a b => (key b <= key a)%Q) (Py.sort_desc key l).
Proof.
  induction l as [|x t IH]; simpl; [constructor|].
  now apply insert_desc_sorted.
Qed.

(** An insertion never moves an item across another one with an equal
    key. *)
Lemma insert_desc_stable (k : Q) (x : A) (l : list A) :
  filter (fun a => Qeq_bool (key a) k) (Py.insert_desc key x l)
  = filter (fun a => Qeq_bool (key a) k) (x :: l).
Proof.
  induction l as [|y t IH]; [reflexivity|].
  cbn [Py.insert_desc].
  destruct (Py.qlt (key x) (key y)) eqn:E; [|reflexivity].
  apply qlt_true in E.
  cbn [filter] in *. rewrite IH.
  destruct (Qeq_bool (key x) k) eqn:Ex; [|reflexivity].
  destruct (Qeq_bool (key y) k) eqn:Ey; [|reflexivity].
  apply Qeq_bool_iff in Ex, Ey. exfalso.
  rewrite Ex, Ey in E. now apply (Qlt_irrefl k).
Qed.

Lemma sort_desc_stable (k : Q) (l : list A) :
  filter (fun a => Qeq_bool (key a) k) (Py.sort_desc key l)
  = filter (fun a => Qeq_bool (key a) k) l.
Proof.
  induction l as [|x t IH]; [reflexivity|].
  cbn [Py.sort_desc fold_right]. fold (Py.sort_desc key t).
  rewrite insert_desc_stable. cbn [filter]. now rewrite IH.
Qed.

End SortFacts.

(** X5.  The scored candidates come out by decreasing score, and candidates
    with the same score stay in the order of the pool. *)
Lemma scored_candidates_sorted_and_stable :
  forall (world : Upstream) (source : Details.t)
         (candidates : list Candidate.t) (media : media_type),
    StronglySorted (fun a b => (score_key b <= score_key a)%Q)
      (_score_recommendations world source candidates media)
    /\ forall k : Q,
         filter (fun a => Qeq_bool (score_key a) k)
           (_score_recommendations world source candidates media)
         = filter (fun a => Qeq_bool (score_key a) k)
             (Py.filter_map (score_candidate world source media) candidates).
Proof.
  intros world source candidates media. unfold _score_recommendations.
  split; [apply sort_desc_sorted | intros k; apply sort_desc_stable].
Qed.

(** ** Identifiers on the structured path *)

Lemma str_of_int_inj (a b : Z) : Py.str_of_int a = Py.str_of_int b -> a = b.
Proof.
  unfold Py.str_of_int. intros H. apply DecimalZ.to_int_inj.
  assert (Hn : forall z, Z.to_int z <> Decimal.Pos Decimal.Nil
                         /\ Z.to_int z <> Decimal.Neg Decimal.Nil).
  { intros [|p|p]; simpl; split; try discriminate; intros [= E];
      now apply (DecimalPos.Unsigned.to_uint_nonnil p). }
  pose proof (NilZero.isi (Z.to_int a) (proj1 (Hn a)) (proj2 (Hn a))) as Ha.
  pose proof (NilZero.isi (Z.to_int b) (proj1 (Hn b)) (proj2 (Hn b))) as Hb.
  rewrite H in Ha. congruence.
Qed.

Lemma nodup_map_injective {A B : Type} (f : A -> B) (l : list A) :
  (forall x y, f x = f y -> x = y) -> NoDup l -> NoDup (map f l).
Proof.
  intros Hf. induction 1 as [|x t Hx Ht IH]; simpl; constructor; [|exact IH].
  intros Hin. apply in_map_iff in Hin. destruct Hin as (y & Hy & Hin).
  apply Hf in Hy. now subst.
Qed.

Lemma dict_set_keys_in (k x : Z) (v : Candidate.t)
    (d : list (Z * Candidate.t)) :
  In x (map fst (dict_set k v d)) -> x = k \/ In x (map fst d).
Proof.
  induction d as [|[k' v'] rest IH]; simpl.
  - intros [<-|[]]. now left.
  - destruct (Z.eqb_spec k k') as [->|_]; simpl.
    + intros [<-|H]; [now left | right; now right].
    + intros [<-|H]; [right; now left|].
      destruct (IH H) as [->|H']; [now left | right; now right].
Qed.

Lemma dict_set_keyed (v : Candidate.t) (d : list (Z * Candidate.t)) :
  keyed_by_id d -> keyed_by_id (dict_set (Candidate.id v) v d).
Proof.
  unfold keyed_by_id.
  induction d as [|[k' v'] rest IH]; simpl; intros (Hnd & Hall).
  - split; repeat constructor. intros [].
  - inversion Hnd as [|x l Hk' Hrest]. inversion Hall as [|y l' Hv' Hall'].
    simpl in Hv'.
    destruct (Z.eqb_spec (Candidate.id v) k') as [E|Hne]; simpl.
    + split; [now rewrite E | constructor; [reflexivity | assumption]].
    + destruct (IH (conj Hrest Hall')) as (Hnd' & Hall'').
      split; [|constructor; assumption].
      constructor; [|exact Hnd'].
      intros Hin. apply dict_set_keys_in in Hin.
      destruct Hin as [E|Hin]; [now apply Hne | now apply Hk'].
Qed.

Lemma keyed_values_nodup (d : list (Z * Candidate.t)) :
  keyed_by_id d -> NoDup (map Candidate.id (dict_values d)).
Proof.
  intros (Hnd & Hall). unfold dict_values. rewrite map_map.
  rewrite (map_ext_in _ fst); [exact Hnd|].
  intros kv Hin. rewrite Forall_forall in Hall. now apply Hall.
Qed.

(** A turn of the discovery loop that does not raise leaves the dictionary
    as it is or files one new candidate under its id. *)
Lemma discover_step_some (media_id : Z) (d d' : list (Z * Candidate.t))
    (item : DiscoverItem.t) :
  discover_step media_id d item = Some d' ->
  d' = d
  \/ exists c p,
       d' = dict_set (Candidate.id c) c d
       /\ DiscoverItem.id item = Some (Candidate.id c)
       /\ Candidate.popularity c = Some p
       /\ Py.qlt 10 p = true
       /\ dict_has (Candidate.id c) d = false
       /\ Candidate.id c <> media_id.
Proof.
  unfold discover_step.
  destruct (DiscoverItem.id item) as [i|]; [|discriminate].
  destruct (dict_has i d) eqn:Eh; cbn [negb andb]; [intros [= <-]; now left|].
  destruct (Z.eqb_spec i media_id) as [E|E]; cbn [negb];
    [intros [= <-]; now left|].
  destruct (DiscoverItem.popularity item) as [p|]; [|discriminate].
  destruct (Py.qlt 10 p) eqn:Ep; [|intros [= <-]; now left].
  destruct (DiscoverItem.title item) as [title|]; [|discriminate].
  intros [= <-]. right.
  exists {| Candidate.id := i;
            Candidate.title := title;
            Candidate.overview := DiscoverItem.overview item;
            Candidate.poster_url :=
              _build_poster_url (DiscoverItem.poster_path item);
            Candidate.release_date := DiscoverItem.date item;
            Candidate.popularity := Some p;
            Candidate._score := None |}, p.
  cbn [Candidate.id Candidate.popularity]. auto 7.
Qed.

(** What every turn keeps, the loop keeps, whether it ends or raises. *)
Lemma discover_loop_invariant (media_id : Z)
    (P : list (Z * Candidate.t) -> Prop) :
  (forall d item d',
      P d -> discover_step media_id d item = Some d' -> P d') ->
  forall items d, P d -> P (fst (discover_loop media_id items d)).
Proof.
  intros Hstep. induction items as [|item rest IH]; intros d Hd; simpl;
    [exact Hd|].
  destruct (discover_step media_id d item) as [d'|] eqn:E; [|exact Hd].
  apply IH. exact (Hstep d item d' Hd E).
Qed.

(** The candidate pool holds no id twice. *)
Lemma candidate_pool_ids_unique (world : Upstream) (media_id : Z)
    (media : media_type) (source_details : Details.t) :
  NoDup (map Candidate.id
           (_get_tmdb_recommendations_multi_strategy
              world media_id media source_details)).
Proof.
  unfold _get_tmdb_recommendations_multi_strategy.
  set (similar := _get_tmdb_similar world media_id media).
  assert (Hsim : forall items d,
             keyed_by_id d ->
             keyed_by_id
               (fold_left (fun d item => dict_set (Candidate.id item) item d)
                          items d)).
  { induction items as [|item rest IH]; intros d Hd; simpl; [exact Hd|].
    apply IH. now apply dict_set_keyed. }
  assert (H0 : keyed_by_id
                 (fold_left (fun d item => dict_set (Candidate.id item) item d)
                            similar [])).
  { apply Hsim. split; constructor. }
  set (all := fold_left _ similar []) in *.
  assert (Hdis : forall results,
             keyed_by_id (fst (discover_loop media_id results all))).
  { intros results. apply discover_loop_invariant; [|exact H0].
    intros d item d' Hd Hs.
    destruct (discover_step_some _ _ _ _ Hs) as [->|(c & p & -> & _)];
      [exact Hd | now apply dict_set_keyed]. }
  destruct (Details.genres source_details).
  - rewrite <- firstn_map. now apply nodup_firstn, keyed_values_nodup.
  - destruct (tmdb_discover world _ media) as [|status results].
    + now apply keyed_values_nodup.
    + destruct (status =? 200).
      * specialize (Hdis (firstn 15 results)).
        destruct (discover_loop media_id (firstn 15 results) all)
          as [d [|]]; cbn [fst] in Hdis.
        -- now apply keyed_values_nodup.
        -- rewrite <- firstn_map. now apply nodup_firstn, keyed_values_nodup.
      * rewrite <- firstn_map. now apply nodup_firstn, keyed_values_nodup.
Qed.

Lemma filter_map_ids_unique {A B : Type} (ida : A -> Z) (idb : B -> Z)
    (f : A -> option B) (l : list A) :
  (forall a b, f a = Some b -> idb b = ida a) ->
  NoDup (map ida l) -> NoDup (map idb (Py.filter_map f l)).
Proof.
  intros Hf. induction l as [|a t IH]; simpl; intros Hnd; [constructor|].
  inversion Hnd as [|x l' Ha Ht]; subst.
  destruct (f a) as [b|] eqn:E; [|now apply IH].
  simpl. constructor; [|now apply IH].
  rewrite (Hf _ _ E). intros Hin. apply Ha.
  apply in_map_iff in Hin. destruct Hin as (b' & Hb' & Hin).
  apply in_filter_map in Hin. destruct Hin as (a' & Ha' & Hfa').
  apply in_map_iff. exists a'. split; [|assumption].
  rewrite <- Hb'. symmetry. now apply Hf.
Qed.

Lemma scored_ids_unique (world : Upstream) (source : Details.t)
    (media : media_type) (candidates : list Candidate.t) :
  NoDup (map Candidate.id candidates) ->
  NoDup (map Candidate.id
           (_score_recommendations world source candidates media)).
Proof.
  intros Hnd. unfold _score_recommendations.
  eapply Permutation_NoDup.
  - apply Permutation_map, Permutation_sym, sort_desc_perm.
  - apply (filter_map_ids_unique Candidate.id Candidate.id); [|exact Hnd].
    intros a b Hs. apply score_candidate_some in Hs.
    destruct Hs as (_ & d & _ & ->). reflexivity.
Qed.

Lemma availability_loop_ids_unique (world : Upstream) (media : media_type)
    (items : list Candidate.t) :
  forall similar_shows,
    NoDup (map Card.id similar_shows
           ++ map (fun i => Py.str_of_int (Candidate.id i)) items) ->
    NoDup (map Card.id (availability_loop world media items similar_shows)).
Proof.
  induction items as [|item rest IH]; intros shows Hnd; simpl.
  - now rewrite app_nil_r in Hnd.
  - simpl in Hnd.
    set (platforms := _get_tmdb_watch_providers world (Candidate.id item) media).
    assert (Hnext :
              NoDup (map Card.id
                       (match choose_primary_platform platforms with
                        | Some primary =>
                            (shows ++ [card_of world media item platforms
                                         primary])%list
                        | None => shows
                        end)
                     ++ map (fun i => Py.str_of_int (Candidate.id i)) rest)).
    { destruct (choose_primary_platform platforms) as [primary|].
      - rewrite map_app, <- app_assoc. exact Hnd.
      - now apply NoDup_remove_1 in Hnd. }
    match goal with
    | |- NoDup (map Card.id (if ?c then _ else _)) => destruct c
    end.
    + now apply NoDup_app_remove_r in Hnext.
    + now apply IH.
Qed.

Lemma mock_movie_ids_unique (query category : string) :
  NoDup (map Card.id (_get_mock_movie_results query category)).
Proof.
  unfold _get_mock_movie_results. rewrite map_map.
  assert (H : forall v,
             In v (mock_movie_default :: map snd mock_movie_table) ->
             NoDup (map (fun x => Card.id
                                    (let '(title, video_id, thumbnail) := x in
                                     {| Card.id := video_id;
                                        Card.title := title;
                                        Card.description :=
                                          "Watch the official trailer";
                                        Card.thumbnail := thumbnail;
                                        Card.channel :=
                                          "Official Movie Trailers";
                                        Card.published_at :=
                                          "2024-01-10T12:00:00Z";
                                        Card.platform := category;
                                        Card.url :=
                                          "https://www.youtube.com/watch?v="
                                          ++ video_id;
                                        Card.all_platforms := None;
                                        Card.rating := None;
                                        Card.year := None |})) v)).
  { simpl. intros v [<-|[<-|[<-|[<-|[<-|[]]]]]]; simpl;
      repeat (constructor; [simpl; intuition discriminate|]); constructor. }
  apply H. unfold mock_movie_videos.
  destruct (str_lookup (Py.lower query) mock_movie_table) eqn:E1.
  - right. apply (str_lookup_in _ _ _ E1).
  - destruct (partial_match (Py.lower query) mock_movie_table) eqn:E2.
    + right. apply (partial_match_in _ _ _ E2).
    + now left.
Qed.

(** X6.  When the metadata catalog finds the title and returns its
    details, the movies or tv pipeline returns cards with pairwise distinct
    ids, whatever the catalog answers afterwards. *)
Lemma structured_results_ids_unique :
  forall (world : Upstream) (search_query region category : string)
         (result : TmdbRaw.t) (others : list TmdbRaw.t)
         (source_details : Details.t),
    tmdb_search world search_query
      (if (category =? "movies")%string then movie else tv)
    = Some (result :: others) ->
    tmdb_details world (TmdbRaw.id result)
      (if (category =? "movies")%string then movie else tv)
    = Some source_details ->
    NoDup (map Card.id
             (_get_movie_recommendations world search_query region category)).
Proof.
  intros world search_query region category result others source_details
         Hsearch Hdetails.
  unfold _get_movie_recommendations.
  assert (Hfind : NoDup (map Card.id
                           (_find_similar_shows world search_query category))).
  { unfold _find_similar_shows, _search_tmdb. rewrite Hsearch.
    cbn [candidate_of Candidate.id]. rewrite Hdetails.
    apply availability_loop_ids_unique.
    change (map Card.id [] ++ ?l)%list with l.
    rewrite <- (map_map Candidate.id Py.str_of_int).
    apply nodup_map_injective; [exact str_of_int_inj|].
    rewrite <- firstn_map. apply nodup_firstn.
    apply scored_ids_unique, candidate_pool_ids_unique. }
  destruct (_find_similar_shows world search_query category) as [|c cs].
  - apply mock_movie_ids_unique.
  - rewrite <- firstn_map. now apply nodup_firstn.
Qed.

Lemma structured_results_ids_unique_witness :
  NoDup (map Card.id
           (_get_movie_recommendations
              (Scenario.film_world Scenario.sequel_film)
              "the dark knight" "US" "movies")).
Proof.
  apply (structured_results_ids_unique
           (Scenario.film_world Scenario.sequel_film)
           "the dark knight" "US" "movies"
           (Scenario.raw 1 "The Dark Knight" "2008-07-16" 90) []
           Scenario.source_film);
    reflexivity.
Defined.



(** ** The similar-items strategy and the candidate pool *)

Lemma strongly_sorted_firstn {A : Type} (R : A -> A -> Prop) (n : nat)
    (l : list A) :
  StronglySorted R l -> StronglySorted R (firstn n l).
Proof.
  revert n. induction l as [|x t IH]; intros n Hs.
  - rewrite firstn_nil. constructor.
  - destruct n as [|n]; simpl; [constructor|].
    inversion Hs as [|y l' Ht Hx]; subst. constructor; [now apply IH|].
    rewrite Forall_forall in Hx |- *. intros z Hz. apply Hx.
    now apply in_firstn in Hz.
Qed.

(** Where a similar item comes from: one of the first thirty results, of
    popularity above ten. *)
Lemma similar_item_origin (world : Upstream) (media_id : Z)
    (media : media_type) (c : Candidate.t) :
  In c (_get_tmdb_similar world media_id media) ->
  exists results item,
    tmdb_similar world media_id media = Some results
    /\ In item (firstn 30 results)
    /\ Py.qlt 10 (TmdbRaw.popularity item) = true
    /\ c = candidate_of item (Some (TmdbRaw.popularity item)).
Proof.
  unfold _get_tmdb_similar.
  destruct (tmdb_similar world media_id media) as [results|]; [|intros []].
  intros Hin. apply in_firstn in Hin.
  apply (Permutation_in c (sort_desc_perm _ _ _)) in Hin.
  apply in_map_iff in Hin. destruct Hin as (item & <- & Hf).
  apply filter_In in Hf. destruct Hf as (Hin & Hp).
  exists results, item. auto.
Qed.

(** X7.  The similar-items strategy returns at most twenty candidates, all
    of popularity above ten, taken from the first thirty results of the
    catalog and ordered by decreasing popularity; it returns nothing when
    the request fails. *)
Lemma similar_items_capped_popular_sorted :
  forall (world : Upstream) (media_id : Z) (media : media_type),
    (List.length (_get_tmdb_similar world media_id media) <= 20)%nat
    /\ (forall c,
          In c (_get_tmdb_similar world media_id media) ->
          exists results item,
            tmdb_similar world media_id media = Some results
            /\ In item (firstn 30 results)
            /\ (10 < TmdbRaw.popularity item)%Q
            /\ Candidate.id c = TmdbRaw.id item
            /\ Candidate.popularity c = Some (TmdbRaw.popularity item))
    /\ StronglySorted
         (fun a b => (popularity_key b <= popularity_key a)%Q)
         (_get_tmdb_similar world media_id media)
    /\ (tmdb_similar world media_id media = None ->
        _get_tmdb_similar world media_id media = []).
Proof.
  intros world media_id media. split; [|split; [|split]].
  - unfold _get_tmdb_similar.
    destruct (tmdb_similar world media_id media); [|simpl; lia].
    apply firstn_le_length.
  - intros c Hin.
    destruct (similar_item_origin world media_id media c Hin)
      as (results & item & Hr & Hi & Hp & ->).
    exists results, item. repeat split; try assumption.
    now apply qlt_true.
  - unfold _get_tmdb_similar.
    destruct (tmdb_similar world media_id media); [|constructor].
    apply strongly_sorted_firstn, sort_desc_sorted.
  - unfold _get_tmdb_similar. now intros ->.
Qed.

Lemma dict_set_in {A : Type} (k k' : Z) (v v' : A) (d : list (Z * A)) :
  In (k', v') (dict_set k v d) -> (k' = k /\ v' = v) \/ In (k', v') d.
Proof.
  induction d as [|[k0 v0] rest IH]; simpl.
  - intros [[= <- <-]|[]]. now left.
  - destruct (Z.eqb_spec k k0) as [->|_]; simpl.
    + intros [[= <- <-]|H]; [now left | right; now right].
    + intros [H|H]; [right; now left|].
      destruct (IH H) as [H'|H']; [now left | right; now right].
Qed.

Lemma dict_has_set {A : Type} (k k' : Z) (v : A) (d : list (Z * A)) :
  dict_has k' (dict_set k v d) = (k' =? k) || dict_has k' d.
Proof.
  unfold dict_has. induction d as [|[k0 v0] rest IH]; simpl.
  - now rewrite orb_false_r.
  - destruct (Z.eqb_spec k k0) as [->|Hne]; simpl.
    + destruct (k' =? k0); reflexivity.
    + rewrite IH. destruct (k' =? k0), (k' =? k); reflexivity.
Qed.

Lemma dict_set_length {A : Type} (k : Z) (v : A) (d : list (Z * A)) :
  (List.length (dict_set k v d) <= S (List.length d))%nat.
Proof.
  induction d as [|[k0 v0] rest IH]; simpl; [lia|].
  destruct (k =? k0); simpl; lia.
Qed.

Section Pool.

Variable world : Upstream.
Variable media_id : Z.
Variable media : media_type.

Let similar := _get_tmdb_similar world media_id media.

(** What holds of every entry of the dictionary while it is built. *)
Let entry_ok (kv : Z * Candidate.t) : Prop :=
  fst kv = Candidate.id (snd kv)
  /\ (exists p, Candidate.popularity (snd kv) = Some p /\ (10 < p)%Q)
  /\ (In (snd kv) similar
      \/ (fst kv <> media_id /\ ~ In (fst kv) (map Candidate.id similar))).

Lemma similar_fold_entries (items : list Candidate.t) :
  forall d,
    incl items similar ->
    Forall entry_ok d ->
    Forall entry_ok
      (fold_left (fun d item => dict_set (Candidate.id item) item d) items d)
    /\ (forall s, In s items \/ dict_has (Candidate.id s) d = true ->
                  dict_has (Candidate.id s)
                    (fold_left
                       (fun d item => dict_set (Candidate.id item) item d)
                       items d) = true)
    /\ (List.length
          (fold_left (fun d item => dict_set (Candidate.id item) item d)
                     items d)
        <= List.length d + List.length items)%nat.
Proof.
  induction items as [|item rest IH]; intros d Hincl Hd; simpl.
  - split; [exact Hd|]. split; [|lia]. now intros s [[]|H].
  - assert (Hitem : In item similar) by (apply Hincl; now left).
    assert (Hrest : incl rest similar)
      by (intros x Hx; apply Hincl; now right).
    assert (Hd' : Forall entry_ok (dict_set (Candidate.id item) item d)).
    { apply Forall_forall. intros [k v] Hin. apply dict_set_in in Hin.
      destruct Hin as [(-> & ->)|Hin].
      - split; [reflexivity|]. split; [|now left].
        destruct (similar_item_origin world media_id media item Hitem)
          as (results & raw & _ & _ & Hp & ->).
        exists (TmdbRaw.popularity raw). split; [reflexivity|].
        now apply qlt_true.
      - rewrite Forall_forall in Hd. now apply (Hd (k, v)). }
    destruct (IH _ Hrest Hd') as (H1 & H2 & H3).
    split; [exact H1|]. split.
    + intros s Hs. apply H2. rewrite dict_has_set.
      destruct Hs as [[<-|Hs]|Hs].
      * right. now rewrite Z.eqb_refl.
      * now left.
      * right. rewrite Hs. apply orb_true_r.
    + pose proof (dict_set_length (Candidate.id item) item d). lia.
Qed.

(** A turn of the discovery loop keeps the entries as they should be, and
    the similar items in the dictionary. *)
Lemma discover_step_entries (d d' : list (Z * Candidate.t))
    (item : DiscoverItem.t) :
  Forall entry_ok d
  /\ (forall s, In s similar -> dict_has (Candidate.id s) d = true) ->
  discover_step media_id d item = Some d' ->
  Forall entry_ok d'
  /\ (forall s, In s similar -> dict_has (Candidate.id s) d' = true).
Proof.
  intros (Hd & Hhas) Hs.
  destruct (discover_step_some _ _ _ _ Hs)
    as [->|(c & p & -> & _ & Hp & Hlt & Hnew & Hne)]; [now split|].
  split.
  - apply Forall_forall. intros [k v] Hin. apply dict_set_in in Hin.
    destruct Hin as [(-> & ->)|Hin].
    + split; [reflexivity|]. split.
      * exists p. split; [exact Hp | now apply qlt_true].
      * right. split; [exact Hne|]. cbn [fst]. intros Hin.
        apply in_map_iff in Hin. destruct Hin as (s & Hs' & Hin).
        apply Hhas in Hin. rewrite Hs' in Hin. congruence.
    + rewrite Forall_forall in Hd. now apply (Hd (k, v)).
  - intros s Hin. rewrite dict_has_set, (Hhas s Hin). apply orb_true_r.
Qed.

(** The loop adds at most one candidate per turn, and none in a turn that
    raises. *)
Lemma discover_loop_length (items : list DiscoverItem.t) :
  forall d,
    (List.length (fst (discover_loop media_id items d))
     + (if snd (discover_loop media_id items d) then 1 else 0)
     <= List.length d + List.length items)%nat.
Proof.
  induction items as [|item rest IH]; intros d; simpl; [lia|].
  destruct (discover_step media_id d item) as [d'|] eqn:E; simpl; [|lia].
  specialize (IH d').
  assert (Hd' : (List.length d' <= S (List.length d))%nat).
  { destruct (discover_step_some _ _ _ _ E) as [->|(c & p & -> & _)];
      [lia | apply dict_set_length]. }
  lia.
Qed.

(** X8.  Every candidate of the pool has a popularity above ten.  One that
    is not a similar item comes from the genre discovery: it is never the
    source itself and never has the id of a similar item, so the similar
    items take precedence.  The pool is cut to thirty candidates when the
    call runs to its end; when a turn of the discovery loop raises, the
    dictionary is returned as it is then, without the cut, and can hold up
    to thirty-four candidates. *)
Lemma candidate_pool_capped_popular_similar_first :
  forall source_details : Details.t,
    (List.length
       (_get_tmdb_recommendations_multi_strategy
          world media_id media source_details)
     <= if discovery_loop_raises world media_id media source_details
        then 34 else 30)%nat
    /\ forall c,
         In c (_get_tmdb_recommendations_multi_strategy
                 world media_id media source_details) ->
         (exists p, Candidate.popularity c = Some p /\ (10 < p)%Q)
         /\ (In c (_get_tmdb_similar world media_id media)
             \/ (Candidate.id c <> media_id
                 /\ ~ In (Candidate.id c)
                      (map Candidate.id
                         (_get_tmdb_similar world media_id media)))).
Proof.
  intros source_details.
  unfold _get_tmdb_recommendations_multi_strategy, discovery_loop_raises.
  fold similar.
  destruct (similar_fold_entries similar [] (incl_refl _) (Forall_nil _))
    as (Hall & Hhas & Hlen).
  set (all := fold_left _ similar []) in *.
  assert (Hsim20 : (List.length similar <= 20)%nat).
  { unfold similar, _get_tmdb_similar.
    destruct (tmdb_similar world media_id media); [|simpl; lia].
    apply firstn_le_length. }
  assert (Hvalues :
            forall d, Forall entry_ok d ->
                      forall c, In c (dict_values d) ->
                                (exists p, Candidate.popularity c = Some p
                                           /\ (10 < p)%Q)
                                /\ (In c similar
                                    \/ (Candidate.id c <> media_id
                                        /\ ~ In (Candidate.id c)
                                             (map Candidate.id similar)))).
  { intros d Hd c Hin. unfold dict_values in Hin.
    apply in_map_iff in Hin. destruct Hin as ([k v] & <- & Hin).
    rewrite Forall_forall in Hd. destruct (Hd _ Hin) as (Hk & Hp & Ho).
    cbn [fst snd] in *. split; [exact Hp|]. now rewrite <- Hk. }
  destruct (Details.genres source_details).
  - split; [apply firstn_le_length|].
    intros c Hin. apply in_firstn in Hin. now apply (Hvalues all).
  - destruct (tmdb_discover world _ media) as [|status results].
    + split.
      * unfold dict_values. rewrite length_map. simpl in Hlen. lia.
      * intros c Hin. now apply (Hvalues all).
    + destruct (status =? 200); cbn [andb].
      * pose proof (discover_loop_length (firstn 15 results) all) as Hl.
        pose proof (firstn_le_length 15 results) as H15.
        assert (Hinv :
                  Forall entry_ok
                    (fst (discover_loop media_id (firstn 15 results) all))).
        { apply (discover_loop_invariant media_id
                   (fun d =>
                      Forall entry_ok d
                      /\ forall s, In s similar ->
                                   dict_has (Candidate.id s) d = true)).
          - intros d item d'. apply discover_step_entries.
          - split; [exact Hall|]. intros s0 Hs. apply Hhas. now left. }
        destruct (discover_loop media_id (firstn 15 results) all)
          as [d [|]]; cbn [fst snd] in *.
        -- split.
           ++ unfold dict_values. rewrite length_map. simpl in Hlen. lia.
           ++ intros c Hin. now apply (Hvalues d).
        -- split; [apply firstn_le_length|].
           intros c Hin. apply in_firstn in Hin. now apply (Hvalues d).
      * split; [apply firstn_le_length|].
        intros c Hin. apply in_firstn in Hin. now apply (Hvalues all).
Qed.

End Pool.

Lemma filter_map_length_le {A B : Type} (f : A -> option B) (l : list A) :
  (List.length (Py.filter_map f l) <= List.length l)%nat.
Proof.
  induction l as [|x t IH]; simpl; [lia|].
  destruct (f x); simpl; lia.
Qed.

(** X9.  The genre ids sent to the discovery request are those of the
    names the table knows, in the order of the names; a name outside the
    table is dropped, so the default 0 of the lookup never appears. *)
Lemma genre_ids_of_known_names_only :
  forall genre_names : list string,
    (List.length (_get_genre_ids genre_names) <= List.length genre_names)%nat
    /\ ~ In 0 (_get_genre_ids genre_names)
    /\ (forall g,
          In g (_get_genre_ids genre_names)
          <-> exists name,
                In name genre_names
                /\ str_lookup name genre_mapping = Some g)
    /\ (forall more,
          _get_genre_ids (genre_names ++ more)
          = (_get_genre_ids genre_names ++ _get_genre_ids more)%list).
Proof.
  intros genre_names. unfold _get_genre_ids.
  assert (Hin : forall g,
             In g (Py.filter_map (fun name => str_lookup name genre_mapping)
                                 genre_names)
             <-> exists name,
                   In name genre_names
                   /\ str_lookup name genre_mapping = Some g)
    by (intros g; apply in_filter_map).
  split; [|split; [|split]].
  - apply filter_map_length_le.
  - intros H0. apply Hin in H0. destruct H0 as (name & _ & Hl).
    apply str_lookup_in in Hl. simpl in Hl.
    repeat (destruct Hl as [Hl|Hl]; [discriminate Hl|]). exact Hl.
  - exact Hin.
  - intros more. clear Hin.
    induction genre_names as [|n t IH]; [reflexivity|].
    cbn [Py.filter_map app].
    destruct (str_lookup n genre_mapping); cbn [app]; now rewrite IH.
Qed.

(** ** Availability: offers, primary platform, the walk *)

Lemma mapped_providers_tags (world : Upstream) (media_id : Z)
    (media : media_type) (title : string) (provider_ids : list Z) :
  map Provider.platform
      (mapped_providers world media_id media title provider_ids)
  = Py.filter_map (fun pid => int_lookup pid provider_mapping) provider_ids.
Proof.
  unfold mapped_providers.
  induction provider_ids as [|pid t IH]; [reflexivity|].
  cbn [Py.filter_map].
  destruct (int_lookup pid provider_mapping); cbn [map Provider.platform];
    now rewrite IH.
Qed.

(** X10.  Subscription offers come first: when at least one of them is on
    a known platform the result is the known subscription platforms, in the
    order of the offers, and no purchase offer is looked at.  Only when
    there is none are the first three purchase offers used, so that the
    result then has at most three platforms.  A failed request gives no
    platform. *)
Lemma watch_providers_subscription_first :
  forall (world : Upstream) (media_id : Z) (media : media_type),
    (forall flatrate buy,
        tmdb_providers world media_id media = Some (flatrate, buy) ->
        let known :=
          Py.filter_map (fun pid => int_lookup pid provider_mapping) in
        (known flatrate <> [] ->
         map Provider.platform
             (_get_tmdb_watch_providers world media_id media)
         = known flatrate)
        /\ (known flatrate = [] ->
            map Provider.platform
                (_get_tmdb_watch_providers world media_id media)
            = known (firstn 3 buy)
            /\ (List.length (_get_tmdb_watch_providers world media_id media)
                <= 3)%nat))
    /\ (tmdb_providers world media_id media = None ->
        _get_tmdb_watch_providers world media_id media = []).
Proof.
  intros world media_id media. split.
  - intros flatrate buy Hp known. unfold _get_tmdb_watch_providers.
    rewrite Hp.
    pose proof (mapped_providers_tags world media_id media
                  (tmdb_title world media_id media) flatrate) as Hf.
    pose proof (mapped_providers_tags world media_id media
                  (tmdb_title world media_id media) (firstn 3 buy)) as Hb.
    fold known in Hf, Hb.
    destruct (mapped_providers world media_id media
                (tmdb_title world media_id media) flatrate) as [|p ps] eqn:E.
    + split; [intros Hne; now rewrite <- Hf in Hne|].
      intros _. split; [exact Hb|].
      rewrite <- (length_map Provider.platform), Hb.
      etransitivity; [apply filter_map_length_le|].
      apply firstn_le_length.
    + split; [intros _; exact Hf|].
      intros Hnil. rewrite Hnil in Hf. discriminate Hf.
  - intros Hp. unfold _get_tmdb_watch_providers. now rewrite Hp.
Qed.

Lemma watch_providers_subscription_first_witness :
  map Provider.platform
      (_get_tmdb_watch_providers Scenario.two_provider_world 7 movie)
  = ["hulu"; "disney"].
Proof.
  destruct (watch_providers_subscription_first
              Scenario.two_provider_world 7 movie) as (H & _).
  destruct (H [15; 337] [] eq_refl) as (Hsub & _).
  apply Hsub. discriminate.
Defined.

Lemma priority_loop_member (platforms : list Provider.t) :
  forall (todo : list string) (primary : Provider.t),
    In primary platforms ->
    In (priority_loop todo platforms primary) platforms.
Proof.
  induction todo as [|name rest IH]; intros primary Hin; simpl; [exact Hin|].
  assert (Hnext : In (match find_platform name platforms with
                      | Some p => p
                      | None => primary
                      end) platforms).
  { destruct (find_platform name platforms) as [p|] eqn:E; [|exact Hin].
    unfold find_platform in E. now apply find_some in E. }
  match goal with
  | |- In (if ?c then _ else _) _ => destruct c
  end; [exact Hnext | now apply IH].
Qed.

(** X11.  The primary platform is always one of the platforms found for the
    item: each card of the structured walk shows a platform of its own
    platform list, with that platform's link, and names it in upper case as
    its channel. *)
Lemma structured_card_shows_one_of_its_platforms :
  forall (world : Upstream) (media : media_type)
         (items : list Candidate.t) (card : Card.t),
    In card (availability_loop world media items []) ->
    exists item primary,
      In item items
      /\ In primary
            (_get_tmdb_watch_providers world (Candidate.id item) media)
      /\ Card.platform card = Provider.platform primary
      /\ Card.url card = Provider.url primary
      /\ Card.channel card = Py.upper (Provider.platform primary)
      /\ Card.all_platforms card
         = Some (map Provider.platform
                     (_get_tmdb_watch_providers world (Candidate.id item)
                                                media))
      /\ In (Card.platform card)
            (map Provider.platform
                 (_get_tmdb_watch_providers world (Candidate.id item) media)).
Proof.
  intros world media items card Hin.
  apply availability_loop_cards_have_platforms in Hin.
  destruct Hin as [[]|(item & primary & Hi & _ & Hc & ->)].
  assert (Hp : In primary
                  (_get_tmdb_watch_providers world (Candidate.id item) media)).
  { unfold choose_primary_platform in Hc.
    destruct (_get_tmdb_watch_providers world (Candidate.id item) media)
      as [|first others]; [discriminate|].
    injection Hc as <-.
    exact (priority_loop_member (first :: others) platform_priority first
             (or_introl eq_refl)). }
  exists item, primary. repeat split; try assumption.
  cbn [card_of Card.platform]. now apply in_map.
Qed.

Lemma structured_card_witness :
  exists item primary,
    In item [ candidate_of (Scenario.raw 7 "A film" "2020-01-01" 50) None ]
    /\ In primary
          (_get_tmdb_watch_providers Scenario.two_provider_world
             (Candidate.id item) movie)
    /\ "hulu" = Provider.platform primary
    /\ "https://www.hulu.com/hub/home" = Provider.url primary
    /\ "HULU" = Py.upper (Provider.platform primary)
    /\ Some ["hulu"; "disney"]
       = Some (map Provider.platform
                   (_get_tmdb_watch_providers Scenario.two_provider_world
                      (Candidate.id item) movie))
    /\ In "hulu"
          (map Provider.platform
               (_get_tmdb_watch_providers Scenario.two_provider_world
                  (Candidate.id item) movie)).
Proof.
  apply (structured_card_shows_one_of_its_platforms
           Scenario.two_provider_world movie
           [ candidate_of (Scenario.raw 7 "A film" "2020-01-01" 50) None ]
           (card_of Scenario.two_provider_world movie
              (candidate_of (Scenario.raw 7 "A film" "2020-01-01" 50) None)
              [Scenario.hulu; Scenario.disney] Scenario.hulu)).
  simpl. left. reflexivity.
Defined.

Lemma subsequence_refl {A : Type} (l : list A) : subsequence l l.
Proof.
  induction l; [constructor | now apply subsequence_keep].
Qed.

Lemma subsequence_app_head {A : Type} (h l1 l2 : list A) :
  subsequence l1 l2 -> subsequence (h ++ l1) (h ++ l2).
Proof.
  intros H. induction h; simpl; [exact H | now apply subsequence_keep].
Qed.


Section Walk.

Variable world : Upstream.
Variable media : media_type.





End Walk.


(** ** What every pipeline returns *)

Lemma mock_movie_videos_table (query : string) :
  In (mock_movie_videos query) (mock_movie_default :: map snd mock_movie_table).
Proof.
  unfold mock_movie_videos.
  destruct (str_lookup (Py.lower query) mock_movie_table) eqn:E1.
  - right. apply (str_lookup_in _ _ _ E1).
  - destruct (partial_match (Py.lower query) mock_movie_table) eqn:E2.
    + right. apply (partial_match_in _ _ _ E2).
    + now left.
Qed.

Lemma mock_movie_results_length (query category : string) :
  List.length (_get_mock_movie_results query category) = 6%nat.
Proof.
  unfold _get_mock_movie_results. rewrite length_map.
  pose proof (mock_movie_videos_table query) as H. simpl in H.
  destruct H as [<-|[<-|[<-|[<-|[<-|[]]]]]]; reflexivity.
Qed.

Lemma firstn_nonempty {A : Type} (n : nat) (l : list A) :
  l <> [] -> firstn (S n) l <> [].
Proof. destruct l; [congruence | discriminate]. Qed.

Lemma youtube_pipeline_nonempty (settings : Config.Settings)
    (world : Upstream) (search_query region : string) :
  _get_youtube_recommendations settings world search_query region <> [].
Proof.
  unfold _get_youtube_recommendations.
  destruct (youtube_search world _) as [| |items]; try discriminate.
  destruct (Py.filter_map _transform_youtube_item items); discriminate.
Qed.

Lemma tiktok_pipeline_bounds (world : Upstream) (search_query region : string) :
  _get_tiktok_style_recommendations world search_query region <> []
  /\ (List.length (_get_tiktok_style_recommendations world search_query region)
      <= 15)%nat.
Proof.
  unfold _get_tiktok_style_recommendations.
  destruct (unique_by_id [] _) as [|u us].
  - split; [discriminate | simpl; lia].
  - split; [discriminate | apply firstn_le_length].
Qed.

Lemma movie_pipeline_bounds (world : Upstream)
    (search_query region category : string) :
  _get_movie_recommendations world search_query region category <> []
  /\ (List.length
        (_get_movie_recommendations world search_query region category)
      <= 15)%nat.
Proof.
  unfold _get_movie_recommendations.
  destruct (_find_similar_shows world search_query category) as [|c cs].
  - pose proof (mock_movie_results_length search_query category) as H.
    split; [|lia].
    intros E. rewrite E in H. discriminate H.
  - split; [discriminate | apply firstn_le_length].
Qed.

Lemma slice_to_length_le {A : Type} (l : list A) (n : Z) :
  (List.length (Py.slice_to l n) <= List.length l)%nat.
Proof.
  unfold Py.slice_to. destruct (0 <=? n); rewrite length_firstn; lia.
Qed.

(** X13.  For a valid category and a limit of at least one, a request that
    runs the pipeline never gets an empty response, whatever the catalogs
    answer; and for tiktok, movies and tv the response has at most fifteen
    items even when the limit is larger. *)
Lemma valid_request_response_nonempty_capped :
  forall settings world rand cache now later
         category search_query region limit,
    Spec.valid_category category ->
    1 <= limit ->
    TTLCache.contains cache now (cache_key category search_query region)
    = false ->
    1 <= TTLCache.maxsize cache ->
    exists results cache',
      get_recommendations settings world rand cache now later
                          category search_query region limit
      = Some (results, cache')
      /\ results <> []
      /\ (category <> "youtube" -> (List.length results <= 15)%nat).
Proof.
  intros settings world rand cache now later
         category search_query region limit Hcat Hlim Hc Hm.
  destruct (get_recommendations_miss settings world rand cache now later
              category search_query region limit Hc Hm)
    as (c' & H & _).
  pose proof (score_and_rank_perm world rand
                (dispatch settings world category search_query region))
    as Hperm.
  set (out := dispatch settings world category search_query region) in *.
  assert (Hout : out <> []
                 /\ (category <> "youtube" -> (List.length out <= 15)%nat)).
  { unfold out, dispatch, Spec.valid_category in *. simpl in Hcat.
    destruct Hcat as [<-|[<-|[<-|[<-|[]]]]]; simpl.
    - destruct (movie_pipeline_bounds world search_query region "movies").
      auto.
    - destruct (movie_pipeline_bounds world search_query region "tv"). auto.
    - split; [apply youtube_pipeline_nonempty | congruence].
    - destruct (tiktok_pipeline_bounds world search_query region). auto. }
  destruct Hout as (Hne & Hcap).
  eexists _, c'. split; [exact H|]. split.
  - apply slice_to_nonempty; [assumption|].
    intros E. rewrite E in Hperm. apply Permutation_nil in Hperm.
    now apply Hne.
  - intros Hy. etransitivity; [apply slice_to_length_le|].
    rewrite (Permutation_length Hperm). now apply Hcap.
Qed.

(** A tiktok request for thirty items while both catalogs are down. *)
Lemma valid_request_response_witness :
  exists results cache',
    get_recommendations Scenario.settings Scenario.failing_world
      Scenario.no_rand (recommendation_cache Scenario.settings) 0 1
      "tiktok" "cats" "US" 30
    = Some (results, cache')
    /\ results <> []
    /\ ("tiktok" <> "youtube" -> (List.length results <= 15)%nat).
Proof.
  apply (valid_request_response_nonempty_capped
           Scenario.settings Scenario.failing_world Scenario.no_rand
           (recommendation_cache Scenario.settings) 0 1
           "tiktok" "cats" "US" 30).
  - unfold Spec.valid_category. simpl. tauto.
  - lia.
  - reflexivity.
  - vm_compute; discriminate.
Defined.

(** A card made from a search item is tagged youtube, has the item's
    non-empty id, and links to the watch page of that id. *)
Lemma transform_youtube_item_card (item : YtItem.t) (c : Card.t) :
  _transform_youtube_item item = Some c ->
  Card.platform c = "youtube"
  /\ Card.id c <> ""
  /\ Card.url c = "https://www.youtube.com/watch?v=" ++ Card.id c
  /\ YtItem.videoId item = Some (Card.id c).
Proof.
  unfold _transform_youtube_item.
  destruct (YtItem.videoId item) as [v|]; [|discriminate].
  destruct (Py.truthy v) eqn:E; [|discriminate].
  intros [= <-]. cbn. repeat split.
  intros ->. discriminate E.
Qed.

Lemma unique_by_id_incl (results : list Card.t) :
  forall seen x, In x (unique_by_id seen results) -> In x results.
Proof.
  induction results as [|r t IH]; intros seen x; simpl; [tauto|].
  destruct (Py.mem (Card.id r) seen); simpl.
  - intros H. right. now apply (IH seen).
  - intros [<-|H]; [now left | right; now apply (IH (Card.id r :: seen))].
Qed.

(** X14.  Every item a youtube or tiktok request gets from the pipeline is
    tagged with the category of the request, has a non-empty id, and links
    to the watch page of that id; this holds for the catalog's items and
    for the fallback items alike. *)
Lemma video_response_tagged_and_linked :
  forall settings world rand cache now later
         category search_query region limit,
    In category ["youtube"; "tiktok"] ->
    TTLCache.contains cache now (cache_key category search_query region)
    = false ->
    1 <= TTLCache.maxsize cache ->
    exists results cache',
      get_recommendations settings world rand cache now later
                          category search_query region limit
      = Some (results, cache')
      /\ forall c,
           In c results ->
           Card.platform c = category
           /\ Card.id c <> ""
           /\ Card.url c = "https://www.youtube.com/watch?v=" ++ Card.id c.
Proof.
  intros settings world rand cache now later
         category search_query region limit Hcat Hc Hm.
  destruct (get_recommendations_miss settings world rand cache now later
              category search_query region limit Hc Hm)
    as (c' & H & _).
  eexists _, c'. split; [exact H|].
  intros c Hin. apply slice_to_incl in Hin.
  apply (Permutation_in c (score_and_rank_perm _ _ _)) in Hin.
  revert c Hin. apply Forall_forall.
  simpl in Hcat. destruct Hcat as [<-|[<-|[]]]; unfold dispatch; simpl.
  - unfold _get_youtube_recommendations.
    assert (Hmock : Forall (fun c => Card.platform c = "youtube"
                                     /\ Card.id c <> ""
                                     /\ Card.url c
                                        = "https://www.youtube.com/watch?v="
                                          ++ Card.id c)
                           (_get_mock_youtube_results search_query)).
    { unfold _get_mock_youtube_results. simpl.
      repeat (constructor; [repeat split; discriminate|]). constructor. }
    destruct (youtube_search world _) as [| |items]; try exact Hmock.
    destruct (Py.filter_map _transform_youtube_item items) as [|r rs] eqn:E;
      [exact Hmock|].
    rewrite <- E. apply Forall_forall. intros c Hin.
    apply in_filter_map in Hin. destruct Hin as (item & _ & Ht).
    apply transform_youtube_item_card in Ht. tauto.
  - unfold _get_tiktok_style_recommendations.
    set (merged := fold_left _ _ _).
    assert (Hmerged : Forall (fun c => Card.platform c = "tiktok"
                                       /\ Card.id c <> ""
                                       /\ Card.url c
                                          = "https://www.youtube.com/watch?v="
                                            ++ Card.id c) merged).
    { unfold merged. simpl. unfold tiktok_strategy.
      assert (Hvar : forall items,
                 Forall (fun c => Card.platform c = "tiktok"
                                  /\ Card.id c <> ""
                                  /\ Card.url c
                                     = "https://www.youtube.com/watch?v="
                                       ++ Card.id c)
                        (map (Card.with_platform "tiktok")
                             (Py.filter_map _transform_youtube_item items))).
      { intros items. apply Forall_forall. intros c Hin.
        apply in_map_iff in Hin. destruct Hin as (c0 & <- & Hin).
        apply in_filter_map in Hin. destruct Hin as (item & _ & Ht).
        apply transform_youtube_item_card in Ht. cbn. tauto. }
      destruct (youtube_search world _) as [| |items1];
        destruct (youtube_search world _) as [| |items2];
        simpl; try constructor; try apply Hvar.
      apply Forall_app. split; apply Hvar. }
    destruct (unique_by_id [] merged) as [|u us] eqn:E.
    + unfold _get_mock_shorts_results. simpl.
      repeat (constructor; [repeat split; discriminate|]). constructor.
    + rewrite <- E. apply Forall_forall. intros c Hin.
      apply in_firstn in Hin. apply unique_by_id_incl in Hin.
      rewrite Forall_forall in Hmerged. now apply Hmerged.
Qed.

Lemma video_response_witness :
  exists results cache',
    get_recommendations Scenario.settings Scenario.dup_world Scenario.no_rand
      (recommendation_cache Scenario.settings) 0 1 "tiktok" "cats" "US" 20
    = Some (results, cache')
    /\ forall c,
         In c results ->
         Card.platform c = "tiktok"
         /\ Card.id c <> ""
         /\ Card.url c = "https://www.youtube.com/watch?v=" ++ Card.id c.
Proof.
  apply (video_response_tagged_and_linked
           Scenario.settings Scenario.dup_world Scenario.no_rand
           (recommendation_cache Scenario.settings) 0 1
           "tiktok" "cats" "US" 20).
  - simpl. tauto.
  - reflexivity.
  - vm_compute; discriminate.
Defined.

Lemma int_lookup_in {A : Type} (k : Z) (d : list (Z * A)) (v : A) :
  int_lookup k d = Some v -> In v (map snd d).
Proof.
  induction d as [|[k' v'] t IH]; simpl; [discriminate|].
  destruct (k =? k'); [intros [= ->]; now left | auto].
Qed.

Lemma provider_tag_known (world : Upstream) (media_id : Z)
    (media : media_type) (p : Provider.t) :
  In p (_get_tmdb_watch_providers world media_id media) ->
  Py.mem (Provider.platform p) platform_priority = true.
Proof.
  intros Hin.
  assert (Htag : exists ids,
             In (Provider.platform p)
                (Py.filter_map (fun pid => int_lookup pid provider_mapping)
                               ids)).
  { unfold _get_tmdb_watch_providers in Hin.
    destruct (tmdb_providers world media_id media) as [[flatrate buy]|];
      [|destruct Hin].
    destruct (mapped_providers world media_id media
                (tmdb_title world media_id media) flatrate) eqn:E.
    - exists (firstn 3 buy).
      rewrite <- (mapped_providers_tags world media_id media
                    (tmdb_title world media_id media)).
      now apply in_map.
    - exists flatrate.
      rewrite <- (mapped_providers_tags world media_id media
                    (tmdb_title world media_id media)), E.
      now apply in_map. }
  destruct Htag as (ids & Htag). apply in_filter_map in Htag.
  destruct Htag as (pid & _ & Hl). apply int_lookup_in in Hl.
  simpl in Hl.
  repeat (destruct Hl as [<-|Hl]; [reflexivity|]). destruct Hl.
Qed.

(** The platform of a card of the walk, as the walk records it. *)
Lemma structured_card_shows_one_of_its_platforms_aux (world : Upstream)
    (media : media_type) (items : list Candidate.t) (card : Card.t) :
  In card (availability_loop world media items []) ->
  exists item primary,
    In primary (_get_tmdb_watch_providers world (Candidate.id item) media)
    /\ Card.platform card = Provider.platform primary
    /\ Card.all_platforms card
       = Some (map Provider.platform
                   (_get_tmdb_watch_providers world (Candidate.id item)
                                              media)).
Proof.
  intros Hin.
  apply availability_loop_cards_have_platforms in Hin.
  destruct Hin as [[]|(item & primary & Hi & _ & Hc & ->)].
  exists item, primary. repeat split.
  unfold choose_primary_platform in Hc.
  destruct (_get_tmdb_watch_providers world (Candidate.id item) media)
    as [|first others]; [discriminate|].
  injection Hc as <-.
  exact (priority_loop_member (first :: others) platform_priority first
           (or_introl eq_refl)).
Qed.

(** X15.  A card returned for movies or tv is of one of three kinds: a
    structured card, tagged with one of the seven platforms and listing its
    platforms; a card of the fallback video search, tagged youtube; or a
    fallback trailer, tagged with the category.  So a movies request can be
    answered with cards tagged youtube. *)
Lemma movie_card_kinds :
  forall (world : Upstream) (search_query region category : string)
         (card : Card.t),
    In card (_get_movie_recommendations world search_query region category) ->
    (Py.mem (Card.platform card) platform_priority = true
     /\ exists platforms,
          Card.all_platforms card = Some platforms
          /\ In (Card.platform card) platforms)
    \/ (Card.platform card = "youtube" /\ Card.all_platforms card = None)
    \/ (Card.platform card = category /\ Card.all_platforms card = None
        /\ In card (_get_mock_movie_results search_query category)).
Proof.
  intros world search_query region category card.
  unfold _get_movie_recommendations.
  assert (Hfind : forall c,
             In c (_find_similar_shows world search_query category) ->
             (Py.mem (Card.platform c) platform_priority = true
              /\ exists platforms,
                   Card.all_platforms c = Some platforms
                   /\ In (Card.platform c) platforms)
             \/ (Card.platform c = "youtube" /\ Card.all_platforms c = None)).
  { intros c. unfold _find_similar_shows.
    set (media := if (category =? "movies")%string then movie else tv).
    assert (Hfb : In c (_search_youtube_content world
                          (category ++ " similar to " ++ search_query)
                          "US" "youtube" 5) ->
                  Card.platform c = "youtube" /\ Card.all_platforms c = None).
    { unfold _search_youtube_content.
      destruct (youtube_search world _) as [| |items]; try (intros []).
      intros Hin. apply in_filter_map in Hin.
      destruct Hin as (item & _ & Ht).
      pose proof (transform_youtube_item_card _ _ Ht) as (Hp & _).
      split; [exact Hp|].
      unfold _transform_youtube_item in Ht.
      destruct (YtItem.videoId item) as [v|]; [|discriminate].
      destruct (Py.truthy v); [|discriminate].
      now injection Ht as <-. }
    destruct (_search_tmdb world search_query media) as [found|];
      [|intros H; right; now apply Hfb].
    destruct (tmdb_details world (Candidate.id found) media) as [src|];
      [|intros H; right; now apply Hfb].
    intros Hin. left.
    apply structured_card_shows_one_of_its_platforms_aux in Hin.
    destruct Hin as (item & primary & Hp & -> & ->).
    split; [now apply (provider_tag_known world (Candidate.id item) media)|].
    eexists. split; [reflexivity|]. now apply in_map. }
  destruct (_find_similar_shows world search_query category) as [|c cs] eqn:E.
  - intros Hin. right. right. split; [|split; [|exact Hin]].
    + unfold _get_mock_movie_results in Hin. apply in_map_iff in Hin.
      destruct Hin as ([[t v] th] & <- & _). reflexivity.
    + unfold _get_mock_movie_results in Hin. apply in_map_iff in Hin.
      destruct Hin as ([[t v] th] & <- & _). reflexivity.
  - intros Hin. apply in_firstn in Hin.
    destruct (Hfind card Hin) as [H|H]; [now left | right; now left].
Qed.

Lemma movie_card_kinds_witness :
  exists card,
    In card (_get_movie_recommendations Scenario.failing_world
               "batman" "US" "movies")
    /\ ((Py.mem (Card.platform card) platform_priority = true
         /\ exists platforms,
              Card.all_platforms card = Some platforms
              /\ In (Card.platform card) platforms)
        \/ (Card.platform card = "youtube" /\ Card.all_platforms card = None)
        \/ (Card.platform card = "movies" /\ Card.all_platforms card = None
            /\ In card (_get_mock_movie_results "batman" "movies"))).
Proof.
  assert (H : exists card,
             In card (_get_movie_recommendations Scenario.failing_world
                        "batman" "US" "movies")).
  { vm_compute. eexists. left. reflexivity. }
  destruct H as (card & Hin). exists card. split; [exact Hin|].
  exact (movie_card_kinds Scenario.failing_world "batman" "US" "movies"
           card Hin).
Defined.

(** ** The ranking pass: recency against randomness *)

Lemma strongly_sorted_apart {A : Type} (R : A -> A -> Prop)
    (l1 l2 l3 : list A) (x y : A) :
  StronglySorted R (l1 ++ x :: l2 ++ y :: l3) -> R x y.
Proof.
  induction l1 as [|h t IH]; simpl; intros Hs.
  - inversion Hs as [|x' l' _ Hall]; subst.
    rewrite Forall_forall in Hall. apply Hall.
    apply in_or_app. right. now left.
  - inversion Hs; subst. now apply IH.
Qed.

Lemma map_snd_apart {A B : Type} (l : list (A * B)) (l1 l2 l3 : list B)
    (x y : B) :
  map snd l = (l1 ++ x :: l2 ++ y :: l3)%list ->
  exists r1 i r2 j r3, l = (r1 ++ (i, x) :: r2 ++ (j, y) :: r3)%list.
Proof.
  intros H.
  apply map_eq_app in H. destruct H as (r1 & t1 & -> & _ & H).
  apply map_eq_cons in H. destruct H as ([i x'] & t2 & -> & Hx & H).
  apply map_eq_app in H. destruct H as (r2 & t3 & -> & _ & H).
  apply map_eq_cons in H. destruct H as ([j y'] & r3 & -> & Hy & _).
  simpl in Hx, Hy. subst. now exists r1, i, r2, j, r3.
Qed.

Section Ranking.

Variable world : Upstream.
Variable rand : nat -> Q.
Hypothesis rand_range : forall i, (0 <= rand i < 1)%Q.

(** An item at most 208 days old scores above three tenths. *)
Lemma fresh_rank_score (i : nat) (c : Card.t) (d : Z) :
  days_old world (Card.published_at c) = Some d ->
  d <= 208 ->
  (3 # 10 < rank_score world rand (i, c))%Q.
Proof.
  intros Hd Hle. unfold rank_score. cbn [fst snd]. rewrite Hd.
  pose proof (rand_range i) as (Hr & _).
  assert (Hq : (inject_Z d <= 208)%Q)
    by (rewrite (Zle_Qle d 208) in Hle; exact Hle).
  assert (Hdiv : (inject_Z d / 365 <= 208 # 365)%Q).
  { unfold Qdiv. apply (Qmult_le_compat_r _ _ (/ 365) Hq). discriminate. }
  remember (inject_Z d / 365)%Q as x eqn:Ex. clear Ex.
  assert (Hx : (157 # 365 <= Py.qmax 0 (1 - x))%Q).
  { unfold Py.qmax. destruct (Py.qlt 0 (1 - x)) eqn:E.
    - lra.
    - apply qlt_false in E. lra. }
  remember (Py.qmax 0 (1 - x)) as m eqn:Em. clear Em.
  lra.
Qed.

(** An item a year old or more, or without a readable date, scores below
    three tenths. *)
Lemma stale_rank_score (j : nat) (c : Card.t) :
  days_old world (Card.published_at c) = None
  \/ (exists d, days_old world (Card.published_at c) = Some d /\ 365 <= d) ->
  (rank_score world rand (j, c) < 3 # 10)%Q.
Proof.
  intros Hs. unfold rank_score. cbn [fst snd].
  pose proof (rand_range j) as (_ & Hr).
  destruct Hs as [->|(d & -> & Hd)]; [lra|].
  assert (Hq : (365 <= inject_Z d)%Q)
    by (rewrite (Zle_Qle 365 d) in Hd; exact Hd).
  assert (Hdiv : (1 <= inject_Z d / 365)%Q).
  { unfold Qdiv.
    pose proof (Qmult_le_compat_r _ _ (/ 365) Hq) as H.
    apply Qle_trans with (365 * / 365)%Q; [discriminate|].
    apply H. discriminate. }
  remember (inject_Z d / 365)%Q as x eqn:Ex. clear Ex.
  assert (Hx : (Py.qmax 0 (1 - x) == 0)%Q).
  { unfold Py.qmax. destruct (Py.qlt 0 (1 - x)) eqn:E; [|reflexivity].
    apply qlt_true in E. lra. }
  rewrite Hx. lra.
Qed.

End Ranking.

(** An old item never comes out before a recent one. *)
Lemma old_item_not_before_recent (world : Upstream) (rand : nat -> Q)
    (results before between after : list Card.t) (old recent : Card.t)
    (d : Z) :
  (forall i, 0 <= rand i < 1)%Q ->
  days_old world (Card.published_at recent) = Some d ->
  d <= 208 ->
  (days_old world (Card.published_at old) = None
   \/ exists d', days_old world (Card.published_at old) = Some d'
                 /\ 365 <= d') ->
  _score_and_rank world rand results
  <> (before ++ old :: between ++ recent :: after)%list.
Proof.
  intros Hrand Hd Hle Hold Hout.
  unfold _score_and_rank in Hout.
  destruct results as [|r t].
  - destruct before; discriminate Hout.
  - apply map_snd_apart in Hout.
    destruct Hout as (r1 & j & r2 & i & r3 & Hranked).
    pose proof (sort_desc_sorted _ (rank_score world rand)
                  (Py.enumerate_from 0 (r :: t))) as Hs.
    rewrite Hranked in Hs. apply strongly_sorted_apart in Hs.
    pose proof (fresh_rank_score world rand Hrand i recent d Hd Hle).
    pose proof (stale_rank_score world rand Hrand j old Hold).
    lra.
Qed.

(** X16.  In the ranking pass recency outweighs the random part across the
    one-year line: whatever the random generator returns, every item ranked
    before an item published at most 208 days ago has a readable date less
    than 365 days back.  Items a year old or more, and items whose date
    cannot be read, come after it. *)
Lemma items_before_a_recent_one_are_under_a_year :
  forall (world : Upstream) (rand : nat -> Q) (results : list Card.t)
         (before : list Card.t) (x : Card.t) (between : list Card.t)
         (recent : Card.t) (after : list Card.t) (d : Z),
    (forall i, 0 <= rand i < 1)%Q ->
    _score_and_rank world rand results
    = (before ++ x :: between ++ recent :: after)%list ->
    days_old world (Card.published_at recent) = Some d ->
    d <= 208 ->
    exists d', days_old world (Card.published_at x) = Some d' /\ d' < 365.
Proof.
  intros world rand results before x between recent after d
         Hrand Hout Hd Hle.
  destruct (days_old world (Card.published_at x)) as [d'|] eqn:Ex.
  - exists d'. split; [reflexivity|].
    destruct (Z_lt_le_dec d' 365) as [Hlt|Hge]; [exact Hlt|].
    exfalso.
    apply (old_item_not_before_recent world rand results before between
             after x recent d Hrand Hd Hle); [|exact Hout].
    right. exists d'. auto.
  - exfalso.
    apply (old_item_not_before_recent world rand results before between
             after x recent d Hrand Hd Hle); [|exact Hout].
    now left.
Qed.

Lemma items_before_a_recent_one_witness :
  exists d',
    days_old (Scenario.film_world Scenario.sequel_film)
             (Card.published_at (Examples.june_card "a"))
    = Some d'
    /\ d' < 365.
Proof.
  apply (items_before_a_recent_one_are_under_a_year
           (Scenario.film_world Scenario.sequel_film) Scenario.no_rand
           [Examples.june_card "a"; Examples.june_card "b"]
           [] (Examples.june_card "a") [] (Examples.june_card "b") [] 100).
  - intros i. split; [apply Qle_refl | reflexivity].
  - reflexivity.
  - reflexivity.
  - lia.
Defined.

(** ** The cache key *)

(** X17.  The cache key joins category, query and region with colons and
    nothing tells a colon of the query from a separator: two requests of one
    category whose query and region, joined by a colon, read the same share
    their entry.  After the first has stored its result, the second is
    answered with that very list while the entry lives, although its query
    and region differ. *)
Lemma colliding_requests_share_cache_entry :
  forall settings world1 rand1 world2 rand2 cache now1 later1 now2 later2
         category query1 region1 query2 region2 limit,
    query1 ++ ":" ++ region1 = query2 ++ ":" ++ region2 ->
    1 <= TTLCache.maxsize cache ->
    TTLCache.contains cache now1 (cache_key category query1 region1)
    = false ->
    Py.qlt now2 (later1 + TTLCache.ttl cache)%Q = true ->
    exists results cache1 cache2,
      get_recommendations settings world1 rand1 cache now1 later1
                          category query1 region1 limit
      = Some (results, cache1)
      /\ get_recommendations settings world2 rand2 cache1 now2 later2
                             category query2 region2 limit
         = Some (results, cache2).
Proof.
  intros settings world1 rand1 world2 rand2 cache now1 later1 now2 later2
         category query1 region1 query2 region2 limit Hkey Hm Hc Hlive.
  assert (Hk : cache_key category query2 region2
               = cache_key category query1 region1)
    by (unfold cache_key; now rewrite Hkey).
  destruct (get_recommendations_miss settings world1 rand1 cache now1 later1
              category query1 region1 limit Hc Hm)
    as (cache1 & H1 & _ & Hlink).
  rewrite <- Hk in Hlink.
  destruct (get_recommendations_hit settings world2 rand2 cache1 now2 later2
              category query2 region2 limit _ Hlink Hlive)
    as (cache2 & H2 & _).
  eexists _, cache1, cache2. split; [exact H1 | exact H2].
Qed.

(** A request for the query a:b in the region US, then one for the query a
    in the region b:US, ten seconds later. *)
Lemma colliding_requests_witness :
  exists results cache1 cache2,
    get_recommendations Scenario.settings Scenario.failing_world
      Scenario.no_rand (recommendation_cache Scenario.settings) 0 1
      "youtube" "a:b" "US" 5
    = Some (results, cache1)
    /\ get_recommendations Scenario.settings Scenario.dup_world
         Scenario.no_rand cache1 10 11 "youtube" "a" "b:US" 5
       = Some (results, cache2).
Proof.
  apply (colliding_requests_share_cache_entry
           Scenario.settings Scenario.failing_world Scenario.no_rand
           Scenario.dup_world Scenario.no_rand
           (recommendation_cache Scenario.settings) 0 1 10 11
           "youtube" "a:b" "US" "a" "b:US" 5).
  - reflexivity.
  - vm_compute; discriminate.
  - reflexivity.
  - reflexivity.
Defined.

Lemma no_colon_cons (c : ascii) (t : string) :
  Py.str_in ":" (String c t) = false ->
  c <> ":"%char /\ Py.str_in ":" t = false.
Proof.
  cbn [Py.str_in prefix].
  destruct (ascii_dec ":" c) as [<-|Hne].
  - destruct t; discriminate.
  - intros H. split; [congruence | exact H].
Qed.

Lemma colon_split_unique (a b x y : string) :
  Py.str_in ":" a = false ->
  Py.str_in ":" b = false ->
  a ++ ":" ++ x = b ++ ":" ++ y ->
  a = b /\ x = y.
Proof.
  revert b. induction a as [|c t IH]; intros [|c' t'] Ha Hb; simpl.
  - intros [= ->]. auto.
  - intros [= <- _]. apply no_colon_cons in Hb. now destruct Hb.
  - intros [= -> _]. apply no_colon_cons in Ha. now destruct Ha.
  - intros [= <- H]. apply no_colon_cons in Ha, Hb.
    destruct (IH t' (proj2 Ha) (proj2 Hb) H) as (-> & ->). auto.
Qed.

(** X18.  Among requests whose category and query hold no colon the cache
    key tells the requests apart: equal keys mean the same category, the
    same query, character for character, and the same region.  Queries
    that differ in case or in blanks never share an entry. *)
Lemma cache_key_distinguishes_colon_free_requests :
  forall category1 query1 region1 category2 query2 region2 : string,
    Py.str_in ":" category1 = false ->
    Py.str_in ":" query1 = false ->
    Py.str_in ":" category2 = false ->
    Py.str_in ":" query2 = false ->
    cache_key category1 query1 region1 = cache_key category2 query2 region2 ->
    category1 = category2 /\ query1 = query2 /\ region1 = region2.
Proof.
  intros category1 query1 region1 category2 query2 region2
         Hc1 Hq1 Hc2 Hq2 Hkey.
  unfold cache_key in Hkey.
  destruct (colon_split_unique _ _ _ _ Hc1 Hc2 Hkey) as (-> & Hrest).
  destruct (colon_split_unique _ _ _ _ Hq1 Hq2 Hrest) as (-> & ->).
  auto.
Qed.

Lemma cache_key_distinguishes_witness :
  "movies" = "movies" /\ "Batman" = "Batman" /\ "US" = "US".
Proof.
  apply (cache_key_distinguishes_colon_free_requests
           "movies" "Batman" "US" "movies" "Batman" "US");
    reflexivity.
Defined.

(** ** The request schema and the endpoint *)

Section DropWhile.

Variable A : Type.
Variable p : A -> bool.

Lemma drop_while_suffix (l : list A) :
  exists dropped,
    l = (dropped ++ Py.drop_while p l)%list
    /\ Forall (fun x => p x = true) dropped.
Proof.
  induction l as [|c t (dropped & Ht & Hb)]; simpl.
  - exists []. split; [reflexivity | constructor].
  - destruct (p c) eqn:E.
    + exists (c :: dropped). split; [simpl; now rewrite <- Ht|].
      now constructor.
    + exists []. split; [reflexivity | constructor].
Qed.

Lemma drop_while_head (l : list A) :
  match Py.drop_while p l with
  | [] => True
  | c :: _ => p c = false
  end.
Proof.
  induction l as [|c t IH]; simpl; [exact I|].
  destruct (p c) eqn:E; [exact IH | exact E].
Qed.

Lemma drop_while_fixed (l : list A) :
  match l with [] => True | c :: _ => p c = false end ->
  Py.drop_while p l = l.
Proof. destruct l as [|c t]; simpl; [reflexivity | now intros ->]. Qed.

Lemma drop_while_all (l : list A) :
  Forall (fun x => p x = true) l -> Py.drop_while p l = [].
Proof.
  induction 1 as [|c t Hc _ IH]; simpl; [reflexivity | now rewrite Hc].
Qed.

(** Dropping at both ends leaves a segment of the list. *)
Lemma drop_both_segment (l : list A) :
  exists before after,
    l = (before
         ++ rev (Py.drop_while p (rev (Py.drop_while p l))) ++ after)%list
    /\ Forall (fun x => p x = true) before
    /\ Forall (fun x => p x = true) after.
Proof.
  destruct (drop_while_suffix l) as (before & Hl & Hb).
  destruct (drop_while_suffix (rev (Py.drop_while p l)))
    as (after & Hr & Ha).
  exists before, (rev after). split; [|split; [exact Hb|]].
  - rewrite Hl at 1. f_equal.
    rewrite <- (rev_involutive (Py.drop_while p l)) at 1.
    rewrite Hr at 1. apply rev_app_distr.
  - apply Forall_forall. intros x Hx. apply in_rev in Hx.
    rewrite Forall_forall in Ha. now apply Ha.
Qed.

(** The segment neither starts nor ends with an item to drop. *)
Lemma drop_both_fixed (l : list A) :
  rev (Py.drop_while p
         (rev (Py.drop_while p
                 (rev (Py.drop_while p (rev (Py.drop_while p l)))))))
  = rev (Py.drop_while p (rev (Py.drop_while p l))).
Proof.
  set (a := Py.drop_while p l).
  set (b := Py.drop_while p (rev a)).
  assert (Hrb : Py.drop_while p (rev b) = rev b).
  { apply drop_while_fixed.
    destruct (drop_while_suffix (rev a)) as (dropped & Hs & _). fold b in Hs.
    assert (Ha : a = (rev b ++ rev dropped)%list).
    { rewrite <- (rev_involutive a), Hs. apply rev_app_distr. }
    pose proof (drop_while_head l) as Hh. fold a in Hh.
    destruct (rev b) as [|c t]; [exact I|].
    rewrite Ha in Hh. exact Hh. }
  rewrite Hrb, rev_involutive.
  rewrite (drop_while_fixed b); [reflexivity|].
  apply drop_while_head.
Qed.

End DropWhile.

(** *** The characters of a string *)

Lemma chars_shape (s : string) :
  Forall Py.tail_ok (Py.chars s) /\ Forall Py.head_ok (tl (Py.chars s)).
Proof.
  induction s as [|c rest (Ht & Hh)]; simpl; [split; constructor|].
  destruct (Py.chars rest) as [|[|d ds] more] eqn:E.
  - split; repeat constructor.
  - inversion Ht as [|x l Hx _]. destruct Hx.
  - destruct (Py.is_continuation d) eqn:Ed.
    + inversion Ht as [|x l Hx Hl]. split.
      * constructor; [|exact Hl]. simpl. constructor; assumption.
      * exact Hh.
    + split.
      * constructor; [constructor | exact Ht].
      * constructor; [exact Ed | exact Hh].
Qed.

Lemma join_cons (ch : string) (cs : list string) :
  Py.join (ch :: cs) = ch ++ Py.join cs.
Proof.
  unfold Py.join. destruct cs as [|c t]; simpl.
  - induction ch as [|a r IH]; simpl; [reflexivity | now rewrite <- IH].
  - reflexivity.
Qed.

(** The characters of a run of continuation bytes put before a string
    whose characters start as characters should. *)
Lemma chars_continuation_run (t rest : string) :
  t <> EmptyString ->
  Forall (fun c => Py.is_continuation c = true) (list_ascii_of_string t) ->
  Forall Py.head_ok (Py.chars rest) ->
  Py.chars (t ++ rest) = t :: Py.chars rest.
Proof.
  induction t as [|a r IH]; intros Hne Hall Hhead; [congruence|].
  inversion Hall as [|x l Ha Hr]. subst.
  destruct r as [|b r'].
  - simpl. destruct (Py.chars rest) as [|[|d ds] more] eqn:E;
      [reflexivity | reflexivity |].
    inversion Hhead as [|x l Hd _]. simpl in Hd. now rewrite Hd.
  - change (String a (String b r') ++ rest)
      with (String a (String b r' ++ rest)).
    cbn [Py.chars]. rewrite (IH ltac:(discriminate) Hr Hhead).
    inversion Hr as [|x l Hb _]. now rewrite Hb.
Qed.

(** Characters put together again are cut into the same characters. *)
Lemma chars_join (cs : list string) :
  Forall Py.tail_ok cs -> Forall Py.head_ok (tl cs) ->
  Py.chars (Py.join cs) = cs.
Proof.
  induction cs as [|ch rest IH]; intros Ht Hh; [reflexivity|].
  inversion Ht as [|x l Hch Hrest]. subst. cbn [tl] in Hh.
  rewrite join_cons.
  assert (IH' : Py.chars (Py.join rest) = rest).
  { apply IH; [exact Hrest|]. destruct rest; [constructor|].
    now inversion Hh. }
  destruct ch as [|b t]; [destruct Hch|].
  simpl in Hch.
  change (String b t ++ Py.join rest) with (String b (t ++ Py.join rest)).
  cbn [Py.chars].
  destruct t as [|t0 t'].
  - simpl. rewrite IH'. destruct rest as [|[|d ds] more];
      [reflexivity | reflexivity |].
    inversion Hh as [|z l'' Hz _]. simpl in Hz. now rewrite Hz.
  - rewrite (chars_continuation_run (String t0 t') (Py.join rest));
      [|discriminate | exact Hch | now rewrite IH'].
    inversion Hch as [|z l'' Hz _]. rewrite Hz, IH'. reflexivity.
Qed.

Lemma forall_segment {A : Type} (P : A -> Prop) (a b c : list A) :
  Forall P (a ++ b ++ c)%list -> Forall P b.
Proof.
  intros H. apply Forall_app in H. destruct H as (_ & H).
  apply Forall_app in H. tauto.
Qed.

Lemma forall_tl_segment {A : Type} (P : A -> Prop) (a b c : list A) :
  Forall P (tl (a ++ b ++ c)%list) -> Forall P (tl b).
Proof.
  destruct a as [|x a']; simpl.
  - destruct b as [|y b']; simpl; [constructor|].
    intros H. apply Forall_app in H. tauto.
  - intros H. apply (forall_segment P a' b c) in H.
    destruct b; [constructor | now inversion H].
Qed.

(** The characters of the stripped string are a segment of the characters
    of the string, between white space. *)
Lemma chars_strip (s : string) :
  Py.chars (Py.strip s)
  = rev (Py.drop_while Py.is_space
           (rev (Py.drop_while Py.is_space (Py.chars s)))).
Proof.
  unfold Py.strip.
  destruct (drop_both_segment _ Py.is_space (Py.chars s))
    as (before & after & Hseg & _).
  destruct (chars_shape s) as (Ht & Hh).
  rewrite Hseg in Ht, Hh.
  apply chars_join;
    [exact (forall_segment _ _ _ _ Ht) | exact (forall_tl_segment _ _ _ _ Hh)].
Qed.

Lemma strip_idempotent (s : string) : Py.strip (Py.strip s) = Py.strip s.
Proof.
  unfold Py.strip at 1. rewrite chars_strip, drop_both_fixed. reflexivity.
Qed.

Lemma len_strip_le (s : string) : (Py.len (Py.strip s) <= Py.len s)%nat.
Proof.
  unfold Py.len. rewrite chars_strip.
  destruct (drop_both_segment _ Py.is_space (Py.chars s))
    as (before & after & Hseg & _).
  rewrite Hseg at 2. rewrite !length_app. lia.
Qed.

Lemma strip_blank (s : string) :
  Forall (fun ch => Py.is_space ch = true) (Py.chars s) -> Py.strip s = "".
Proof.
  intros H. unfold Py.strip. now rewrite (drop_while_all _ _ _ H).
Qed.

Lemma len_truthy (s : string) : Py.truthy s = true -> (1 <= Py.len s)%nat.
Proof.
  destruct s as [|c rest]; [discriminate|]. intros _. unfold Py.len. simpl.
  destruct (Py.chars rest) as [|[|d ds] more]; simpl; try lia.
  destruct (Py.is_continuation d); simpl; lia.
Qed.

(** The stripped query neither starts nor ends with white space. *)
Lemma strip_ends (s : string) :
  match Py.chars (Py.strip s) with
  | [] => True
  | first :: _ => Py.is_space first = false
  end
  /\ match rev (Py.chars (Py.strip s)) with
     | [] => True
     | last :: _ => Py.is_space last = false
     end.
Proof.
  rewrite chars_strip. split.
  - pose proof (drop_both_fixed _ Py.is_space (Py.chars s)) as Hfix.
    set (kept := rev (Py.drop_while Py.is_space
                        (rev (Py.drop_while Py.is_space (Py.chars s))))) in *.
    pose proof (drop_while_head _ Py.is_space kept) as Hh.
    assert (Hk : Py.drop_while Py.is_space kept = kept).
    { destruct (drop_while_suffix _ Py.is_space
                  (rev (Py.drop_while Py.is_space kept)))
        as (dropped & Hs & _).
      apply (f_equal (@rev _)) in Hs. rewrite rev_involutive in Hs.
      rewrite rev_app_distr, Hfix in Hs.
      apply (f_equal (@List.length _)) in Hs. rewrite length_app in Hs.
      destruct (drop_while_suffix _ Py.is_space kept) as (d2 & Hs2 & _).
      pose proof (f_equal (@List.length _) Hs2) as Hl2.
      rewrite length_app in Hl2.
      assert (Hd2 : d2 = []) by (destruct d2; [reflexivity | simpl in *; lia]).
      rewrite Hd2 in Hs2. now symmetry. }
    rewrite Hk in Hh. exact Hh.
  - rewrite rev_involutive. apply drop_while_head.
Qed.

(** X19.  A request body passes validation only with a query of 1 to 200
    characters that is not all white space and a limit from 1 to 50.  The
    request handed on has the query without its surrounding white space
    (stripping it again changes nothing), of 1 to 200 characters, the limit
    given or else 20, the region given or else US.  A query of white space
    only is refused.  Characters are counted as characters, not as bytes,
    and white space is that of every script. *)
Lemma accepted_request_is_normalised :
  forall body : Routes.RequestBody,
    (forall request,
        Routes.parse_request body = Some request ->
        Routes.category request = Routes.body_category body
        /\ Routes.searchQuery request
           = Py.strip (Routes.body_searchQuery body)
        /\ Py.strip (Routes.searchQuery request)
           = Routes.searchQuery request
        /\ (1 <= Py.len (Routes.searchQuery request) <= 200)%nat
        /\ (1 <= Py.len (Routes.body_searchQuery body) <= 200)%nat
        /\ 1 <= Routes.limit request <= 50
        /\ Routes.limit request
           = match Routes.body_limit body with Some l => l | None => 20 end
        /\ Routes.region request
           = match Routes.body_region body with Some r => r | None => "US" end)
    /\ (Forall (fun ch => Py.is_space ch = true)
               (Py.chars (Routes.body_searchQuery body)) ->
        Routes.parse_request body = None).
Proof.
  intros body. unfold Routes.parse_request, Routes.validate_search_query.
  split.
  - intros request.
    destruct ((1 <=? Py.len (Routes.body_searchQuery body))%nat)
      eqn:E1; [|discriminate].
    destruct ((Py.len (Routes.body_searchQuery body) <=? 200)%nat)
      eqn:E2; [|discriminate].
    destruct (1 <=? match Routes.body_limit body with
                    | Some l => l
                    | None => 20
                    end) eqn:E3; [|discriminate].
    destruct (match Routes.body_limit body with
              | Some l => l
              | None => 20
              end <=? 50) eqn:E4; [|discriminate].
    cbn [andb].
    destruct (Py.truthy (Py.strip (Routes.body_searchQuery body)))
      eqn:E5; [|discriminate].
    cbn [negb].
    destruct ((200 <? Py.len (Py.strip (Routes.body_searchQuery body)))%nat)
      eqn:E6; [discriminate|].
    intros [= <-]. cbn.
    apply Nat.leb_le in E1, E2. apply Z.leb_le in E3, E4.
    apply Nat.ltb_ge in E6. apply len_truthy in E5.
    repeat split; try assumption; try apply strip_idempotent.
  - intros Hblank.
    rewrite (strip_blank _ Hblank). cbn.
    now destruct (_ && _).
Qed.

Lemma parse_request_limit (body : Routes.RequestBody)
    (request : Routes.RecommendationRequest) :
  Routes.parse_request body = Some request ->
  1 <= Routes.limit request <= 50.
Proof.
  unfold Routes.parse_request.
  destruct ((1 <=? Py.len (Routes.body_searchQuery body))%nat);
    [|discriminate].
  destruct ((Py.len (Routes.body_searchQuery body) <=? 200)%nat);
    [|discriminate].
  destruct (1 <=? match Routes.body_limit body with
                  | Some l => l
                  | None => 20
                  end) eqn:E3; [|discriminate].
  destruct (match Routes.body_limit body with
            | Some l => l
            | None => 20
            end <=? 50) eqn:E4; [|discriminate].
  cbn [andb].
  destruct (Routes.validate_search_query _); [|discriminate].
  intros [= <-]. cbn. apply Z.leb_le in E3, E4. lia.
Qed.

(** The service never raises on a state of the module-level cache. *)
Lemma service_returns_on_reachable_cache :
  forall settings world rand cache now later
         category search_query region limit,
    reachable settings cache ->
    0 <= limit ->
    exists results cache',
      RecommendationService.get_recommendations
        settings world rand cache now later category search_query region limit
      = Some (results, cache')
      /\ Z.of_nat (List.length results) <= limit.
Proof.
  intros settings world rand cache now later
         category search_query region limit Hr Hl.
  destruct (reachable_invariant settings cache Hr) as (Hm & _).
  destruct (TTLCache.contains cache now
              (cache_key category search_query region)) eqn:Hc.
  - destruct (contains_live _ _ _ _ Hc) as (e & Hg & Hlive).
    destruct (get_recommendations_hit settings world rand cache now later
                category search_query region limit e Hg Hlive)
      as (c' & H & _).
    eexists _, c'. split; [exact H | now apply slice_to_length].
  - assert (Hmax : 1 <= TTLCache.maxsize cache) by (rewrite Hm; lia).
    destruct (get_recommendations_miss settings world rand cache now later
                category search_query region limit Hc Hmax)
      as (c' & H & _).
    eexists _, c'. split; [exact H | now apply slice_to_length].
Qed.

(** X20.  What the recommendation endpoint answers to a validated request,
    on any state of the cache.  For one of the four categories the service
    is called with the parameters of the request and does not raise; the
    answer is a success with the list the service returned, its length as
    count (at most the limit, so at most 50) and the query as it was
    validated, and the cache is the one the service leaves.  For any other
    category the service is not called and the cache is left as it is; the
    exception with status 400 that the check raises is caught by the
    handler around it, so the answer has status 500. *)
Lemma endpoint_answers :
  forall (str_of : Routes.Raised -> string) settings world rand cache
         now later body request,
    reachable settings cache ->
    Routes.parse_request body = Some request ->
    (In (Routes.category request) Routes.valid_categories ->
     exists results cache',
       RecommendationService.get_recommendations
         settings world rand cache now later
         (Routes.category request) (Routes.searchQuery request)
         (Routes.region request) (Routes.limit request)
       = Some (results, cache')
       /\ Routes.get_recommendations str_of settings world rand cache
                                     now later request
          = (Routes.Success true (Z.of_nat (List.length results)) results
                            (Routes.searchQuery request),
             cache')
       /\ reachable settings cache'
       /\ Z.of_nat (List.length results) <= Routes.limit request <= 50)
    /\ (~ In (Routes.category request) Routes.valid_categories ->
        Routes.get_recommendations str_of settings world rand cache
                                   now later request
        = (Routes.HttpError 500
             ("Failed to fetch recommendations: "
              ++ str_of (Routes.RaisedHTTPException
                           400 Routes.invalid_category_detail)),
           cache)).
Proof.
  intros str_of settings world rand cache now later body request Hr Hp.
  pose proof (parse_request_limit body request Hp) as (Hl1 & Hl50).
  unfold Routes.get_recommendations, Routes.attempt.
  destruct (Py.mem (Routes.category request) Routes.valid_categories) eqn:Em;
    cbn [negb].
  - split; [|intros Hn; apply mem_in in Em; contradiction].
    intros _.
    destruct (service_returns_on_reachable_cache
                settings world rand cache now later
                (Routes.category request) (Routes.searchQuery request)
                (Routes.region request) (Routes.limit request) Hr)
      as (results & c' & Hcall & Hlen); [lia|].
    exists results, c'. rewrite Hcall.
    split; [reflexivity|]. split; [reflexivity|].
    split; [eapply reachable_call; [exact Hr | exact Hcall]|]. lia.
  - split; [|reflexivity].
    intros Hin. apply mem_in in Hin. congruence.
Qed.

(** A request for movies, answered from the fallback trailers when every
    catalog fails, and a request for podcasts, which is none of the four
    categories. *)
Lemma endpoint_answers_witness :
  (exists results cache',
      RecommendationService.get_recommendations
        Scenario.settings Scenario.failing_world Scenario.no_rand
        (recommendation_cache Scenario.settings) 0 1 "movies" "cats" "US" 20
      = Some (results, cache')
      /\ Routes.get_recommendations (fun _ => "") Scenario.settings
           Scenario.failing_world Scenario.no_rand
           (recommendation_cache Scenario.settings) 0 1
           {| Routes.category := "movies";
              Routes.searchQuery := "cats";
              Routes.region := "US";
              Routes.limit := 20 |}
         = (Routes.Success true (Z.of_nat (List.length results)) results
                           "cats",
            cache')
      /\ reachable Scenario.settings cache'
      /\ Z.of_nat (List.length results) <= 20 <= 50)
  /\ Routes.get_recommendations (fun _ => "") Scenario.settings
       Scenario.failing_world Scenario.no_rand
       (recommendation_cache Scenario.settings) 0 1
       {| Routes.category := "podcasts";
          Routes.searchQuery := "cats";
          Routes.region := "US";
          Routes.limit := 20 |}
     = (Routes.HttpError 500 ("Failed to fetch recommendations: " ++ ""),
        recommendation_cache Scenario.settings).
Proof.
  split.
  - destruct (endpoint_answers
                (fun _ => "") Scenario.settings Scenario.failing_world
                Scenario.no_rand (recommendation_cache Scenario.settings) 0 1
                {| Routes.body_category := "movies";
                   Routes.body_searchQuery := "  cats ";
                   Routes.body_region := None;
                   Routes.body_limit := None |}
                {| Routes.category := "movies";
                   Routes.searchQuery := "cats";
                   Routes.region := "US";
                   Routes.limit := 20 |}
                (reachable_initial _) eq_refl) as (H & _).
    apply H. simpl. auto.
  - destruct (endpoint_answers
                (fun _ => "") Scenario.settings Scenario.failing_world
                Scenario.no_rand (recommendation_cache Scenario.settings) 0 1
                {| Routes.body_category := "podcasts";
                   Routes.body_searchQuery := "  cats ";
                   Routes.body_region := None;
                   Routes.body_limit := None |}
                {| Routes.category := "podcasts";
                   Routes.searchQuery := "cats";
                   Routes.region := "US";
                   Routes.limit := 20 |}
                (reachable_initial _) eq_refl) as (_ & H).
    apply H. simpl. intros [H'|[H'|[H'|[H'|[]]]]]; discriminate H'.
Defined.

(** ** Interactions and statistics *)

Lemma filter_length_le_any {A : Type} (f : A -> bool) (l : list A) :
  (List.length (filter f l) <= List.length l)%nat.
Proof.
  induction l as [|x t IH]; simpl; [lia|].
  destruct (f x); simpl; lia.
Qed.

Lemma opt_str_eqb_eq (a b : option string) :
  Py.opt_str_eqb a b = true <-> a = b.
Proof.
  destruct a as [x|], b as [y|]; simpl; split;
    try discriminate; try reflexivity.
  - intros H. apply String.eqb_eq in H. now subst.
  - intros [= ->]. apply String.eqb_refl.
Qed.

Lemma opt_str_eqb_sym (a b : option string) :
  Py.opt_str_eqb a b = Py.opt_str_eqb b a.
Proof.
  destruct a as [x|], b as [y|]; simpl; try reflexivity.
  apply String.eqb_sym.
Qed.

(** *** Rounding to binary64 keeps a bound that is a small integer *)

Lemma half_even_bounds (n d N : Z) :
  0 <= n -> 0 < d -> n <= N * d -> 0 <= Py.half_even n d <= N.
Proof.
  intros Hn Hd HN. unfold Py.half_even.
  pose proof (Z.div_mod n d ltac:(lia)) as Hdm.
  pose proof (Z.mod_pos_bound n d Hd) as Hr.
  assert (Hq0 : 0 <= n / d) by (apply Z.div_pos; lia).
  assert (HqN : n / d <= N) by (apply Z.div_le_upper_bound; lia).
  assert (Hup : 0 < n mod d -> n / d + 1 <= N) by nia.
  destruct (Z.compare_spec (2 * (n mod d)) d) as [E|E|E].
  - destruct (Z.even (n / d)); lia.
  - lia.
  - lia.
Qed.

Lemma floor_log2_lower (a b : Z) :
  0 < a -> 0 < b ->
  (0 <= Py.floor_log2 a b -> b * 2 ^ Py.floor_log2 a b <= a)
  /\ (Py.floor_log2 a b < 0 -> b <= a * 2 ^ (- Py.floor_log2 a b)).
Proof.
  intros Ha Hb. unfold Py.floor_log2.
  pose proof (Z.log2_spec a Ha) as (Ha1 & Ha2).
  pose proof (Z.log2_spec b Hb) as (Hb1 & Hb2).
  pose proof (Z.log2_nonneg a) as Hla. pose proof (Z.log2_nonneg b) as Hlb.
  set (la := Z.log2 a) in *. set (lb := Z.log2 b) in *.
  replace (Z.succ la) with (la + 1) in Ha2 by lia.
  replace (Z.succ lb) with (lb + 1) in Hb2 by lia.
  destruct (0 <=? la - lb) eqn:Ek.
  - apply Z.leb_le in Ek.
    destruct (b * 2 ^ (la - lb) <=? a) eqn:Et.
    + apply Z.leb_le in Et. split; [intros _; exact Et | lia].
    + split.
      * intros Hk.
        assert (E : 2 ^ la = 2 ^ (lb + 1) * 2 ^ (la - lb - 1))
          by (rewrite <- Z.pow_add_r by lia; f_equal; lia).
        assert (0 < 2 ^ (la - lb - 1)) by (apply Z.pow_pos_nonneg; lia).
        nia.
      * intros Hk. assert (E : la - lb = 0) by lia.
        replace (- (la - lb - 1)) with 1 by lia.
        rewrite E in Et. apply Z.leb_gt in Et.
        assert (E2 : la = lb) by lia. rewrite E2 in *.
        rewrite Z.pow_add_r in Hb2 by lia. lia.
  - apply Z.leb_gt in Ek.
    destruct (b <=? a * 2 ^ (- (la - lb))) eqn:Et.
    + apply Z.leb_le in Et. split; [lia | intros _; exact Et].
    + split; [lia|]. intros _.
      replace (- (la - lb - 1)) with (lb + 1 - la) by lia.
      assert (E : 2 ^ (lb + 1) = 2 ^ la * 2 ^ (lb + 1 - la))
        by (rewrite <- Z.pow_add_r by lia; f_equal; lia).
      assert (0 < 2 ^ (lb + 1 - la)) by (apply Z.pow_pos_nonneg; lia).
      nia.
Qed.

Lemma floor_log2_below (a b B j : Z) :
  0 <= a -> 0 < b -> 0 <= j -> B < 2 ^ j -> a <= B * b ->
  Py.floor_log2 a b < j.
Proof.
  intros Ha Hb Hj HB Hab.
  destruct (Z.eq_dec a 0) as [->|Hne].
  - unfold Py.floor_log2. change (Z.log2 0) with 0.
    pose proof (Z.log2_nonneg b). cbv zeta.
    destruct (0 <=? 0 - Z.log2 b) eqn:Ek.
    + apply Z.leb_le in Ek. replace (0 - Z.log2 b) with 0 by lia.
      destruct (b * 2 ^ 0 <=? 0) eqn:Et; [apply Z.leb_le in Et|]; lia.
    + destruct (b <=? 0 * 2 ^ (- (0 - Z.log2 b))) eqn:Et;
        [apply Z.leb_le in Et|]; lia.
  - destruct (floor_log2_lower a b ltac:(lia) Hb) as (Hlow & _).
    destruct (Z_lt_le_dec (Py.floor_log2 a b) j) as [Hlt|Hge]; [exact Hlt|].
    exfalso. specialize (Hlow ltac:(lia)).
    assert (Hp : 2 ^ j <= 2 ^ Py.floor_log2 a b)
      by (apply Z.pow_le_mono_r; lia).
    nia.
Qed.

(** The float nearest to a quotient that is at most [B] is at most [B],
    for a positive integer [B] below 2^52. *)
Lemma truediv_bounds (a b B : Z) :
  0 <= a -> 0 < b -> 0 < B < 2 ^ 52 -> a <= B * b ->
  (0 <= Py.truediv a b <= inject_Z B)%Q.
Proof.
  intros Ha Hb HB Hab. unfold Py.truediv, Py.binary64.
  pose proof (floor_log2_below a b B 52 Ha Hb ltac:(lia) ltac:(lia) Hab)
    as Hk.
  set (e := Z.max (Py.floor_log2 a b - 52) (-1074)).
  assert (He : e < 0) by (unfold e; lia).
  assert (He' : -1074 <= e) by (unfold e; lia).
  destruct (0 <=? e) eqn:E0; [apply Z.leb_le in E0; lia|].
  unfold Py.pow2. rewrite E0.
  assert (Hp : 0 < 2 ^ (- e)) by (apply Z.pow_pos_nonneg; lia).
  pose proof (half_even_bounds (a * 2 ^ (- e)) b (B * 2 ^ (- e))
                ltac:(nia) Hb ltac:(nia)) as (Hm0 & HmB).
  set (m := Py.half_even (a * 2 ^ (- e)) b) in *.
  set (p := 2 ^ (- e)) in *.
  assert (Hpq : (0 < inject_Z p)%Q)
    by (change 0%Q with (inject_Z 0); now rewrite <- Zlt_Qlt).
  assert (Hm0q : (0 <= inject_Z m)%Q)
    by (change 0%Q with (inject_Z 0); now rewrite <- Zle_Qle).
  assert (HmBq : (inject_Z m <= inject_Z B * inject_Z p)%Q)
    by (rewrite <- inject_Z_mult, <- Zle_Qle; exact HmB).
  setoid_replace (inject_Z m * (1 / inject_Z p))%Q
    with (inject_Z m / inject_Z p)%Q by (field; lra).
  split.
  - apply Qle_shift_div_l; [exact Hpq | lra].
  - apply Qle_shift_div_r; [exact Hpq | exact HmBq].
Qed.

Lemma float_of_Q_bounds (q : Q) (B : Z) :
  0 < B < 2 ^ 52 -> (0 <= q <= inject_Z B)%Q ->
  (0 <= Py.float_of_Q q <= inject_Z B)%Q.
Proof.
  intros HB (H0 & H1). unfold Py.float_of_Q.
  destruct q as [n d]. unfold Qle in H0, H1. simpl in *.
  apply truediv_bounds; lia.
Qed.

Lemma round2_bounds (x : Q) :
  (0 <= x <= 100)%Q -> (0 <= Py.round2 x <= 100)%Q.
Proof.
  intros (H0 & H1). unfold Py.round2.
  destruct x as [n d]. unfold Qle in H0, H1. simpl in *.
  pose proof (half_even_bounds (n * 100) (Zpos d) 10000
                ltac:(lia) ltac:(lia) ltac:(lia)) as (Hh0 & Hh1).
  apply (truediv_bounds _ 100 100); lia.
Qed.

(** The click-through rate of a table is a percentage. *)
Lemma rate_is_percentage (clicks total : Z) :
  0 <= clicks <= total -> 0 < total ->
  (0 <= Py.round2 (Py.float_of_Q (Py.truediv clicks total * 100)) <= 100)%Q.
Proof.
  intros Hc Ht.
  pose proof (truediv_bounds clicks total 1 ltac:(lia) Ht ltac:(lia)
                ltac:(lia)) as Hq.
  change (inject_Z 1) with 1%Q in Hq.
  apply round2_bounds.
  apply (float_of_Q_bounds _ 100); [lia|].
  change (inject_Z 100) with 100%Q. split; lra.
Qed.

Lemma breakdown_get_bump (c c0 : option string)
    (groups : list (option string * Z)) :
  RoutesSpec.breakdown_get c (Routes.bump c0 groups)
  = if Routes.opt_key_eqb c c0
    then Some (match RoutesSpec.breakdown_get c groups with
               | Some n => n + 1
               | None => 1
               end)
    else RoutesSpec.breakdown_get c groups.
Proof.
  unfold RoutesSpec.breakdown_get.
  induction groups as [|[c' n] rest IH]; simpl;
    change Routes.opt_key_eqb with Py.opt_str_eqb in *.
  - now destruct (Py.opt_str_eqb c c0).
  - destruct (Py.opt_str_eqb c0 c') eqn:E0; simpl;
      change Routes.opt_key_eqb with Py.opt_str_eqb in *.
    + apply opt_str_eqb_eq in E0. subst c'.
      now destruct (Py.opt_str_eqb c c0).
    + destruct (Py.opt_str_eqb c c') eqn:E1; simpl.
      * destruct (Py.opt_str_eqb c c0) eqn:E2; [|reflexivity].
        apply opt_str_eqb_eq in E1, E2. rewrite <- E1, E2 in E0.
        rewrite (proj2 (opt_str_eqb_eq c0 c0) eq_refl) in E0. discriminate.
      * exact IH.
Qed.

Lemma bump_total (c : option string) (groups : list (option string * Z)) :
  RoutesSpec.group_total (Routes.bump c groups)
  = RoutesSpec.group_total groups + 1.
Proof.
  unfold RoutesSpec.group_total.
  induction groups as [|[c' n] rest IH]; simpl; [lia|].
  destruct (Routes.opt_key_eqb c c'); simpl; lia.
Qed.

Lemma bump_keys (c k : option string) (groups : list (option string * Z)) :
  In k (map fst (Routes.bump c groups)) -> k = c \/ In k (map fst groups).
Proof.
  induction groups as [|[c' n] rest IH]; simpl.
  - intros [<-|[]]. now left.
  - destruct (Routes.opt_key_eqb c c'); simpl.
    + intros [<-|H]; right; [now left | now right].
    + intros [<-|H]; [right; now left|].
      destruct (IH H) as [->|H']; [now left | right; now right].
Qed.

Lemma bump_nodup (c : option string) (groups : list (option string * Z)) :
  NoDup (map fst groups) -> NoDup (map fst (Routes.bump c groups)).
Proof.
  induction groups as [|[c' n] rest IH]; simpl; intros Hnd.
  - repeat constructor. intros [].
  - inversion Hnd as [|x l Hx Hrest]; subst.
    destruct (Routes.opt_key_eqb c c') eqn:E; simpl.
    + now constructor.
    + constructor; [|now apply IH].
      intros Hin. apply bump_keys in Hin. destruct Hin as [->|Hin].
      * unfold Routes.opt_key_eqb in E.
        rewrite (proj2 (opt_str_eqb_eq c c) eq_refl) in E. discriminate.
      * now apply Hx.
Qed.

Lemma count_by_category_invariant (rows : list Routes.UserInteraction) :
  forall groups seen,
    NoDup (map fst groups) ->
    RoutesSpec.group_total groups = Z.of_nat (List.length seen) ->
    (forall c, RoutesSpec.breakdown_get c groups
               = if RoutesSpec.rows_of c seen =? 0 then None
                 else Some (RoutesSpec.rows_of c seen)) ->
    let result :=
      fold_left (fun groups row =>
                   Routes.bump (Routes.interaction_category row) groups)
                rows groups in
    NoDup (map fst result)
    /\ RoutesSpec.group_total result
       = Z.of_nat (List.length (seen ++ rows))
    /\ forall c, RoutesSpec.breakdown_get c result
                 = if RoutesSpec.rows_of c (seen ++ rows) =? 0 then None
                   else Some (RoutesSpec.rows_of c (seen ++ rows)).
Proof.
  induction rows as [|row rest IH]; intros groups seen Hnd Htot Hget; simpl.
  - rewrite app_nil_r. auto.
  - replace (seen ++ row :: rest)%list with ((seen ++ [row]) ++ rest)%list
      by (rewrite <- app_assoc; reflexivity).
    apply IH.
    + now apply bump_nodup.
    + rewrite bump_total, Htot, length_app. simpl. lia.
    + intros c. rewrite breakdown_get_bump, Hget.
      unfold RoutesSpec.rows_of. rewrite filter_app, length_app. cbn [filter].
      set (m := List.length
                  (filter (fun row0 =>
                             Routes.opt_key_eqb c
                               (Routes.interaction_category row0)) seen)).
      destruct (Routes.opt_key_eqb c (Routes.interaction_category row));
        cbn [List.length].
      * destruct (Z.of_nat m =? 0) eqn:E1;
          destruct (Z.of_nat (m + 1) =? 0) eqn:E2;
          try (apply Z.eqb_eq in E2; lia).
        -- apply Z.eqb_eq in E1. f_equal. lia.
        -- f_equal. lia.
      * now rewrite Nat.add_0_r.
Qed.

(** X21.  The statistics of any table of interactions are consistent: the
    clicks are at most the interactions; the click-through rate is 0 for an
    empty table (nothing is divided by zero) and else a percentage between
    0 and 100; the breakdown lists each category once, with the number of
    its rows, and its counts add up to the number of interactions. *)
Lemma stats_are_consistent :
  forall table : list Routes.UserInteraction,
    Routes.total_interactions (Routes.get_stats table)
    = Z.of_nat (List.length table)
    /\ 0 <= Routes.total_clicks (Routes.get_stats table)
       <= Routes.total_interactions (Routes.get_stats table)
    /\ (table = [] ->
        Routes.click_through_rate (Routes.get_stats table) = 0%Q)
    /\ (0 <= Routes.click_through_rate (Routes.get_stats table) <= 100)%Q
    /\ NoDup (map fst (Routes.category_breakdown (Routes.get_stats table)))
    /\ RoutesSpec.group_total
         (Routes.category_breakdown (Routes.get_stats table))
       = Routes.total_interactions (Routes.get_stats table)
    /\ forall c,
         RoutesSpec.breakdown_get c
           (Routes.category_breakdown (Routes.get_stats table))
         = if RoutesSpec.rows_of c table =? 0 then None
           else Some (RoutesSpec.rows_of c table).
Proof.
  intros table. cbn [Routes.get_stats Routes.total_interactions
                       Routes.total_clicks Routes.click_through_rate
                       Routes.category_breakdown].
  pose proof (filter_length_le_any Routes.is_click table) as Hclicks.
  split; [reflexivity|]. split; [lia|]. split; [now intros ->|].
  split; [|].
  - destruct (0 <? Z.of_nat (List.length table)) eqn:E;
      [|split; discriminate].
    apply Z.ltb_lt in E. apply rate_is_percentage; lia.
  - destruct (count_by_category_invariant table [] []) as (H1 & H2 & H3).
    + constructor.
    + reflexivity.
    + intros c. reflexivity.
    + auto.
Qed.

(** X22.  Logging and statistics compose: a logged interaction raises the
    number of interactions by one, the number of clicks by one exactly when
    it carries a clicked video, and the count of its category by one; when
    the commit fails the endpoint reports failure instead of raising and
    the statistics stay as they were. *)
Lemma logged_interaction_shows_in_stats :
  forall (row_id now : Z) (table : list Routes.UserInteraction)
         (interaction : Routes.InteractionLog),
    (let '(answer, table') :=
       Routes.log_interaction true row_id now table interaction in
     answer = (true, "Interaction logged")
     /\ Routes.total_interactions (Routes.get_stats table')
        = Routes.total_interactions (Routes.get_stats table) + 1
     /\ Routes.total_clicks (Routes.get_stats table')
        = Routes.total_clicks (Routes.get_stats table)
          + (match Routes.log_clicked_video_id interaction with
             | Some _ => 1
             | None => 0
             end)
     /\ RoutesSpec.rows_of (Some (Routes.log_category interaction)) table'
        = RoutesSpec.rows_of (Some (Routes.log_category interaction)) table
          + 1)
    /\ Routes.log_interaction false row_id now table interaction
       = ((false, "Logging failed"), table).
Proof.
  intros row_id now table interaction. split; [|reflexivity].
  cbn [Routes.log_interaction Routes.get_stats Routes.total_interactions
         Routes.total_clicks].
  split; [reflexivity|].
  unfold RoutesSpec.rows_of.
  rewrite !filter_app, !length_app. cbn [filter Routes.row_of
    Routes.interaction_category Routes.is_click Routes.clicked_video_id
    Routes.opt_key_eqb Py.opt_str_eqb].
  rewrite String.eqb_refl.
  change (Routes.is_click (Routes.row_of row_id now interaction))
    with (match Routes.log_clicked_video_id interaction with
          | Some _ => true
          | None => false
          end).
  destruct (Routes.log_clicked_video_id interaction); cbn [List.length];
    repeat split; lia.
Qed.

(** ** Details of a show *)

Lemma show_factor_sum_le (s c : Details.t) :
  Spec.franchise_points s c = 0%Q ->
  Spec.director_points s c = 0%Q ->
  Spec.budget_points s c = 0%Q ->
  (0 <= similarity_score s c <= 90)%Q.
Proof.
  intros Hf Hd Hb.
  rewrite (similarity_score_factor_sum s c). unfold Spec.table_sum.
  rewrite Hf, Hd, Hb.
  pose proof (overlap_points_bounds 5 25 _
                ltac:(discriminate) ltac:(discriminate)
                (overlap_nonneg (Details.cast s) (Details.cast c))).
  pose proof (overlap_points_bounds 10 20 _
                ltac:(discriminate) ltac:(discriminate)
                (overlap_nonneg (Details.genres s) (Details.genres c))).
  pose proof (overlap_points_bounds 2 15 _
                ltac:(discriminate) ltac:(discriminate)
                (overlap_nonneg (Details.keywords s) (Details.keywords c))).
  pose proof (overlap_points_bounds (15 # 2) 15 _
                ltac:(discriminate) ltac:(discriminate)
                (overlap_nonneg (Details.companies s) (Details.companies c))).
  pose proof (runtime_bounds s c). pose proof (rating_bounds s c).
  pose proof (year_bounds s c).
  split; lra.
Qed.

(** X23.  The details read for a show carry no director, no collection and
    no budget or revenue, whatever the catalog answers; so a score in which
    either side is a show leaves out the franchise, director and budget
    factors and is at most 90. *)
Lemma show_details_score_at_most_ninety :
  forall (media_id : Z) (data : TmdbDetailsRaw.t) (other : Details.t),
    Details.director (TmdbDetails.details_of media_id tv data) = None
    /\ Details.collection (TmdbDetails.details_of media_id tv data) = None
    /\ Details.budget (TmdbDetails.details_of media_id tv data) = 0
    /\ Details.revenue (TmdbDetails.details_of media_id tv data) = 0
    /\ (0 <= similarity_score (TmdbDetails.details_of media_id tv data) other
         <= 90)%Q
    /\ (0 <= similarity_score other (TmdbDetails.details_of media_id tv data)
         <= 90)%Q.
Proof.
  intros media_id data other.
  set (show := TmdbDetails.details_of media_id tv data).
  repeat (split; [reflexivity|]).
  split; apply show_factor_sum_le.
  - reflexivity.
  - reflexivity.
  - reflexivity.
  - unfold Spec.franchise_points.
    change (Details.collection show) with (@None string).
    now rewrite andb_false_r.
  - unfold Spec.director_points.
    change (Details.director show) with (@None string).
    now rewrite andb_false_r.
  - unfold Spec.budget_points.
    change (Details.budget show) with 0.
    change (0 <? 0) with false.
    now rewrite andb_false_r.
Qed.

(** ** The properties above on the catalog of the examples *)

Lemma similar_items_witness :
  exists c,
    In c (_get_tmdb_similar (Scenario.film_world Scenario.sequel_film) 1 movie)
    /\ exists results item,
         tmdb_similar (Scenario.film_world Scenario.sequel_film) 1 movie
         = Some results
         /\ In item (firstn 30 results)
         /\ (10 < TmdbRaw.popularity item)%Q
         /\ Candidate.id c = TmdbRaw.id item
         /\ Candidate.popularity c = Some (TmdbRaw.popularity item).
Proof.
  destruct (similar_items_capped_popular_sorted
              (Scenario.film_world Scenario.sequel_film) 1 movie)
    as (_ & H & _).
  eexists. split; [|apply H]; vm_compute; left; reflexivity.
Defined.

(** The crowded catalog: the discovery loop raises at its fifteenth entry
    and the pool comes back with thirty-four candidates. *)
Lemma candidate_pool_witness :
  discovery_loop_raises Examples.crowded_world 1 movie Scenario.source_film
  = true
  /\ List.length
       (_get_tmdb_recommendations_multi_strategy
          Examples.crowded_world 1 movie Scenario.source_film) = 34%nat
  /\ exists c,
       In c (_get_tmdb_recommendations_multi_strategy
               Examples.crowded_world 1 movie Scenario.source_film)
       /\ (exists p, Candidate.popularity c = Some p /\ (10 < p)%Q)
       /\ (In c (_get_tmdb_similar Examples.crowded_world 1 movie)
           \/ (Candidate.id c <> 1
               /\ ~ In (Candidate.id c)
                    (map Candidate.id
                       (_get_tmdb_similar Examples.crowded_world 1 movie)))).
Proof.
  destruct (candidate_pool_capped_popular_similar_first
              Examples.crowded_world 1 movie Scenario.source_film) as (_ & H).
  split; [reflexivity|]. split; [reflexivity|].
  eexists. split; [|apply H]; vm_compute; left; reflexivity.
Defined.

Lemma genre_ids_witness :
  In 28 (_get_genre_ids ["Action"; "Slapstick"])
  /\ ~ In 0 (_get_genre_ids ["Action"; "Slapstick"]).
Proof.
  destruct (genre_ids_of_known_names_only ["Action"; "Slapstick"])
    as (_ & H0 & H & _).
  split; [|exact H0].
  apply H. exists "Action". split; [left|]; reflexivity.
Defined.


(** A query between blanks; a query that is one no-break space, which is
    white space and so refused; and a query of 101 accented letters, which
    are 202 bytes and 101 characters, and so accepted. *)
Lemma accepted_request_witness :
  (exists request,
      Routes.parse_request
        {| Routes.body_category := "movies";
           Routes.body_searchQuery := "  Inception ";
           Routes.body_region := None;
           Routes.body_limit := None |}
      = Some request
      /\ Routes.searchQuery request = "Inception"
      /\ Routes.limit request = 20
      /\ Routes.region request = "US")
  /\ Routes.parse_request
       {| Routes.body_category := "movies";
          Routes.body_searchQuery := Examples.no_break_space;
          Routes.body_region := None;
          Routes.body_limit := None |}
     = None
  /\ (exists request,
        Routes.parse_request
          {| Routes.body_category := "movies";
             Routes.body_searchQuery := Examples.accented 101;
             Routes.body_region := None;
             Routes.body_limit := None |}
        = Some request
        /\ Routes.searchQuery request = Examples.accented 101
        /\ (1 <= Py.len (Routes.searchQuery request) <= 200)%nat).
Proof.
  split; [|split].
  - eexists. split; [reflexivity|].
    destruct (accepted_request_is_normalised
                {| Routes.body_category := "movies";
                   Routes.body_searchQuery := "  Inception ";
                   Routes.body_region := None;
                   Routes.body_limit := None |}) as (H & _).
    destruct (H _ eq_refl) as (_ & Hq & _ & _ & _ & _ & Hl & Hr).
    repeat split; assumption.
  - destruct (accepted_request_is_normalised
                {| Routes.body_category := "movies";
                   Routes.body_searchQuery := Examples.no_break_space;
                   Routes.body_region := None;
                   Routes.body_limit := None |}) as (_ & H).
    apply H. repeat constructor.
  - eexists. split; [vm_compute; reflexivity|].
    destruct (accepted_request_is_normalised
                {| Routes.body_category := "movies";
                   Routes.body_searchQuery := Examples.accented 101;
                   Routes.body_region := None;
                   Routes.body_limit := None |}) as (H & _).
    destruct (H _ ltac:(vm_compute; reflexivity))
      as (_ & Hq & _ & Hlen & _).
    split; [|exact Hlen]. rewrite Hq. vm_compute. reflexivity.
Defined.
